(** * CO2 / Peltier / fan cooling simulators: model and checked properties

    Shallow embedding of the per-timestep cooling engine of three scripts of
    the repository:

    - [Pro]       : simulation/laptopcoolingsim1yearsim4o1-pro.py
    - [Sim2]      : simulation/laptopcoolingsim1yearsim2.py (Peltier controller,
                    microburst schedule, canister swap/refill block and hiss
                    usage)
    - [LaptopSim] : co2cooling/laptop_sim.py

    Numeric model.  Python [int] values are [Z] (floor division [//] is
    [Z.div], [%] is [Z.modulo]); Python [float] values are exact rationals
    [Q], so every arithmetic operation is the mathematical one and rounding
    is absent.  Equality of computed rationals is [Qeq] ([==]).  The one
    transcendental call, [np.sin(x * np.pi)], is a parameter of the model. *)

From Stdlib Require Import ZArith QArith Qminmax Lqa Lia List Bool.
Import ListNotations.
Open Scope Q_scope.

(** ** Python helpers *)

Definition Qltb (x y : Q) : bool := negb (Qle_bool y x).
Infix "<=?" := Qle_bool (at level 70, no associativity) : Q_scope.
Infix "<?" := Qltb (at level 70, no associativity) : Q_scope.

(** [int(x)] on a float: truncation toward zero. *)
Definition py_int (x : Q) : Z := Z.quot (Qnum x) (Zpos (Qden x)).

(** [l[i]] and [l[i] = v] on a list; the simulators only index the
    two-element canister list with 0 or 1 (see [wf] below), so the
    out-of-range defaults are never reached. *)
Definition item (l : list Q) (i : nat) : Q := nth i l 0.

Fixpoint setitem (l : list Q) (i : nat) (v : Q) : list Q :=
  match l, i with
  | [], _ => []
  | _ :: tl, O => v :: tl
  | hd :: tl, S j => hd :: setitem tl j v
  end.

(** [sum(l)] *)
Definition py_sum (l : list Q) : Q := fold_left Qplus l 0.

(** [max(l)]: the first maximal element ([max] replaces its candidate only
    by a strictly greater item); [None] is the [ValueError] raised on an
    empty list. *)
Definition py_max (l : list Q) : option Q :=
  match l with
  | [] => None
  | x :: tl => Some (fold_left (fun m y => if m <? y then y else m) tl x)
  end.

(** Fan operating modes (the strings assigned to [fan_mode]). *)
Inductive FanMode := PASSIVE | SLOW_HISS | PURGE | EMERGENCY | NORMAL.

(** The [cooling_contribution] dictionary: six fixed keys, joules. *)
Record Contribution := {
  passive : Q;
  co2_hiss : Q;
  co2_purge : Q;
  canister_conduction : Q;
  peltier : Q;
  fan_boost : Q
}.

Definition no_contribution : Contribution :=
  {| passive := 0; co2_hiss := 0; co2_purge := 0; canister_conduction := 0;
     peltier := 0; fan_boost := 0 |}.

Definition add_passive (v : Q) (c : Contribution) : Contribution :=
  {| passive := passive c + v; co2_hiss := co2_hiss c; co2_purge := co2_purge c;
     canister_conduction := canister_conduction c; peltier := peltier c;
     fan_boost := fan_boost c |}.
Definition add_co2_hiss (v : Q) (c : Contribution) : Contribution :=
  {| passive := passive c; co2_hiss := co2_hiss c + v; co2_purge := co2_purge c;
     canister_conduction := canister_conduction c; peltier := peltier c;
     fan_boost := fan_boost c |}.
Definition add_co2_purge (v : Q) (c : Contribution) : Contribution :=
  {| passive := passive c; co2_hiss := co2_hiss c; co2_purge := co2_purge c + v;
     canister_conduction := canister_conduction c; peltier := peltier c;
     fan_boost := fan_boost c |}.
Definition add_canister_conduction (v : Q) (c : Contribution) : Contribution :=
  {| passive := passive c; co2_hiss := co2_hiss c; co2_purge := co2_purge c;
     canister_conduction := canister_conduction c + v; peltier := peltier c;
     fan_boost := fan_boost c |}.
Definition add_peltier (v : Q) (c : Contribution) : Contribution :=
  {| passive := passive c; co2_hiss := co2_hiss c; co2_purge := co2_purge c;
     canister_conduction := canister_conduction c; peltier := peltier c + v;
     fan_boost := fan_boost c |}.
Definition add_fan_boost (v : Q) (c : Contribution) : Contribution :=
  {| passive := passive c; co2_hiss := co2_hiss c; co2_purge := co2_purge c;
     canister_conduction := canister_conduction c; peltier := peltier c;
     fan_boost := fan_boost c + v |}.

(** Entries of the [events] log: the timestamp and the leading quantities
    of each f-string. *)
Inductive Event :=
| EmergPurge (seconds : Z) (temp_drop temperature co2_left fan battery : Q)
| SwapLog (seconds : Z) (canister : nat) (co2 temperature battery : Q)
| RefillLog (seconds : Z) (temperature battery : Q)
| Status (seconds : Z) (temperature co2 battery : Q) (mode : FanMode)
| BatteryDepleted (seconds : Z).

(** The temperature-banded microburst table returns
    [(burst_duration, cycle_time)]. *)
Definition Band : Type := (Q * Q)%type.

(** ** simulation/laptopcoolingsim1yearsim4o1-pro.py *)
Module Pro.

(** *** 1) System parameters *)
Definition cpu_power_watts : Q := 18.5.
Definition passive_dissipation_watts : Q := 1.5.
Definition thermal_mass_j_per_c : Q := 300.
Definition initial_temp_c : Q := 25.
Definition critical_temp_c : Q := 90.
Definition emergency_temp_c : Q := 75.

Definition cooling_capacity_joules : Q := 2900.
Definition purge_efficiency : Q := 0.85.
Definition cooling_effective_joules : Q :=
  cooling_capacity_joules * purge_efficiency.
Definition cooldown_per_purge_c : Q :=
  cooling_effective_joules / thermal_mass_j_per_c.
Definition conduction_watts : Q := 2.2.
Definition conduction_duration : Z := 180.

Definition peltier_max_cooling_watts : Q := 30.
Definition peltier_power_draw : Q := 30.
Definition peltier_max_runtime : Z := 120.
Definition peltier_efficiency_base : Q := 0.6.
Definition battery_capacity_wh : Q := 8500000000.

Definition fan_power_draw : Q := 0.25.
Definition fan_efficiency_multiplier_base : Q := 1.3.
Definition fan_efficiency_multiplier_max : Q := 2.5.
Definition fan_ramp_time : Q := 1.0.

Definition time_step_s : Z := 5.

(** *** 2) Tracking variables (the module-level globals) *)
Record State := {
  canisters : list Q;
  current_canister : nat;
  purge_count : Z;
  canister_swaps : Z;
  last_purge_time : Z;
  temperature_c : Q;
  peak_temp_c : Q;
  events : list Event;
  temperature_log : list Q;
  peltier_active : bool;
  peltier_runtime_s : Z;
  battery_remaining_wh : Q;
  hot_side_temp_c : Q;
  fan_active : bool;
  fan_duty_cycle : Q;
  fan_mode : FanMode;
  post_purge_timer : Z;
  cooling_contribution : Contribution;
  last_swap_log_time : Z;
  n_steps : Z;
  total_time_s : Z
}.

Definition init : State :=
  {| canisters := [cooling_capacity_joules; cooling_capacity_joules];
     current_canister := 0;
     purge_count := 0;
     canister_swaps := 0;
     last_purge_time := -9999;
     temperature_c := initial_temp_c;
     peak_temp_c := initial_temp_c;
     events := [];
     temperature_log := [];
     peltier_active := true;
     peltier_runtime_s := 0;
     battery_remaining_wh := battery_capacity_wh;
     hot_side_temp_c := initial_temp_c;
     fan_active := true;
     fan_duty_cycle := 0;
     fan_mode := PASSIVE;
     post_purge_timer := 0;
     cooling_contribution := no_contribution;
     last_swap_log_time := -9999999;
     n_steps := 31536000 / 5;
     total_time_s := 31536000 |}.

(** Assignments to one global. *)
Definition set_canisters (v : list Q) (s : State) : State :=
  {| canisters := v; current_canister := current_canister s;
     purge_count := purge_count s; canister_swaps := canister_swaps s;
     last_purge_time := last_purge_time s; temperature_c := temperature_c s;
     peak_temp_c := peak_temp_c s; events := events s;
     temperature_log := temperature_log s; peltier_active := peltier_active s;
     peltier_runtime_s := peltier_runtime_s s;
     battery_remaining_wh := battery_remaining_wh s;
     hot_side_temp_c := hot_side_temp_c s; fan_active := fan_active s;
     fan_duty_cycle := fan_duty_cycle s; fan_mode := fan_mode s;
     post_purge_timer := post_purge_timer s;
     cooling_contribution := cooling_contribution s;
     last_swap_log_time := last_swap_log_time s; n_steps := n_steps s;
     total_time_s := total_time_s s |}.
Definition set_current_canister (v : nat) (s : State) : State :=
  {| canisters := canisters s; current_canister := v;
     purge_count := purge_count s; canister_swaps := canister_swaps s;
     last_purge_time := last_purge_time s; temperature_c := temperature_c s;
     peak_temp_c := peak_temp_c s; events := events s;
     temperature_log := temperature_log s; peltier_active := peltier_active s;
     peltier_runtime_s := peltier_runtime_s s;
     battery_remaining_wh := battery_remaining_wh s;
     hot_side_temp_c := hot_side_temp_c s; fan_active := fan_active s;
     fan_duty_cycle := fan_duty_cycle s; fan_mode := fan_mode s;
     post_purge_timer := post_purge_timer s;
     cooling_contribution := cooling_contribution s;
     last_swap_log_time := last_swap_log_time s; n_steps := n_steps s;
     total_time_s := total_time_s s |}.
Definition set_purge_count (v : Z) (s : State) : State :=
  {| canisters := canisters s; current_canister := current_canister s;
     purge_count := v; canister_swaps := canister_swaps s;
     last_purge_time := last_purge_time s; temperature_c := temperature_c s;
     peak_temp_c := peak_temp_c s; events := events s;
     temperature_log := temperature_log s; peltier_active := peltier_active s;
     peltier_runtime_s := peltier_runtime_s s;
     battery_remaining_wh := battery_remaining_wh s;
     hot_side_temp_c := hot_side_temp_c s; fan_active := fan_active s;
     fan_duty_cycle := fan_duty_cycle s; fan_mode := fan_mode s;
     post_purge_timer := post_purge_timer s;
     cooling_contribution := cooling_contribution s;
     last_swap_log_time := last_swap_log_time s; n_steps := n_steps s;
     total_time_s := total_time_s s |}.
Definition set_canister_swaps (v : Z) (s : State) : State :=
  {| canisters := canisters s; current_canister := current_canister s;
     purge_count := purge_count s; canister_swaps := v;
     last_purge_time := last_purge_time s; temperature_c := temperature_c s;
     peak_temp_c := peak_temp_c s; events := events s;
     temperature_log := temperature_log s; peltier_active := peltier_active s;
     peltier_runtime_s := peltier_runtime_s s;
     battery_remaining_wh := battery_remaining_wh s;
     hot_side_temp_c := hot_side_temp_c s; fan_active := fan_active s;
     fan_duty_cycle := fan_duty_cycle s; fan_mode := fan_mode s;
     post_purge_timer := post_purge_timer s;
     cooling_contribution := cooling_contribution s;
     last_swap_log_time := last_swap_log_time s; n_steps := n_steps s;
     total_time_s := total_time_s s |}.
Definition set_last_purge_time (v : Z) (s : State) : State :=
  {| canisters := canisters s; current_canister := current_canister s;
     purge_count := purge_count s; canister_swaps := canister_swaps s;
     last_purge_time := v; temperature_c := temperature_c s;
     peak_temp_c := peak_temp_c s; events := events s;
     temperature_log := temperature_log s; peltier_active := peltier_active s;
     peltier_runtime_s := peltier_runtime_s s;
     battery_remaining_wh := battery_remaining_wh s;
     hot_side_temp_c := hot_side_temp_c s; fan_active := fan_active s;
     fan_duty_cycle := fan_duty_cycle s; fan_mode := fan_mode s;
     post_purge_timer := post_purge_timer s;
     cooling_contribution := cooling_contribution s;
     last_swap_log_time := last_swap_log_time s; n_steps := n_steps s;
     total_time_s := total_time_s s |}.
Definition set_temperature_c (v : Q) (s : State) : State :=
  {| canisters := canisters s; current_canister := current_canister s;
     purge_count := purge_count s; canister_swaps := canister_swaps s;
     last_purge_time := last_purge_time s; temperature_c := v;
     peak_temp_c := peak_temp_c s; events := events s;
     temperature_log := temperature_log s; peltier_active := peltier_active s;
     peltier_runtime_s := peltier_runtime_s s;
     battery_remaining_wh := battery_remaining_wh s;
     hot_side_temp_c := hot_side_temp_c s; fan_active := fan_active s;
     fan_duty_cycle := fan_duty_cycle s; fan_mode := fan_mode s;
     post_purge_timer := post_purge_timer s;
     cooling_contribution := cooling_contribution s;
     last_swap_log_time := last_swap_log_time s; n_steps := n_steps s;
     total_time_s := total_time_s s |}.
Definition set_peak_temp_c (v : Q) (s : State) : State :=
  {| canisters := canisters s; current_canister := current_canister s;
     purge_count := purge_count s; canister_swaps := canister_swaps s;
     last_purge_time := last_purge_time s; temperature_c := temperature_c s;
     peak_temp_c := v; events := events s; temperature_log := temperature_log s;
     peltier_active := peltier_active s;
     peltier_runtime_s := peltier_runtime_s s;
     battery_remaining_wh := battery_remaining_wh s;
     hot_side_temp_c := hot_side_temp_c s; fan_active := fan_active s;
     fan_duty_cycle := fan_duty_cycle s; fan_mode := fan_mode s;
     post_purge_timer := post_purge_timer s;
     cooling_contribution := cooling_contribution s;
     last_swap_log_time := last_swap_log_time s; n_steps := n_steps s;
     total_time_s := total_time_s s |}.
Definition set_events (v : list Event) (s : State) : State :=
  {| canisters := canisters s; current_canister := current_canister s;
     purge_count := purge_count s; canister_swaps := canister_swaps s;
     last_purge_time := last_purge_time s; temperature_c := temperature_c s;
     peak_temp_c := peak_temp_c s; events := v;
     temperature_log := temperature_log s; peltier_active := peltier_active s;
     peltier_runtime_s := peltier_runtime_s s;
     battery_remaining_wh := battery_remaining_wh s;
     hot_side_temp_c := hot_side_temp_c s; fan_active := fan_active s;
     fan_duty_cycle := fan_duty_cycle s; fan_mode := fan_mode s;
     post_purge_timer := post_purge_timer s;
     cooling_contribution := cooling_contribution s;
     last_swap_log_time := last_swap_log_time s; n_steps := n_steps s;
     total_time_s := total_time_s s |}.
Definition set_temperature_log (v : list Q) (s : State) : State :=
  {| canisters := canisters s; current_canister := current_canister s;
     purge_count := purge_count s; canister_swaps := canister_swaps s;
     last_purge_time := last_purge_time s; temperature_c := temperature_c s;
     peak_temp_c := peak_temp_c s; events := events s; temperature_log := v;
     peltier_active := peltier_active s;
     peltier_runtime_s := peltier_runtime_s s;
     battery_remaining_wh := battery_remaining_wh s;
     hot_side_temp_c := hot_side_temp_c s; fan_active := fan_active s;
     fan_duty_cycle := fan_duty_cycle s; fan_mode := fan_mode s;
     post_purge_timer := post_purge_timer s;
     cooling_contribution := cooling_contribution s;
     last_swap_log_time := last_swap_log_time s; n_steps := n_steps s;
     total_time_s := total_time_s s |}.
Definition set_peltier_active (v : bool) (s : State) : State :=
  {| canisters := canisters s; current_canister := current_canister s;
     purge_count := purge_count s; canister_swaps := canister_swaps s;
     last_purge_time := last_purge_time s; temperature_c := temperature_c s;
     peak_temp_c := peak_temp_c s; events := events s;
     temperature_log := temperature_log s; peltier_active := v;
     peltier_runtime_s := peltier_runtime_s s;
     battery_remaining_wh := battery_remaining_wh s;
     hot_side_temp_c := hot_side_temp_c s; fan_active := fan_active s;
     fan_duty_cycle := fan_duty_cycle s; fan_mode := fan_mode s;
     post_purge_timer := post_purge_timer s;
     cooling_contribution := cooling_contribution s;
     last_swap_log_time := last_swap_log_time s; n_steps := n_steps s;
     total_time_s := total_time_s s |}.
Definition set_peltier_runtime_s (v : Z) (s : State) : State :=
  {| canisters := canisters s; current_canister := current_canister s;
     purge_count := purge_count s; canister_swaps := canister_swaps s;
     last_purge_time := last_purge_time s; temperature_c := temperature_c s;
     peak_temp_c := peak_temp_c s; events := events s;
     temperature_log := temperature_log s; peltier_active := peltier_active s;
     peltier_runtime_s := v; battery_remaining_wh := battery_remaining_wh s;
     hot_side_temp_c := hot_side_temp_c s; fan_active := fan_active s;
     fan_duty_cycle := fan_duty_cycle s; fan_mode := fan_mode s;
     post_purge_timer := post_purge_timer s;
     cooling_contribution := cooling_contribution s;
     last_swap_log_time := last_swap_log_time s; n_steps := n_steps s;
     total_time_s := total_time_s s |}.
Definition set_battery_remaining_wh (v : Q) (s : State) : State :=
  {| canisters := canisters s; current_canister := current_canister s;
     purge_count := purge_count s; canister_swaps := canister_swaps s;
     last_purge_time := last_purge_time s; temperature_c := temperature_c s;
     peak_temp_c := peak_temp_c s; events := events s;
     temperature_log := temperature_log s; peltier_active := peltier_active s;
     peltier_runtime_s := peltier_runtime_s s; battery_remaining_wh := v;
     hot_side_temp_c := hot_side_temp_c s; fan_active := fan_active s;
     fan_duty_cycle := fan_duty_cycle s; fan_mode := fan_mode s;
     post_purge_timer := post_purge_timer s;
     cooling_contribution := cooling_contribution s;
     last_swap_log_time := last_swap_log_time s; n_steps := n_steps s;
     total_time_s := total_time_s s |}.
Definition set_hot_side_temp_c (v : Q) (s : State) : State :=
  {| canisters := canisters s; current_canister := current_canister s;
     purge_count := purge_count s; canister_swaps := canister_swaps s;
     last_purge_time := last_purge_time s; temperature_c := temperature_c s;
     peak_temp_c := peak_temp_c s; events := events s;
     temperature_log := temperature_log s; peltier_active := peltier_active s;
     peltier_runtime_s := peltier_runtime_s s;
     battery_remaining_wh := battery_remaining_wh s; hot_side_temp_c := v;
     fan_active := fan_active s; fan_duty_cycle := fan_duty_cycle s;
     fan_mode := fan_mode s; post_purge_timer := post_purge_timer s;
     cooling_contribution := cooling_contribution s;
     last_swap_log_time := last_swap_log_time s; n_steps := n_steps s;
     total_time_s := total_time_s s |}.
Definition set_fan_active (v : bool) (s : State) : State :=
  {| canisters := canisters s; current_canister := current_canister s;
     purge_count := purge_count s; canister_swaps := canister_swaps s;
     last_purge_time := last_purge_time s; temperature_c := temperature_c s;
     peak_temp_c := peak_temp_c s; events := events s;
     temperature_log := temperature_log s; peltier_active := peltier_active s;
     peltier_runtime_s := peltier_runtime_s s;
     battery_remaining_wh := battery_remaining_wh s;
     hot_side_temp_c := hot_side_temp_c s; fan_active := v;
     fan_duty_cycle := fan_duty_cycle s; fan_mode := fan_mode s;
     post_purge_timer := post_purge_timer s;
     cooling_contribution := cooling_contribution s;
     last_swap_log_time := last_swap_log_time s; n_steps := n_steps s;
     total_time_s := total_time_s s |}.
Definition set_fan_duty_cycle (v : Q) (s : State) : State :=
  {| canisters := canisters s; current_canister := current_canister s;
     purge_count := purge_count s; canister_swaps := canister_swaps s;
     last_purge_time := last_purge_time s; temperature_c := temperature_c s;
     peak_temp_c := peak_temp_c s; events := events s;
     temperature_log := temperature_log s; peltier_active := peltier_active s;
     peltier_runtime_s := peltier_runtime_s s;
     battery_remaining_wh := battery_remaining_wh s;
     hot_side_temp_c := hot_side_temp_c s; fan_active := fan_active s;
     fan_duty_cycle := v; fan_mode := fan_mode s;
     post_purge_timer := post_purge_timer s;
     cooling_contribution := cooling_contribution s;
     last_swap_log_time := last_swap_log_time s; n_steps := n_steps s;
     total_time_s := total_time_s s |}.
Definition set_fan_mode (v : FanMode) (s : State) : State :=
  {| canisters := canisters s; current_canister := current_canister s;
     purge_count := purge_count s; canister_swaps := canister_swaps s;
     last_purge_time := last_purge_time s; temperature_c := temperature_c s;
     peak_temp_c := peak_temp_c s; events := events s;
     temperature_log := temperature_log s; peltier_active := peltier_active s;
     peltier_runtime_s := peltier_runtime_s s;
     battery_remaining_wh := battery_remaining_wh s;
     hot_side_temp_c := hot_side_temp_c s; fan_active := fan_active s;
     fan_duty_cycle := fan_duty_cycle s; fan_mode := v;
     post_purge_timer := post_purge_timer s;
     cooling_contribution := cooling_contribution s;
     last_swap_log_time := last_swap_log_time s; n_steps := n_steps s;
     total_time_s := total_time_s s |}.
Definition set_post_purge_timer (v : Z) (s : State) : State :=
  {| canisters := canisters s; current_canister := current_canister s;
     purge_count := purge_count s; canister_swaps := canister_swaps s;
     last_purge_time := last_purge_time s; temperature_c := temperature_c s;
     peak_temp_c := peak_temp_c s; events := events s;
     temperature_log := temperature_log s; peltier_active := peltier_active s;
     peltier_runtime_s := peltier_runtime_s s;
     battery_remaining_wh := battery_remaining_wh s;
     hot_side_temp_c := hot_side_temp_c s; fan_active := fan_active s;
     fan_duty_cycle := fan_duty_cycle s; fan_mode := fan_mode s;
     post_purge_timer := v; cooling_contribution := cooling_contribution s;
     last_swap_log_time := last_swap_log_time s; n_steps := n_steps s;
     total_time_s := total_time_s s |}.
Definition set_cooling_contribution (v : Contribution) (s : State) : State :=
  {| canisters := canisters s; current_canister := current_canister s;
     purge_count := purge_count s; canister_swaps := canister_swaps s;
     last_purge_time := last_purge_time s; temperature_c := temperature_c s;
     peak_temp_c := peak_temp_c s; events := events s;
     temperature_log := temperature_log s; peltier_active := peltier_active s;
     peltier_runtime_s := peltier_runtime_s s;
     battery_remaining_wh := battery_remaining_wh s;
     hot_side_temp_c := hot_side_temp_c s; fan_active := fan_active s;
     fan_duty_cycle := fan_duty_cycle s; fan_mode := fan_mode s;
     post_purge_timer := post_purge_timer s; cooling_contribution := v;
     last_swap_log_time := last_swap_log_time s; n_steps := n_steps s;
     total_time_s := total_time_s s |}.
Definition set_last_swap_log_time (v : Z) (s : State) : State :=
  {| canisters := canisters s; current_canister := current_canister s;
     purge_count := purge_count s; canister_swaps := canister_swaps s;
     last_purge_time := last_purge_time s; temperature_c := temperature_c s;
     peak_temp_c := peak_temp_c s; events := events s;
     temperature_log := temperature_log s; peltier_active := peltier_active s;
     peltier_runtime_s := peltier_runtime_s s;
     battery_remaining_wh := battery_remaining_wh s;
     hot_side_temp_c := hot_side_temp_c s; fan_active := fan_active s;
     fan_duty_cycle := fan_duty_cycle s; fan_mode := fan_mode s;
     post_purge_timer := post_purge_timer s;
     cooling_contribution := cooling_contribution s; last_swap_log_time := v;
     n_steps := n_steps s; total_time_s := total_time_s s |}.
Definition set_n_steps (v : Z) (s : State) : State :=
  {| canisters := canisters s; current_canister := current_canister s;
     purge_count := purge_count s; canister_swaps := canister_swaps s;
     last_purge_time := last_purge_time s; temperature_c := temperature_c s;
     peak_temp_c := peak_temp_c s; events := events s;
     temperature_log := temperature_log s; peltier_active := peltier_active s;
     peltier_runtime_s := peltier_runtime_s s;
     battery_remaining_wh := battery_remaining_wh s;
     hot_side_temp_c := hot_side_temp_c s; fan_active := fan_active s;
     fan_duty_cycle := fan_duty_cycle s; fan_mode := fan_mode s;
     post_purge_timer := post_purge_timer s;
     cooling_contribution := cooling_contribution s;
     last_swap_log_time := last_swap_log_time s; n_steps := v;
     total_time_s := total_time_s s |}.
Definition set_total_time_s (v : Z) (s : State) : State :=
  {| canisters := canisters s; current_canister := current_canister s;
     purge_count := purge_count s; canister_swaps := canister_swaps s;
     last_purge_time := last_purge_time s; temperature_c := temperature_c s;
     peak_temp_c := peak_temp_c s; events := events s;
     temperature_log := temperature_log s; peltier_active := peltier_active s;
     peltier_runtime_s := peltier_runtime_s s;
     battery_remaining_wh := battery_remaining_wh s;
     hot_side_temp_c := hot_side_temp_c s; fan_active := fan_active s;
     fan_duty_cycle := fan_duty_cycle s; fan_mode := fan_mode s;
     post_purge_timer := post_purge_timer s;
     cooling_contribution := cooling_contribution s;
     last_swap_log_time := last_swap_log_time s; n_steps := n_steps s;
     total_time_s := v |}.

Definition active_energy (s : State) : Q :=
  item (canisters s) (current_canister s).

Definition battery_percent (s : State) : Q :=
  battery_remaining_wh s / battery_capacity_wh * 100.

Definition log_event (e : Event) (s : State) : State :=
  set_events (events s ++ [e]) s.

(** *** 3) Helper functions *)
Section Workload.

(** [np_sin_pi x] stands for [np.sin(x * np.pi)]. *)
Variable np_sin_pi : Q -> Q.

(** [get_cpu_workload(time_s)]; it reads the global [total_time_s]. *)
Definition get_cpu_workload (total_time : Z) (time_s : Z) : Q :=
  let base_load := cpu_power_watts * 0.85 in
  let variation :=
    np_sin_pi (inject_Z time_s / (300 * 60)) * 0.15 * cpu_power_watts in
  let intense_start1 := inject_Z total_time * 0.1 in
  let intense_end1 := intense_start1 + 7200 in
  let intense_start2 := inject_Z total_time * 0.6 in
  let intense_end2 := intense_start2 + 14400 in
  if ((intense_start1 <? inject_Z time_s) && (inject_Z time_s <? intense_end1))
     || ((intense_start2 <? inject_Z time_s) && (inject_Z time_s <? intense_end2))
  then cpu_power_watts * 1.1
  else base_load + variation.

End Workload.

Definition calculate_peltier_efficiency (cpu_temp hot_side_temp : Q) : Q :=
  let temp_diff := hot_side_temp - cpu_temp in
  if temp_diff <=? 0 then peltier_efficiency_base
  else
    let efficiency := peltier_efficiency_base * (1 - (temp_diff / 70) ^ 2) in
    let efficiency :=
      if 85 <? hot_side_temp then efficiency * 0.5 else efficiency in
    Qmax 0.1 (Qmin peltier_efficiency_base efficiency).

Definition calculate_fan_multiplier
    (duty_cycle : Q) (is_post_purge : bool) (purge_timer : Q) : Q :=
  if duty_cycle <=? 0 then 1.0
  else
    let base_mult :=
      1.0 + (fan_efficiency_multiplier_base - 1.0) * (duty_cycle / 100) in
    let speed_factor := 1.0 + (duty_cycle / 100) * 0.7 in
    let purge_boost :=
      if is_post_purge then
        let decay_factor :=
          Qmax 0 (Qmin 1 ((inject_Z conduction_duration - purge_timer)
                          / inject_Z conduction_duration)) in
        1.0 + 0.5 * decay_factor
      else 1.0 in
    base_mult * speed_factor * purge_boost.

(** The three Boolean conditions of [manage_peltier]. *)
Definition should_activate (cpu_temp battery_level : Q) (s : State) : bool :=
  (70 <? cpu_temp)
  && (0.05 * battery_capacity_wh <? battery_level)
  && (peltier_runtime_s s <? peltier_max_runtime)%Z
  && (hot_side_temp_c s <? 90).

Definition should_deactivate (cpu_temp battery_level : Q) (s : State) : bool :=
  (cpu_temp <? 65)
  || (battery_level <? 0.03 * battery_capacity_wh)
  || (peltier_max_runtime <=? peltier_runtime_s s)%Z.

Definition post_purge_boost (time_since_purge : Z) : bool :=
  ((0 <=? time_since_purge) && (time_since_purge <? 60))%Z.

Definition manage_peltier
    (cpu_temp battery_level : Q) (co2_ok : bool) (time_since_purge : Z)
    (s : State) : State :=
  if peltier_active s then
    if should_deactivate cpu_temp battery_level s then
      set_peltier_runtime_s 0 (set_peltier_active false s)
    else s
  else
    if should_activate cpu_temp battery_level s
       || post_purge_boost time_since_purge then
      if 0.05 * battery_capacity_wh <? battery_level then
        set_peltier_active true s
      else
        set_peltier_runtime_s 0 (set_peltier_active false s)
    else s.

Definition manage_fan
    (cpu_temp : Q) (is_post_purge : bool) (seconds_since_purge current_time : Z)
    (s : State) : State :=
  let '(mode, target_duty) :=
    if (cpu_temp <? 50) && negb is_post_purge then (PASSIVE, 0)
    else if cpu_temp <? 50 then
      (SLOW_HISS, if (current_time mod 15 =? 0)%Z then 30 else 0)
    else if is_post_purge then (PURGE, 70)
    else if 70 <? cpu_temp then (EMERGENCY, 100)
    else (NORMAL, 50) in
  let s := set_fan_mode mode s in
  let ramp_up_step := (100 / fan_ramp_time) * inject_Z time_step_s in
  let ramp_down_step := ramp_up_step * 0.5 in
  let duty :=
    if fan_duty_cycle s <? target_duty then
      Qmin target_duty (fan_duty_cycle s + ramp_up_step)
    else if target_duty <? fan_duty_cycle s then
      Qmax target_duty (fan_duty_cycle s - ramp_down_step)
    else fan_duty_cycle s in
  let duty := Qmax 0 (Qmin 100 duty) in
  set_fan_active (0 <? duty) (set_fan_duty_cycle duty s).

(** *** 4) Simulation loop: the blocks of one iteration *)

(** Post-purge window. *)
Definition time_since_last_purge (seconds : Z) (s : State) : Z :=
  (seconds - last_purge_time s)%Z.

Definition is_post_purge (seconds : Z) (s : State) : bool :=
  ((0 <=? time_since_last_purge seconds s)
   && (time_since_last_purge seconds s <=? conduction_duration))%Z.

Definition update_post_purge_timer (seconds : Z) (s : State) : State :=
  set_post_purge_timer
    (if is_post_purge seconds s
     then conduction_duration - time_since_last_purge seconds s
     else 0)%Z s.

(** CO2 microburst logic. *)
Definition microburst_band (temperature : Q) : Band :=
  if temperature <? 50 then (0.3, 8.0)
  else if (50 <=? temperature) && (temperature <? 70) then (0.5, 5.0)
  else if (70 <=? temperature) && (temperature <? 75) then (0.7, 4.0)
  else (1.0, 3.0).

Definition burst_now (seconds : Z) (s : State) : bool :=
  let cycle_time := snd (microburst_band (temperature_c s)) in
  (0 <? active_energy s)
  && (0 <? py_int cycle_time)%Z
  && (seconds mod py_int cycle_time <? time_step_s)%Z.

Definition hiss_energy (seconds : Z) (s : State) : Q :=
  let burst_duration := fst (microburst_band (temperature_c s)) in
  let hiss_joules_per_burst := burst_duration * 3.0 in
  if burst_now seconds s then hiss_joules_per_burst else 0.

(** Peltier management, cooling power and hot-side update; returns the new
    globals and [base_peltier_cooling]. *)
Definition peltier_block (seconds : Z) (s : State) : State * Q :=
  let s := manage_peltier (temperature_c s) (battery_remaining_wh s)
             (50 <? active_energy s) (time_since_last_purge seconds s) s in
  if peltier_active s then
    let peltier_eff :=
      calculate_peltier_efficiency (temperature_c s) (hot_side_temp_c s) in
    let base_peltier_cooling := peltier_max_cooling_watts * peltier_eff in
    let peltier_heat_generated := peltier_power_draw + base_peltier_cooling in
    let hot_side_delta_t :=
      (peltier_heat_generated * 0.01 - passive_dissipation_watts * 0.1)
      * inject_Z time_step_s in
    let s := set_hot_side_temp_c (hot_side_temp_c s + hot_side_delta_t) s in
    let s := set_hot_side_temp_c
               (Qmax (temperature_c s) (hot_side_temp_c s)) s in
    let peltier_power_consumed_ws :=
      peltier_power_draw * inject_Z time_step_s in
    let s := set_battery_remaining_wh
               (battery_remaining_wh s - peltier_power_consumed_ws / 3600) s in
    let s := set_peltier_runtime_s (peltier_runtime_s s + time_step_s)%Z s in
    (s, base_peltier_cooling)
  else
    let cooling_rate := 0.1 in
    let s := set_hot_side_temp_c
               (hot_side_temp_c s
                - (hot_side_temp_c s - temperature_c s) * cooling_rate
                  * inject_Z time_step_s) s in
    let s := set_hot_side_temp_c
               (Qmax (temperature_c s) (hot_side_temp_c s)) s in
    (s, 0).

(** Fan management, multiplier and fan power usage; returns the new globals
    and [fan_multiplier]. *)
Definition fan_block (seconds : Z) (post_purge : bool) (s : State) : State * Q :=
  let s := manage_fan (temperature_c s) post_purge
             (time_since_last_purge seconds s) seconds s in
  let fan_multiplier :=
    calculate_fan_multiplier (fan_duty_cycle s) post_purge
      (inject_Z (post_purge_timer s)) in
  let s :=
    if fan_active s then
      let fan_power_consumed_ws :=
        fan_power_draw * (fan_duty_cycle s / 100.0) * inject_Z time_step_s in
      set_battery_remaining_wh
        (battery_remaining_wh s - fan_power_consumed_ws / 3600) s
    else s in
  (s, fan_multiplier).

(** Base and fan-boosted cooling, and the joule ledger; returns the new
    globals and [total_cooling]. *)
Definition cooling_block
    (base_passive_cooling base_conduction_cooling base_hiss_cooling
     base_peltier_cooling fan_multiplier : Q) (s : State) : State * Q :=
  let base_total_cooling :=
    base_passive_cooling + base_conduction_cooling + base_hiss_cooling
    + base_peltier_cooling in
  let fan_boosted_passive := base_passive_cooling * fan_multiplier in
  let fan_boosted_conduction := base_conduction_cooling * fan_multiplier in
  let fan_boosted_hiss := base_hiss_cooling * fan_multiplier in
  let fan_boosted_peltier := base_peltier_cooling * fan_multiplier in
  let total_cooling :=
    fan_boosted_passive + fan_boosted_conduction + fan_boosted_hiss
    + fan_boosted_peltier in
  let dt_joules := inject_Z time_step_s in
  let c := cooling_contribution s in
  let c := add_passive (base_passive_cooling * dt_joules) c in
  let c := add_canister_conduction (base_conduction_cooling * dt_joules) c in
  let c := add_co2_hiss (base_hiss_cooling * dt_joules) c in
  let c := add_peltier (base_peltier_cooling * dt_joules) c in
  let fan_boost_watts := total_cooling - base_total_cooling in
  let c := add_fan_boost (fan_boost_watts * dt_joules) c in
  (set_cooling_contribution c s, total_cooling).

(** Emergency purge. *)
Definition needs_purge (s : State) : bool :=
  critical_temp_c <? temperature_c s.

Definition maybe_purge (s : State) : bool :=
  (emergency_temp_c <? temperature_c s)
  && (active_energy s <? cooling_capacity_joules * 0.15).

Definition purge_block (seconds : Z) (fan_multiplier : Q) (s : State) : State :=
  if needs_purge s || maybe_purge s then
    if cooling_effective_joules <=? active_energy s then
      let temp_drop := cooldown_per_purge_c * fan_multiplier in
      let s := set_temperature_c (temperature_c s - temp_drop) s in
      let s := set_canisters
                 (setitem (canisters s) (current_canister s)
                    (active_energy s - cooling_effective_joules)) s in
      let s := set_purge_count (purge_count s + 1)%Z s in
      let s := set_last_purge_time seconds s in
      let s := set_cooling_contribution
                 (add_co2_purge cooling_effective_joules
                    (cooling_contribution s)) s in
      log_event (EmergPurge seconds temp_drop (temperature_c s)
                   (active_energy s) (fan_duty_cycle s) (battery_percent s)) s
    else s
  else s.

(** Canister swap or refill. *)
Definition weekly_log (seconds : Z) (e : Event) (s : State) : State :=
  if (604800 <? seconds - last_swap_log_time s)%Z then
    set_last_swap_log_time seconds (log_event e s)
  else s.

Definition swap_block (seconds : Z) (s : State) : State :=
  if active_energy s <? 50 then
    let other_canister := (1 - current_canister s)%nat in
    if 50 <? item (canisters s) other_canister then
      let s := set_current_canister other_canister s in
      let s := set_canister_swaps (canister_swaps s + 1)%Z s in
      weekly_log seconds
        (SwapLog seconds (current_canister s) (active_energy s)
           (temperature_c s) (battery_percent s)) s
    else
      let s := set_canisters
                 (map (fun c => Qmin cooling_capacity_joules c) (canisters s))
                 s in
      let s := set_current_canister 0%nat s in
      let s := set_canister_swaps (canister_swaps s + 1)%Z s in
      weekly_log seconds
        (RefillLog seconds (temperature_c s) (battery_percent s)) s
  else s.

(** The condition under which the swap block takes its refill branch:
    the active canister is under 50 J and the other one is not above
    50 J. *)
Definition refill_due (s : State) : bool :=
  (active_energy s <? 50)
  && negb (50 <? item (canisters s) (1 - current_canister s)).

(** Microburst CO2 usage, applied after the potential swap. *)
Definition hiss_deplete (hiss : Q) (s : State) : State :=
  if 0 <? hiss then
    set_canisters
      (setitem (canisters s) (current_canister s)
         (Qmax 0 (active_energy s - hiss))) s
  else s.

(** Net temperature update, peak and temperature log. *)
Definition integrate (current_cpu_power total_cooling : Q) (s : State) : State :=
  let net_power := current_cpu_power - total_cooling in
  let delta_temp := (net_power * inject_Z time_step_s) / thermal_mass_j_per_c in
  let s := set_temperature_c (temperature_c s + delta_temp) s in
  let s := set_temperature_c
             (Qmax (initial_temp_c * 0.8) (temperature_c s)) s in
  let s := if peak_temp_c s <? temperature_c s
           then set_peak_temp_c (temperature_c s) s else s in
  set_temperature_log (temperature_log s ++ [temperature_c s]) s.

(** Periodic status (once a day). *)
Definition status_block (seconds : Z) (s : State) : State :=
  if ((0 <? seconds) && (seconds mod 86400 <? time_step_s))%Z then
    log_event (Status seconds (temperature_c s) (active_energy s)
                 (battery_percent s) (fan_mode s)) s
  else s.

(** Battery exhausted => stop.  The Boolean is [true] when the iteration
    ends in [break]. *)
Definition battery_check (t seconds : Z) (s : State) : State * bool :=
  if battery_remaining_wh s <=? 0 then
    let s := log_event (BatteryDepleted seconds) s in
    let s := set_n_steps (t + 1)%Z s in
    let s := set_total_time_s seconds s in
    (s, true)
  else (s, false).

Section Loop.

Variable np_sin_pi : Q -> Q.

(** The state reached just before the purge block, with the values the
    later blocks use: [(globals, fan_multiplier, total_cooling)]. *)
Definition before_purge (seconds : Z) (s : State) : State * Q * Q :=
  let post_purge := is_post_purge seconds s in
  let hiss := hiss_energy seconds s in
  let s1 := update_post_purge_timer seconds s in
  let base_passive_cooling := passive_dissipation_watts in
  let base_conduction_cooling := if post_purge then conduction_watts else 0 in
  let base_hiss_cooling := hiss / inject_Z time_step_s in
  let '(s2, base_peltier_cooling) := peltier_block seconds s1 in
  let '(s3, fan_multiplier) := fan_block seconds post_purge s2 in
  let '(s4, total_cooling) :=
    cooling_block base_passive_cooling base_conduction_cooling
      base_hiss_cooling base_peltier_cooling fan_multiplier s3 in
  (s4, fan_multiplier, total_cooling).

(** The state reached just before the net temperature update. *)
Definition before_hiss_usage (seconds : Z) (s : State) : State :=
  let '(s4, fan_multiplier, _) := before_purge seconds s in
  swap_block seconds (purge_block seconds fan_multiplier s4).

(** Whether the iteration at time [seconds] runs the refill branch. *)
Definition refill_runs (seconds : Z) (s : State) : bool :=
  let '(s4, fan_multiplier, _) := before_purge seconds s in
  refill_due (purge_block seconds fan_multiplier s4).

Definition before_integration (seconds : Z) (s : State) : State :=
  hiss_deplete (hiss_energy seconds s) (before_hiss_usage seconds s).

(** One iteration of [for t in range(n_steps)]. *)
Definition step (t : Z) (s : State) : State * bool :=
  let seconds := (t * time_step_s)%Z in
  let current_cpu_power := get_cpu_workload np_sin_pi (total_time_s s) seconds in
  let total_cooling := snd (before_purge seconds s) in
  let s := before_integration seconds s in
  let s := integrate current_cpu_power total_cooling s in
  let s := status_block seconds s in
  battery_check t seconds s.

(** [for t in range(n)], from iteration [t] on, with [break]. *)
Fixpoint loop (n : nat) (t : Z) (s : State) : State :=
  match n with
  | O => s
  | S n' =>
      let '(s', stop) := step t s in
      if stop then s' else loop n' (t + 1)%Z s'
  end.

(** The loop followed by the truncation of the temperature log. *)
Definition run : State :=
  let s := loop (Z.to_nat (n_steps init)) 0 init in
  if (n_steps s <? Z.of_nat (length (temperature_log s)))%Z then
    set_temperature_log
      (firstn (Z.to_nat (n_steps s)) (temperature_log s)) s
  else s.

End Loop.

(** Shape of the canister store: two canisters, a valid index, energies
    within [0, capacity]. *)
Definition wf (s : State) : Prop :=
  exists c0 c1,
    canisters s = [c0; c1]
    /\ (current_canister s < 2)%nat
    /\ 0 <= c0 <= cooling_capacity_joules
    /\ 0 <= c1 <= cooling_capacity_joules.

(** CO2 energy still in the canisters plus CO2 energy booked as spent on
    hiss bursts and purges. *)
Definition co2_ledger (s : State) : Q :=
  py_sum (canisters s)
  + co2_hiss (cooling_contribution s) + co2_purge (cooling_contribution s).

End Pro.

(** ** simulation/laptopcoolingsim1yearsim2.py

    The Peltier controller and the canister swap/refill block of the main
    loop. *)
Module Sim2.

Definition initial_temp_c : Q := 25.
Definition cooling_capacity_joules : Q := 2900.
Definition peltier_max_runtime : Z := 120.
Definition battery_capacity_wh : Q := 8500000000.

(** The module-level globals. *)
Record State := {
  canisters : list Q;
  current_canister : nat;
  purge_count : Z;
  canister_swaps : Z;
  last_purge_time : Z;
  temperature_c : Q;
  peak_temp_c : Q;
  events : list Event;
  temperature_log : list Q;
  peltier_active : bool;
  peltier_runtime_s : Z;
  battery_remaining_wh : Q;
  hot_side_temp_c : Q;
  fan_active : bool;
  fan_duty_cycle : Q;
  fan_mode : FanMode;
  post_purge_timer : Z;
  cooling_contribution : Contribution;
  n_steps : Z;
  total_time_s : Z
}.

Definition init : State :=
  {| canisters := [cooling_capacity_joules; cooling_capacity_joules];
     current_canister := 0;
     purge_count := 0;
     canister_swaps := 0;
     last_purge_time := -9999;
     temperature_c := initial_temp_c;
     peak_temp_c := initial_temp_c;
     events := [];
     temperature_log := [];
     peltier_active := false;
     peltier_runtime_s := 0;
     battery_remaining_wh := battery_capacity_wh;
     hot_side_temp_c := initial_temp_c;
     fan_active := false;
     fan_duty_cycle := 0;
     fan_mode := PASSIVE;
     post_purge_timer := 0;
     cooling_contribution := no_contribution;
     n_steps := 31536000 / 5;
     total_time_s := 31536000 |}.

(** Assignments to the globals that the two blocks write. *)
Definition set_canisters (v : list Q) (s : State) : State :=
  {| canisters := v; current_canister := current_canister s;
     purge_count := purge_count s; canister_swaps := canister_swaps s;
     last_purge_time := last_purge_time s; temperature_c := temperature_c s;
     peak_temp_c := peak_temp_c s; events := events s;
     temperature_log := temperature_log s; peltier_active := peltier_active s;
     peltier_runtime_s := peltier_runtime_s s;
     battery_remaining_wh := battery_remaining_wh s;
     hot_side_temp_c := hot_side_temp_c s; fan_active := fan_active s;
     fan_duty_cycle := fan_duty_cycle s; fan_mode := fan_mode s;
     post_purge_timer := post_purge_timer s;
     cooling_contribution := cooling_contribution s; n_steps := n_steps s;
     total_time_s := total_time_s s |}.
Definition set_current_canister (v : nat) (s : State) : State :=
  {| canisters := canisters s; current_canister := v;
     purge_count := purge_count s; canister_swaps := canister_swaps s;
     last_purge_time := last_purge_time s; temperature_c := temperature_c s;
     peak_temp_c := peak_temp_c s; events := events s;
     temperature_log := temperature_log s; peltier_active := peltier_active s;
     peltier_runtime_s := peltier_runtime_s s;
     battery_remaining_wh := battery_remaining_wh s;
     hot_side_temp_c := hot_side_temp_c s; fan_active := fan_active s;
     fan_duty_cycle := fan_duty_cycle s; fan_mode := fan_mode s;
     post_purge_timer := post_purge_timer s;
     cooling_contribution := cooling_contribution s; n_steps := n_steps s;
     total_time_s := total_time_s s |}.
Definition set_canister_swaps (v : Z) (s : State) : State :=
  {| canisters := canisters s; current_canister := current_canister s;
     purge_count := purge_count s; canister_swaps := v;
     last_purge_time := last_purge_time s; temperature_c := temperature_c s;
     peak_temp_c := peak_temp_c s; events := events s;
     temperature_log := temperature_log s; peltier_active := peltier_active s;
     peltier_runtime_s := peltier_runtime_s s;
     battery_remaining_wh := battery_remaining_wh s;
     hot_side_temp_c := hot_side_temp_c s; fan_active := fan_active s;
     fan_duty_cycle := fan_duty_cycle s; fan_mode := fan_mode s;
     post_purge_timer := post_purge_timer s;
     cooling_contribution := cooling_contribution s; n_steps := n_steps s;
     total_time_s := total_time_s s |}.
Definition set_events (v : list Event) (s : State) : State :=
  {| canisters := canisters s; current_canister := current_canister s;
     purge_count := purge_count s; canister_swaps := canister_swaps s;
     last_purge_time := last_purge_time s; temperature_c := temperature_c s;
     peak_temp_c := peak_temp_c s; events := v;
     temperature_log := temperature_log s; peltier_active := peltier_active s;
     peltier_runtime_s := peltier_runtime_s s;
     battery_remaining_wh := battery_remaining_wh s;
     hot_side_temp_c := hot_side_temp_c s; fan_active := fan_active s;
     fan_duty_cycle := fan_duty_cycle s; fan_mode := fan_mode s;
     post_purge_timer := post_purge_timer s;
     cooling_contribution := cooling_contribution s; n_steps := n_steps s;
     total_time_s := total_time_s s |}.
Definition set_peltier_active (v : bool) (s : State) : State :=
  {| canisters := canisters s; current_canister := current_canister s;
     purge_count := purge_count s; canister_swaps := canister_swaps s;
     last_purge_time := last_purge_time s; temperature_c := temperature_c s;
     peak_temp_c := peak_temp_c s; events := events s;
     temperature_log := temperature_log s; peltier_active := v;
     peltier_runtime_s := peltier_runtime_s s;
     battery_remaining_wh := battery_remaining_wh s;
     hot_side_temp_c := hot_side_temp_c s; fan_active := fan_active s;
     fan_duty_cycle := fan_duty_cycle s; fan_mode := fan_mode s;
     post_purge_timer := post_purge_timer s;
     cooling_contribution := cooling_contribution s; n_steps := n_steps s;
     total_time_s := total_time_s s |}.
Definition set_peltier_runtime_s (v : Z) (s : State) : State :=
  {| canisters := canisters s; current_canister := current_canister s;
     purge_count := purge_count s; canister_swaps := canister_swaps s;
     last_purge_time := last_purge_time s; temperature_c := temperature_c s;
     peak_temp_c := peak_temp_c s; events := events s;
     temperature_log := temperature_log s; peltier_active := peltier_active s;
     peltier_runtime_s := v; battery_remaining_wh := battery_remaining_wh s;
     hot_side_temp_c := hot_side_temp_c s; fan_active := fan_active s;
     fan_duty_cycle := fan_duty_cycle s; fan_mode := fan_mode s;
     post_purge_timer := post_purge_timer s;
     cooling_contribution := cooling_contribution s; n_steps := n_steps s;
     total_time_s := total_time_s s |}.

Definition active_energy (s : State) : Q :=
  item (canisters s) (current_canister s).

Definition battery_percent (s : State) : Q :=
  battery_remaining_wh s / battery_capacity_wh * 100.

Definition log_event (e : Event) (s : State) : State :=
  set_events (events s ++ [e]) s.

Definition should_activate (cpu_temp battery_level : Q) (s : State) : bool :=
  (70 <? cpu_temp)
  && (0.05 * battery_capacity_wh <? battery_level)
  && (peltier_runtime_s s <? peltier_max_runtime)%Z
  && (hot_side_temp_c s <? 90).

Definition should_deactivate (cpu_temp battery_level : Q) (s : State) : bool :=
  (cpu_temp <? 65)
  || (battery_level <? 0.03 * battery_capacity_wh)
  || (95 <? hot_side_temp_c s)
  || (peltier_max_runtime <=? peltier_runtime_s s)%Z.

Definition post_purge_boost (time_since_purge : Z) : bool :=
  ((0 <=? time_since_purge) && (time_since_purge <? 60))%Z.

Definition manage_peltier
    (cpu_temp battery_level : Q) (co2_available : bool) (time_since_purge : Z)
    (s : State) : State :=
  if peltier_active s then
    if should_deactivate cpu_temp battery_level s then
      set_peltier_runtime_s 0 (set_peltier_active false s)
    else s
  else
    if should_activate cpu_temp battery_level s
       || post_purge_boost time_since_purge then
      if 0.05 * battery_capacity_wh <? battery_level then
        set_peltier_active true s
      else
        set_peltier_runtime_s 0 (set_peltier_active false s)
    else s.

(** Adaptive canister swap logic. *)
Definition swap_block (seconds : Z) (s : State) : State :=
  if active_energy s <? 50 then
    let other_canister := (1 - current_canister s)%nat in
    if 50 <? item (canisters s) other_canister then
      let s := set_current_canister other_canister s in
      let s := set_canister_swaps (canister_swaps s + 1)%Z s in
      log_event (SwapLog seconds (current_canister s) (active_energy s)
                   (temperature_c s) (battery_percent s)) s
    else
      let s := set_canisters
                 [cooling_capacity_joules; cooling_capacity_joules] s in
      let s := set_current_canister 0%nat s in
      let s := set_canister_swaps (canister_swaps s + 1)%Z s in
      log_event (RefillLog seconds (temperature_c s) (battery_percent s)) s
  else s.

(** CO2 microburst parameters, burst decision and hiss energy of the main
    loop, and the hiss usage applied after the swap/refill block. *)
Definition time_step_s : Z := 5.

Definition microburst_band (temperature : Q) : Band :=
  if temperature <? 60 then (0.3, 8.0)
  else if (60 <=? temperature) && (temperature <? 70) then (0.5, 5.0)
  else if (70 <=? temperature) && (temperature <? 75) then (0.7, 4.0)
  else (1.0, 3.0).

Definition burst_now (seconds : Z) (s : State) : bool :=
  let cycle_time := snd (microburst_band (temperature_c s)) in
  (0 <? active_energy s)
  && (0 <? py_int cycle_time)%Z
  && (seconds mod py_int cycle_time <? time_step_s)%Z.

Definition hiss_energy (seconds : Z) (s : State) : Q :=
  let burst_duration := fst (microburst_band (temperature_c s)) in
  let hiss_joules_per_burst := burst_duration * 3.0 in
  if burst_now seconds s then hiss_joules_per_burst else 0.

Definition hiss_deplete (hiss : Q) (s : State) : State :=
  set_canisters
    (setitem (canisters s) (current_canister s)
       (Qmax 0 (active_energy s - hiss))) s.

End Sim2.

(** ** co2cooling/laptop_sim.py *)
Module LaptopSim.

Definition CPU_POWER_WATTS : Q := 18.5.
Definition PASSIVE_DISSIPATION_WATTS : Q := 1.5.
Definition THERMAL_MASS_J_PER_C : Q := 300.
Definition INITIAL_TEMP_C : Q := 25.
Definition EMERGENCY_TEMP_C : Q := 78.

Definition COOLING_CAPACITY_JOULES : Q := 2900.
Definition PURGE_EFFICIENCY : Q := 0.85.
Definition COOLING_EFFECTIVE_JOULES : Q :=
  COOLING_CAPACITY_JOULES * PURGE_EFFICIENCY.
Definition COOLDOWN_PER_PURGE_C : Q :=
  COOLING_EFFECTIVE_JOULES / THERMAL_MASS_J_PER_C.
Definition CONDUCTION_WATTS : Q := 2.2.
Definition CONDUCTION_DURATION : Z := 180.

Definition PELTIER_MAX_COOLING_WATTS : Q := 15.
Definition PELTIER_POWER_DRAW : Q := 30.
Definition PELTIER_MAX_RUNTIME : Z := 120.
Definition BATTERY_CAPACITY_WH : Q := 60.
Definition PELTIER_EFFICIENCY_BASE : Q := 0.6.

Definition FAN_POWER_DRAW : Q := 0.25.
Definition FAN_EFFICIENCY_MULTIPLIER_BASE : Q := 1.3.
Definition FAN_EFFICIENCY_MULTIPLIER_MAX : Q := 2.5.

Definition TOTAL_TIME_S : Z := 3600.
Definition TIME_STEP_S : Z := 5.

Section Workload.

(** [np_sin_pi x] stands for [np.sin(x * np.pi)]. *)
Variable np_sin_pi : Q -> Q.

Definition get_cpu_workload (time_s : Z) : Q :=
  let base_load := CPU_POWER_WATTS * 0.85 in
  let variation :=
    np_sin_pi (inject_Z time_s / 300) * 0.15 * CPU_POWER_WATTS in
  if ((900 <? time_s) && (time_s <? 1100) || (2400 <? time_s) && (time_s <? 2700))%Z
  then CPU_POWER_WATTS * 1.1
  else base_load + variation.

End Workload.

Definition calculate_peltier_efficiency (cpu_temp hot_side_temp : Q) : Q :=
  let temp_diff := hot_side_temp - cpu_temp in
  if temp_diff <=? 0 then PELTIER_EFFICIENCY_BASE
  else
    let efficiency := PELTIER_EFFICIENCY_BASE * (1 - (temp_diff / 70) ^ 2) in
    let efficiency :=
      if 85 <? hot_side_temp then efficiency * 0.5 else efficiency in
    Qmax 0.1 (Qmin PELTIER_EFFICIENCY_BASE efficiency).

Definition calculate_fan_multiplier
    (duty_cycle : Q) (is_post_purge : bool) (purge_timer : Q) : Q :=
  if duty_cycle <=? 0 then 1.0
  else
    let base_mult :=
      1.0 + (FAN_EFFICIENCY_MULTIPLIER_BASE - 1.0) * (duty_cycle / 100) in
    let speed_factor := 1.0 + (duty_cycle / 100) * 0.7 in
    let purge_boost :=
      if is_post_purge then
        let decay_factor :=
          Qmax 0 (Qmin 1 (purge_timer / inject_Z CONDUCTION_DURATION)) in
        1.0 + 0.5 * decay_factor
      else 1.0 in
    base_mult * speed_factor * purge_boost.

(** The local variables of [run_simulation] that live across iterations. *)
Record State := {
  canisters : list Q;
  current_canister : nat;
  purge_count : Z;
  canister_swaps : Z;
  last_purge_time : Z;
  temperature_c : Q;
  events : list Event;
  temperature_log : list Q;
  peltier_active : bool;
  peltier_runtime_s : Z;
  battery_remaining_wh : Q;
  hot_side_temp_c : Q;
  fan_active : bool;
  fan_duty_cycle : Z;
  fan_mode : FanMode;
  post_purge_timer : Z;
  cooling_contribution : Contribution
}.

Definition init : State :=
  {| canisters := [COOLING_CAPACITY_JOULES; COOLING_CAPACITY_JOULES];
     current_canister := 0;
     purge_count := 0;
     canister_swaps := 0;
     last_purge_time := -9999;
     temperature_c := INITIAL_TEMP_C;
     events := [];
     temperature_log := [];
     peltier_active := false;
     peltier_runtime_s := 0;
     battery_remaining_wh := BATTERY_CAPACITY_WH;
     hot_side_temp_c := INITIAL_TEMP_C;
     fan_active := false;
     fan_duty_cycle := 0;
     fan_mode := PASSIVE;
     post_purge_timer := 0;
     cooling_contribution := no_contribution |}.

(** Assignments to one local. *)
Definition set_canisters (v : list Q) (s : State) : State :=
  {| canisters := v; current_canister := current_canister s;
     purge_count := purge_count s; canister_swaps := canister_swaps s;
     last_purge_time := last_purge_time s; temperature_c := temperature_c s;
     events := events s; temperature_log := temperature_log s;
     peltier_active := peltier_active s;
     peltier_runtime_s := peltier_runtime_s s;
     battery_remaining_wh := battery_remaining_wh s;
     hot_side_temp_c := hot_side_temp_c s; fan_active := fan_active s;
     fan_duty_cycle := fan_duty_cycle s; fan_mode := fan_mode s;
     post_purge_timer := post_purge_timer s;
     cooling_contribution := cooling_contribution s |}.
Definition set_current_canister (v : nat) (s : State) : State :=
  {| canisters := canisters s; current_canister := v;
     purge_count := purge_count s; canister_swaps := canister_swaps s;
     last_purge_time := last_purge_time s; temperature_c := temperature_c s;
     events := events s; temperature_log := temperature_log s;
     peltier_active := peltier_active s;
     peltier_runtime_s := peltier_runtime_s s;
     battery_remaining_wh := battery_remaining_wh s;
     hot_side_temp_c := hot_side_temp_c s; fan_active := fan_active s;
     fan_duty_cycle := fan_duty_cycle s; fan_mode := fan_mode s;
     post_purge_timer := post_purge_timer s;
     cooling_contribution := cooling_contribution s |}.
Definition set_purge_count (v : Z) (s : State) : State :=
  {| canisters := canisters s; current_canister := current_canister s;
     purge_count := v; canister_swaps := canister_swaps s;
     last_purge_time := last_purge_time s; temperature_c := temperature_c s;
     events := events s; temperature_log := temperature_log s;
     peltier_active := peltier_active s;
     peltier_runtime_s := peltier_runtime_s s;
     battery_remaining_wh := battery_remaining_wh s;
     hot_side_temp_c := hot_side_temp_c s; fan_active := fan_active s;
     fan_duty_cycle := fan_duty_cycle s; fan_mode := fan_mode s;
     post_purge_timer := post_purge_timer s;
     cooling_contribution := cooling_contribution s |}.
Definition set_canister_swaps (v : Z) (s : State) : State :=
  {| canisters := canisters s; current_canister := current_canister s;
     purge_count := purge_count s; canister_swaps := v;
     last_purge_time := last_purge_time s; temperature_c := temperature_c s;
     events := events s; temperature_log := temperature_log s;
     peltier_active := peltier_active s;
     peltier_runtime_s := peltier_runtime_s s;
     battery_remaining_wh := battery_remaining_wh s;
     hot_side_temp_c := hot_side_temp_c s; fan_active := fan_active s;
     fan_duty_cycle := fan_duty_cycle s; fan_mode := fan_mode s;
     post_purge_timer := post_purge_timer s;
     cooling_contribution := cooling_contribution s |}.
Definition set_last_purge_time (v : Z) (s : State) : State :=
  {| canisters := canisters s; current_canister := current_canister s;
     purge_count := purge_count s; canister_swaps := canister_swaps s;
     last_purge_time := v; temperature_c := temperature_c s; events := events s;
     temperature_log := temperature_log s; peltier_active := peltier_active s;
     peltier_runtime_s := peltier_runtime_s s;
     battery_remaining_wh := battery_remaining_wh s;
     hot_side_temp_c := hot_side_temp_c s; fan_active := fan_active s;
     fan_duty_cycle := fan_duty_cycle s; fan_mode := fan_mode s;
     post_purge_timer := post_purge_timer s;
     cooling_contribution := cooling_contribution s |}.
Definition set_temperature_c (v : Q) (s : State) : State :=
  {| canisters := canisters s; current_canister := current_canister s;
     purge_count := purge_count s; canister_swaps := canister_swaps s;
     last_purge_time := last_purge_time s; temperature_c := v;
     events := events s; temperature_log := temperature_log s;
     peltier_active := peltier_active s;
     peltier_runtime_s := peltier_runtime_s s;
     battery_remaining_wh := battery_remaining_wh s;
     hot_side_temp_c := hot_side_temp_c s; fan_active := fan_active s;
     fan_duty_cycle := fan_duty_cycle s; fan_mode := fan_mode s;
     post_purge_timer := post_purge_timer s;
     cooling_contribution := cooling_contribution s |}.
Definition set_events (v : list Event) (s : State) : State :=
  {| canisters := canisters s; current_canister := current_canister s;
     purge_count := purge_count s; canister_swaps := canister_swaps s;
     last_purge_time := last_purge_time s; temperature_c := temperature_c s;
     events := v; temperature_log := temperature_log s;
     peltier_active := peltier_active s;
     peltier_runtime_s := peltier_runtime_s s;
     battery_remaining_wh := battery_remaining_wh s;
     hot_side_temp_c := hot_side_temp_c s; fan_active := fan_active s;
     fan_duty_cycle := fan_duty_cycle s; fan_mode := fan_mode s;
     post_purge_timer := post_purge_timer s;
     cooling_contribution := cooling_contribution s |}.
Definition set_temperature_log (v : list Q) (s : State) : State :=
  {| canisters := canisters s; current_canister := current_canister s;
     purge_count := purge_count s; canister_swaps := canister_swaps s;
     last_purge_time := last_purge_time s; temperature_c := temperature_c s;
     events := events s; temperature_log := v;
     peltier_active := peltier_active s;
     peltier_runtime_s := peltier_runtime_s s;
     battery_remaining_wh := battery_remaining_wh s;
     hot_side_temp_c := hot_side_temp_c s; fan_active := fan_active s;
     fan_duty_cycle := fan_duty_cycle s; fan_mode := fan_mode s;
     post_purge_timer := post_purge_timer s;
     cooling_contribution := cooling_contribution s |}.
Definition set_peltier_active (v : bool) (s : State) : State :=
  {| canisters := canisters s; current_canister := current_canister s;
     purge_count := purge_count s; canister_swaps := canister_swaps s;
     last_purge_time := last_purge_time s; temperature_c := temperature_c s;
     events := events s; temperature_log := temperature_log s;
     peltier_active := v; peltier_runtime_s := peltier_runtime_s s;
     battery_remaining_wh := battery_remaining_wh s;
     hot_side_temp_c := hot_side_temp_c s; fan_active := fan_active s;
     fan_duty_cycle := fan_duty_cycle s; fan_mode := fan_mode s;
     post_purge_timer := post_purge_timer s;
     cooling_contribution := cooling_contribution s |}.
Definition set_peltier_runtime_s (v : Z) (s : State) : State :=
  {| canisters := canisters s; current_canister := current_canister s;
     purge_count := purge_count s; canister_swaps := canister_swaps s;
     last_purge_time := last_purge_time s; temperature_c := temperature_c s;
     events := events s; temperature_log := temperature_log s;
     peltier_active := peltier_active s; peltier_runtime_s := v;
     battery_remaining_wh := battery_remaining_wh s;
     hot_side_temp_c := hot_side_temp_c s; fan_active := fan_active s;
     fan_duty_cycle := fan_duty_cycle s; fan_mode := fan_mode s;
     post_purge_timer := post_purge_timer s;
     cooling_contribution := cooling_contribution s |}.
Definition set_battery_remaining_wh (v : Q) (s : State) : State :=
  {| canisters := canisters s; current_canister := current_canister s;
     purge_count := purge_count s; canister_swaps := canister_swaps s;
     last_purge_time := last_purge_time s; temperature_c := temperature_c s;
     events := events s; temperature_log := temperature_log s;
     peltier_active := peltier_active s;
     peltier_runtime_s := peltier_runtime_s s; battery_remaining_wh := v;
     hot_side_temp_c := hot_side_temp_c s; fan_active := fan_active s;
     fan_duty_cycle := fan_duty_cycle s; fan_mode := fan_mode s;
     post_purge_timer := post_purge_timer s;
     cooling_contribution := cooling_contribution s |}.
Definition set_hot_side_temp_c (v : Q) (s : State) : State :=
  {| canisters := canisters s; current_canister := current_canister s;
     purge_count := purge_count s; canister_swaps := canister_swaps s;
     last_purge_time := last_purge_time s; temperature_c := temperature_c s;
     events := events s; temperature_log := temperature_log s;
     peltier_active := peltier_active s;
     peltier_runtime_s := peltier_runtime_s s;
     battery_remaining_wh := battery_remaining_wh s; hot_side_temp_c := v;
     fan_active := fan_active s; fan_duty_cycle := fan_duty_cycle s;
     fan_mode := fan_mode s; post_purge_timer := post_purge_timer s;
     cooling_contribution := cooling_contribution s |}.
Definition set_fan_active (v : bool) (s : State) : State :=
  {| canisters := canisters s; current_canister := current_canister s;
     purge_count := purge_count s; canister_swaps := canister_swaps s;
     last_purge_time := last_purge_time s; temperature_c := temperature_c s;
     events := events s; temperature_log := temperature_log s;
     peltier_active := peltier_active s;
     peltier_runtime_s := peltier_runtime_s s;
     battery_remaining_wh := battery_remaining_wh s;
     hot_side_temp_c := hot_side_temp_c s; fan_active := v;
     fan_duty_cycle := fan_duty_cycle s; fan_mode := fan_mode s;
     post_purge_timer := post_purge_timer s;
     cooling_contribution := cooling_contribution s |}.
Definition set_fan_duty_cycle (v : Z) (s : State) : State :=
  {| canisters := canisters s; current_canister := current_canister s;
     purge_count := purge_count s; canister_swaps := canister_swaps s;
     last_purge_time := last_purge_time s; temperature_c := temperature_c s;
     events := events s; temperature_log := temperature_log s;
     peltier_active := peltier_active s;
     peltier_runtime_s := peltier_runtime_s s;
     battery_remaining_wh := battery_remaining_wh s;
     hot_side_temp_c := hot_side_temp_c s; fan_active := fan_active s;
     fan_duty_cycle := v; fan_mode := fan_mode s;
     post_purge_timer := post_purge_timer s;
     cooling_contribution := cooling_contribution s |}.
Definition set_fan_mode (v : FanMode) (s : State) : State :=
  {| canisters := canisters s; current_canister := current_canister s;
     purge_count := purge_count s; canister_swaps := canister_swaps s;
     last_purge_time := last_purge_time s; temperature_c := temperature_c s;
     events := events s; temperature_log := temperature_log s;
     peltier_active := peltier_active s;
     peltier_runtime_s := peltier_runtime_s s;
     battery_remaining_wh := battery_remaining_wh s;
     hot_side_temp_c := hot_side_temp_c s; fan_active := fan_active s;
     fan_duty_cycle := fan_duty_cycle s; fan_mode := v;
     post_purge_timer := post_purge_timer s;
     cooling_contribution := cooling_contribution s |}.
Definition set_post_purge_timer (v : Z) (s : State) : State :=
  {| canisters := canisters s; current_canister := current_canister s;
     purge_count := purge_count s; canister_swaps := canister_swaps s;
     last_purge_time := last_purge_time s; temperature_c := temperature_c s;
     events := events s; temperature_log := temperature_log s;
     peltier_active := peltier_active s;
     peltier_runtime_s := peltier_runtime_s s;
     battery_remaining_wh := battery_remaining_wh s;
     hot_side_temp_c := hot_side_temp_c s; fan_active := fan_active s;
     fan_duty_cycle := fan_duty_cycle s; fan_mode := fan_mode s;
     post_purge_timer := v; cooling_contribution := cooling_contribution s |}.
Definition set_cooling_contribution (v : Contribution) (s : State) : State :=
  {| canisters := canisters s; current_canister := current_canister s;
     purge_count := purge_count s; canister_swaps := canister_swaps s;
     last_purge_time := last_purge_time s; temperature_c := temperature_c s;
     events := events s; temperature_log := temperature_log s;
     peltier_active := peltier_active s;
     peltier_runtime_s := peltier_runtime_s s;
     battery_remaining_wh := battery_remaining_wh s;
     hot_side_temp_c := hot_side_temp_c s; fan_active := fan_active s;
     fan_duty_cycle := fan_duty_cycle s; fan_mode := fan_mode s;
     post_purge_timer := post_purge_timer s; cooling_contribution := v |}.

Definition active_energy (s : State) : Q :=
  item (canisters s) (current_canister s).

Definition log_event (e : Event) (s : State) : State :=
  set_events (events s ++ [e]) s.

Definition add_contribution
    (add : Q -> Contribution -> Contribution) (v : Q) (s : State) : State :=
  set_cooling_contribution (add v (cooling_contribution s)) s.

Section Loop.

Variable np_sin_pi : Q -> Q.
Variable time_step_s : Z.

Definition time_since_last_purge (seconds : Z) (s : State) : Z :=
  (seconds - last_purge_time s)%Z.

Definition is_post_purge (seconds : Z) (s : State) : bool :=
  ((0 <=? time_since_last_purge seconds s)
   && (time_since_last_purge seconds s <=? CONDUCTION_DURATION))%Z.

(** Post-purge timer and the passive and conduction ledger entries. *)
Definition window_block (seconds : Z) (s : State) : State :=
  let post_purge := is_post_purge seconds s in
  let s := set_post_purge_timer
             (if post_purge
              then CONDUCTION_DURATION - time_since_last_purge seconds s
              else 0)%Z s in
  let passive_cooling := PASSIVE_DISSIPATION_WATTS in
  let s := add_contribution add_passive
             (passive_cooling * inject_Z time_step_s) s in
  let conduction_cooling := if post_purge then CONDUCTION_WATTS else 0 in
  add_contribution add_canister_conduction
    (conduction_cooling * inject_Z time_step_s) s.

Definition microburst_band (temperature : Q) : Band :=
  if temperature <? 60 then (0.3, 8.0)
  else if (60 <=? temperature) && (temperature <? 70) then (0.5, 5.0)
  else if (70 <=? temperature) && (temperature <? 75) then (0.7, 4.0)
  else (1.0, 3.0).

Definition burst_now (seconds : Z) (s : State) : bool :=
  let cycle_time := snd (microburst_band (temperature_c s)) in
  (seconds mod py_int cycle_time =? 0)%Z.

Definition hiss_energy (seconds : Z) (s : State) : Q :=
  let burst_duration := fst (microburst_band (temperature_c s)) in
  if burst_now seconds s && (0 <? active_energy s)
  then burst_duration * 3.0 else 0.

Definition should_activate (s : State) : bool :=
  (70 <? temperature_c s)
  && (5 <? battery_remaining_wh s)
  && (peltier_runtime_s s <? PELTIER_MAX_RUNTIME)%Z
  && (hot_side_temp_c s <? 90).

Definition should_deactivate (s : State) : bool :=
  (temperature_c s <? 65)
  || (battery_remaining_wh s <? 3)
  || (95 <? hot_side_temp_c s)
  || (PELTIER_MAX_RUNTIME <=? peltier_runtime_s s)%Z.

Definition post_purge_boost (seconds : Z) (s : State) : bool :=
  ((0 <? time_since_last_purge seconds s)
   && (time_since_last_purge seconds s <? 60))%Z.

(** Peltier activation / deactivation. *)
Definition peltier_switch (seconds : Z) (s : State) : State :=
  if should_activate s || post_purge_boost seconds s then
    set_peltier_active true s
  else if should_deactivate s then
    set_peltier_runtime_s 0 (set_peltier_active false s)
  else s.

(** Peltier cooling power and hot-side update; returns the new locals and
    [peltier_cooling]. *)
Definition peltier_block (s : State) : State * Q :=
  if peltier_active s then
    let peltier_efficiency :=
      calculate_peltier_efficiency (temperature_c s) (hot_side_temp_c s) in
    let peltier_cooling := PELTIER_MAX_COOLING_WATTS * peltier_efficiency in
    let s := set_hot_side_temp_c
               (hot_side_temp_c s
                + (PELTIER_POWER_DRAW * (1 - peltier_efficiency)
                   * inject_Z time_step_s) / THERMAL_MASS_J_PER_C) s in
    let s := set_hot_side_temp_c
               (hot_side_temp_c s
                - PASSIVE_DISSIPATION_WATTS * 0.5 * inject_Z time_step_s
                  / THERMAL_MASS_J_PER_C) s in
    let s := set_battery_remaining_wh
               (battery_remaining_wh s
                - (PELTIER_POWER_DRAW * inject_Z time_step_s) / 3600) s in
    let s := set_peltier_runtime_s (peltier_runtime_s s + time_step_s)%Z s in
    let s := add_contribution add_peltier
               (peltier_cooling * inject_Z time_step_s) s in
    (s, peltier_cooling)
  else
    let s := set_hot_side_temp_c
               (Qmax (temperature_c s) (hot_side_temp_c s - 0.5)) s in
    let s := set_peltier_runtime_s
               (Z.max 0 (peltier_runtime_s s - time_step_s)) s in
    (s, 0).

(** Fan mode, ramp, multiplier and fan power; returns the new locals and
    [fan_multiplier]. *)
Definition fan_block (seconds : Z) (post_purge : bool) (s : State) : State * Q :=
  let '(mode, target_duty) :=
    if (temperature_c s <? 50) && negb post_purge then (PASSIVE, 0%Z)
    else if temperature_c s <? 65 then
      (SLOW_HISS, if (seconds mod 15 =? 0)%Z then 30%Z else 0%Z)
    else if post_purge then (PURGE, 80%Z)
    else if 75 <? temperature_c s then (EMERGENCY, 100%Z)
    else (NORMAL, 50%Z) in
  let s := set_fan_mode mode s in
  let s :=
    if (fan_duty_cycle s <? target_duty)%Z then
      set_fan_duty_cycle (Z.min target_duty (fan_duty_cycle s + 10)) s
    else if (target_duty <? fan_duty_cycle s)%Z then
      set_fan_duty_cycle (Z.max target_duty (fan_duty_cycle s - 5)) s
    else s in
  let s := set_fan_active (0 <? fan_duty_cycle s)%Z s in
  let fan_multiplier :=
    calculate_fan_multiplier (inject_Z (fan_duty_cycle s)) post_purge
      (inject_Z (post_purge_timer s)) in
  let s :=
    if fan_active s then
      set_battery_remaining_wh
        (battery_remaining_wh s
         - (FAN_POWER_DRAW * (inject_Z (fan_duty_cycle s) / 100)
            * inject_Z time_step_s) / 3600) s
    else s in
  (s, fan_multiplier).

(** Fan-enhanced cooling and the fan-boost ledger entry; returns the new
    locals and [total_cooling]. *)
Definition cooling_block
    (passive_cooling conduction_cooling hiss_cooling peltier_cooling
     fan_multiplier : Q) (s : State) : State * Q :=
  let enhanced_passive := passive_cooling * fan_multiplier in
  let enhanced_conduction := conduction_cooling * fan_multiplier in
  let enhanced_hiss := hiss_cooling * fan_multiplier in
  let enhanced_peltier := peltier_cooling * fan_multiplier in
  let fan_boost_watts :=
    enhanced_passive + enhanced_conduction + enhanced_hiss + enhanced_peltier
    - (passive_cooling + conduction_cooling + hiss_cooling + peltier_cooling) in
  let s := add_contribution add_fan_boost
             (fan_boost_watts * inject_Z time_step_s) s in
  let total_cooling :=
    enhanced_passive + enhanced_conduction + enhanced_hiss + enhanced_peltier in
  (s, total_cooling).

(** Emergency purge. *)
Definition purge_condition (s : State) : bool :=
  ((active_energy s <? COOLING_CAPACITY_JOULES * 0.10)
   && (EMERGENCY_TEMP_C <? temperature_c s))
  || (85 <? temperature_c s).

Definition purge_block (seconds : Z) (fan_multiplier : Q) (s : State) : State :=
  if purge_condition s then
    if COOLING_EFFECTIVE_JOULES <=? active_energy s then
      let s := set_temperature_c
                 (temperature_c s - COOLDOWN_PER_PURGE_C * fan_multiplier) s in
      let s := set_canisters
                 (setitem (canisters s) (current_canister s)
                    (active_energy s - COOLING_EFFECTIVE_JOULES)) s in
      let s := set_purge_count (purge_count s + 1)%Z s in
      let s := set_last_purge_time seconds s in
      let s := add_contribution add_co2_purge COOLING_EFFECTIVE_JOULES s in
      log_event (EmergPurge seconds (COOLDOWN_PER_PURGE_C * fan_multiplier)
                   (temperature_c s) (active_energy s)
                   (inject_Z (fan_duty_cycle s)) (battery_remaining_wh s)) s
    else s
  else s.

(** Canister swap (canister 0 to canister 1 only). *)
Definition swap_block (seconds : Z) (s : State) : State :=
  if (active_energy s <? 50) && (current_canister s =? 0)%nat then
    let s := set_current_canister 1%nat s in
    let s := set_canister_swaps (canister_swaps s + 1)%Z s in
    log_event (SwapLog seconds (current_canister s) (active_energy s)
                 (temperature_c s) (battery_remaining_wh s)) s
  else s.

(** Hiss usage, applied after the swap. *)
Definition hiss_deplete (hiss : Q) (s : State) : State :=
  set_canisters
    (setitem (canisters s) (current_canister s)
       (Qmax 0 (active_energy s - hiss))) s.

(** Net temperature update and temperature log. *)
Definition integrate (current_cpu_power total_cooling : Q) (s : State) : State :=
  let net_power := current_cpu_power - total_cooling in
  let delta_temp :=
    (net_power * inject_Z time_step_s) / THERMAL_MASS_J_PER_C in
  let s := set_temperature_c (temperature_c s + delta_temp) s in
  set_temperature_log (temperature_log s ++ [temperature_c s]) s.

Definition status_block (seconds : Z) (s : State) : State :=
  if ((seconds mod 300 =? 0) && (0 <? seconds))%Z then
    log_event (Status seconds (temperature_c s) (active_energy s)
                 (battery_remaining_wh s) (fan_mode s)) s
  else s.

(** The state reached just before the purge block, with the values the
    later blocks use: [(locals, fan_multiplier, total_cooling)]. *)
Definition before_purge (seconds : Z) (s : State) : State * Q * Q :=
  let post_purge := is_post_purge seconds s in
  let hiss := hiss_energy seconds s in
  let passive_cooling := PASSIVE_DISSIPATION_WATTS in
  let conduction_cooling := if post_purge then CONDUCTION_WATTS else 0 in
  let hiss_cooling := hiss / inject_Z time_step_s in
  let s1 := window_block seconds s in
  let s2 := add_contribution add_co2_hiss hiss s1 in
  let '(s3, peltier_cooling) := peltier_block (peltier_switch seconds s2) in
  let '(s4, fan_multiplier) := fan_block seconds post_purge s3 in
  let '(s5, total_cooling) :=
    cooling_block passive_cooling conduction_cooling hiss_cooling
      peltier_cooling fan_multiplier s4 in
  (s5, fan_multiplier, total_cooling).

(** The state reached just before the hiss usage is applied. *)
Definition before_hiss_usage (seconds : Z) (s : State) : State :=
  let '(s5, fan_multiplier, _) := before_purge seconds s in
  swap_block seconds (purge_block seconds fan_multiplier s5).

(** The state reached just before the net temperature update. *)
Definition before_integration (seconds : Z) (s : State) : State :=
  hiss_deplete (hiss_energy seconds s) (before_hiss_usage seconds s).

(** One iteration of [for t in range(n_steps)]. *)
Definition step (t : Z) (s : State) : State :=
  let seconds := (t * time_step_s)%Z in
  let current_cpu_power := get_cpu_workload np_sin_pi seconds in
  let total_cooling := snd (before_purge seconds s) in
  let s := before_integration seconds s in
  let s := integrate current_cpu_power total_cooling s in
  status_block seconds s.

(** [for t in range(n)], from iteration [t] on. *)
Fixpoint loop (n : nat) (t : Z) (s : State) : State :=
  match n with
  | O => s
  | S n' => loop n' (t + 1)%Z (step t s)
  end.

End Loop.

(** [run_simulation(total_time_s, time_step_s)] up to the end of the loop;
    [None] is the [ZeroDivisionError] of [total_time_s // time_step_s]. *)
Definition run_simulation
    (np_sin_pi : Q -> Q) (total_time_s time_step_s : Z) : option State :=
  if (time_step_s =? 0)%Z then None
  else
    let n_steps := (total_time_s / time_step_s)%Z in
    Some (loop np_sin_pi time_step_s (Z.to_nat n_steps) 0 init).

(** The summary's peak temperature, [max(temperature_log)], computed after
    the loop; [None] when [run_simulation] raises before or there. *)
Definition summary_peak
    (np_sin_pi : Q -> Q) (total_time_s time_step_s : Z) : option Q :=
  match run_simulation np_sin_pi total_time_s time_step_s with
  | None => None
  | Some s => py_max (temperature_log s)
  end.

(** Shape of the canister store: two canisters, a valid index, energies
    within [0, capacity]. *)
Definition wf (s : State) : Prop :=
  exists c0 c1,
    canisters s = [c0; c1]
    /\ (current_canister s < 2)%nat
    /\ 0 <= c0 <= COOLING_CAPACITY_JOULES
    /\ 0 <= c1 <= COOLING_CAPACITY_JOULES.

(** CO2 energy still in the canisters plus CO2 energy booked as spent on
    hiss bursts and purges. *)
Definition co2_ledger (s : State) : Q :=
  py_sum (canisters s)
  + co2_hiss (cooling_contribution s) + co2_purge (cooling_contribution s).

End LaptopSim.

(** ** Scenarios

    Concrete inputs used below.  [zero_wave] is the workload's sine term at
    the sample times where [np.sin] is evaluated at a multiple of pi. *)

Definition zero_wave (_ : Q) : Q := 0.



(** A depleted store: 40 J in the active canister 0, 30 J in canister 1. *)
Definition pro_depleted : Pro.State := Pro.set_canisters [40; 30] Pro.init.

(** Peltier running in [laptop_sim.py] at 64.5 C, with the last purge at
    time 1000. *)
Definition laptop_cool_after_purge : LaptopSim.State :=
  LaptopSim.set_last_purge_time 1000
    (LaptopSim.set_peltier_active true
       (LaptopSim.set_temperature_c 64.5 LaptopSim.init)).

(** The year-long script with 40 J left in the active canister 0 and a
    full canister 1. *)
Definition pro_low_active : Pro.State := Pro.set_canisters [40; 2900] Pro.init.

(** [laptop_sim.py] late in a long run: two purges and one swap behind it,
    40 J left in canister 0, 0.3 J in the active canister 1, and 829.7 J
    booked on hiss bursts, so that canisters and ledger add up to the
    5800 J the run started with. *)
Definition laptop_nearly_empty : LaptopSim.State :=
  LaptopSim.set_cooling_contribution
    {| passive := 0; co2_hiss := 829.7; co2_purge := 4930;
       canister_conduction := 0; peltier := 0; fan_boost := 0 |}
    (LaptopSim.set_purge_count 2
       (LaptopSim.set_canister_swaps 1
          (LaptopSim.set_last_purge_time 5000
             (LaptopSim.set_current_canister 1%nat
                (LaptopSim.set_canisters [40; 0.3] LaptopSim.init))))).

(** The year-long script at 80 C with 0.0003 Wh left in the battery: less
    than the fan draws in one step. *)
Definition pro_battery_nearly_flat : Pro.State :=
  Pro.set_battery_remaining_wh 0.0003 (Pro.set_temperature_c 80 Pro.init).

(** The state after [k] iterations that did not break, and the condition
    that none of them ends with an empty battery (year-long script). *)
Fixpoint pro_iterate (np_sin_pi : Q -> Q) (k : nat) (t : Z) (s : Pro.State)
    : Pro.State :=
  match k with
  | O => s
  | S k' => pro_iterate np_sin_pi k' (t + 1)%Z (fst (Pro.step np_sin_pi t s))
  end.

Fixpoint pro_battery_lasts
    (np_sin_pi : Q -> Q) (k : nat) (t : Z) (s : Pro.State) : Prop :=
  match k with
  | O => True
  | S k' =>
      0 < Pro.battery_remaining_wh (fst (Pro.step np_sin_pi t s))
      /\ pro_battery_lasts np_sin_pi k' (t + 1)%Z
           (fst (Pro.step np_sin_pi t s))
  end.

(** No iteration among the next [k] runs the refill branch (year-long
    script). *)
Fixpoint pro_no_refill
    (np_sin_pi : Q -> Q) (k : nat) (t : Z) (s : Pro.State) : Prop :=
  match k with
  | O => True
  | S k' =>
      Pro.refill_runs (t * Pro.time_step_s) s = false
      /\ pro_no_refill np_sin_pi k' (t + 1)%Z (fst (Pro.step np_sin_pi t s))
  end.

(** What the blocks before the net temperature update leave of the
    loop's bookkeeping (year-long script). *)
Definition pro_same_bookkeeping (s s' : Pro.State) : Prop :=
  Pro.temperature_log s' = Pro.temperature_log s
  /\ Pro.n_steps s' = Pro.n_steps s.


(** ** Further notions used by the properties below *)



(** The Peltier has run for a multiple of the time step, at most the
    maximum continuous runtime, and not at all while it is off. *)
Definition pro_runtime_ok (s : Pro.State) : Prop :=
  (0 <= Pro.peltier_runtime_s s <= Pro.peltier_max_runtime)%Z
  /\ (Pro.peltier_runtime_s s mod Pro.time_step_s = 0)%Z
  /\ (Pro.peltier_active s = false -> Pro.peltier_runtime_s s = 0%Z).

(** [laptop_sim.py]: the swap counter tells which canister is active. *)
Definition laptop_swapped_once (s : LaptopSim.State) : Prop :=
  (LaptopSim.current_canister s = 0%nat /\ LaptopSim.canister_swaps s = 0%Z)
  \/ (LaptopSim.current_canister s = 1%nat
      /\ LaptopSim.canister_swaps s = 1%Z).

(** [laptopcoolingsim1yearsim2.py] with both canisters under 50 J, and
    with only the active one under 50 J. *)
Definition sim2_depleted : Sim2.State := Sim2.set_canisters [40; 30] Sim2.init.

Definition sim2_low_active : Sim2.State :=
  Sim2.set_canisters [40; 2900] Sim2.init.

(** Counters and time stamps that the blocks before the purge leave
    alone. *)
Definition pro_same_counters (s s' : Pro.State) : Prop :=
  Pro.purge_count s' = Pro.purge_count s
  /\ Pro.canister_swaps s' = Pro.canister_swaps s
  /\ Pro.last_purge_time s' = Pro.last_purge_time s
  /\ Pro.peak_temp_c s' = Pro.peak_temp_c s.

Definition laptop_same_counters (s s' : LaptopSim.State) : Prop :=
  LaptopSim.purge_count s' = LaptopSim.purge_count s
  /\ LaptopSim.canister_swaps s' = LaptopSim.canister_swaps s
  /\ LaptopSim.last_purge_time s' = LaptopSim.last_purge_time s.

(** The blocks after the Peltier block leave its switch and its runtime
    alone. *)
Definition pro_same_peltier (s s' : Pro.State) : Prop :=
  Pro.peltier_active s' = Pro.peltier_active s
  /\ Pro.peltier_runtime_s s' = Pro.peltier_runtime_s s.

(** The battery went down, by at most [d] Wh. *)
Definition pro_drain (d : Q) (s s' : Pro.State) : Prop :=
  Pro.battery_remaining_wh s - d <= Pro.battery_remaining_wh s'
  /\ Pro.battery_remaining_wh s' <= Pro.battery_remaining_wh s.

Definition laptop_drain (d : Q) (s s' : LaptopSim.State) : Prop :=
  LaptopSim.battery_remaining_wh s - d <= LaptopSim.battery_remaining_wh s'
  /\ LaptopSim.battery_remaining_wh s' <= LaptopSim.battery_remaining_wh s.

(** [laptop_sim.py]: the fan's duty cycle is a percentage. *)
Definition laptop_duty_ok (s : LaptopSim.State) : Prop :=
  (0 <= LaptopSim.fan_duty_cycle s <= 100)%Z.

(** Every logged temperature lies between the floor of the net
    temperature update and the recorded peak. *)
Definition pro_peak_ok (s : Pro.State) : Prop :=
  Forall (fun x => Pro.initial_temp_c * 0.8 <= x <= Pro.peak_temp_c s)
    (Pro.temperature_log s).

(** No entry of the cooling ledger went down. *)
Definition ledger_le (c c' : Contribution) : Prop :=
  passive c <= passive c'
  /\ co2_hiss c <= co2_hiss c'
  /\ co2_purge c <= co2_purge c'
  /\ canister_conduction c <= canister_conduction c'
  /\ peltier c <= peltier c'
  /\ fan_boost c <= fan_boost c'.

(** [sum(cooling_contribution.values())] of the summary. *)
Definition total_cooling_joules (c : Contribution) : Q :=
  py_sum [passive c; co2_hiss c; co2_purge c; canister_conduction c;
          peltier c; fan_boost c].

(** [laptop_sim.py]: the last logged temperature is the current one. *)
Definition laptop_log_current (s : LaptopSim.State) : Prop :=
  exists l,
    LaptopSim.temperature_log s = l ++ [LaptopSim.temperature_c s].

(** * Properties *)

(** ** Comparisons as propositions *)

Lemma Qltb_lt (x y : Q) : (x <? y) = true <-> x < y.
Proof.
  unfold Qltb. rewrite negb_true_iff, <- not_true_iff_false, Qle_bool_iff.
  split; [apply Qnot_le_lt | apply Qlt_not_le].
Qed.

Lemma Qltb_ge (x y : Q) : (x <? y) = false <-> y <= x.
Proof. unfold Qltb. rewrite negb_false_iff, Qle_bool_iff. tauto. Qed.

Lemma Qleb_gt (x y : Q) : (x <=? y) = false <-> y < x.
Proof.
  rewrite <- not_true_iff_false, Qle_bool_iff.
  split; [apply Qnot_le_lt | apply Qlt_not_le].
Qed.

(** Turns every Boolean comparison among the hypotheses into its
    proposition. *)
Ltac qprop :=
  repeat match goal with
  | H : (_ <=? _) = true |- _ => apply Qle_bool_iff in H
  | H : (_ <=? _) = false |- _ => apply Qleb_gt in H
  | H : (_ <? _) = true |- _ => apply Qltb_lt in H
  | H : (_ <? _) = false |- _ => apply Qltb_ge in H
  | H : (_ && _) = true |- _ => apply andb_true_iff in H; destruct H
  | H : (_ || _) = false |- _ => apply orb_false_iff in H; destruct H
  end.

(** [lra] and [nra] do not read a division: divisions by a literal become
    multiplications by its inverse. *)
Ltac qdiv :=
  unfold Qdiv in *;
  repeat match goal with
  | |- context [/ (Qmake ?n ?d)] =>
      let v := eval compute in (/ (Qmake n d)) in
      change (/ (Qmake n d)) with v
  | H : context [/ (Qmake ?n ?d)] |- _ =>
      let v := eval compute in (/ (Qmake n d)) in
      change (/ (Qmake n d)) with v in H
  end.

(** ** The efficiency clamp [max(0.1, min(base, e))] *)

Lemma clamp_mono (b e1 e2 : Q) :
  e1 <= e2 -> Qmax 0.1 (Qmin b e1) <= Qmax 0.1 (Qmin b e2).
Proof. intro H. now apply Q.max_le_compat_l, Q.min_le_compat_l. Qed.

Lemma clamp_floor (b e : Q) : e <= 0.1 -> Qmax 0.1 (Qmin b e) == 0.1.
Proof.
  intro H. apply Q.max_l. eapply Qle_trans; [apply Q.le_min_r | exact H].
Qed.

Lemma clamp_ceiling (b e : Q) : 0.1 <= b -> Qmax 0.1 (Qmin b e) <= b.
Proof. intro H. apply Q.max_lub; [exact H | apply Q.le_min_l]. Qed.

(** The quadratic falloff is antitone in a non-negative differential. *)
Lemma falloff_antitone (d1 d2 : Q) :
  0 <= d1 -> d1 <= d2 ->
  0.6 * (1 - (d2 / 70) ^ 2) <= 0.6 * (1 - (d1 / 70) ^ 2).
Proof. intros H0 H. simpl Qpower. qdiv. nra. Qed.

(** ** Peltier efficiency *)

Lemma pro_efficiency_antitone (cpu hot1 hot2 : Q) :
  cpu <= hot1 -> hot1 <= hot2 ->
  Pro.calculate_peltier_efficiency cpu hot2
  <= Pro.calculate_peltier_efficiency cpu hot1.
Proof.
  intros Hc H.
  unfold Pro.calculate_peltier_efficiency, Pro.peltier_efficiency_base.
  cbv zeta.
  assert (Hf := falloff_antitone (hot1 - cpu) (hot2 - cpu)).
  destruct (hot2 - cpu <=? 0) eqn:D2; destruct (hot1 - cpu <=? 0) eqn:D1;
    qprop; try lra.
  - apply clamp_ceiling; lra.
  - destruct (85 <? hot2) eqn:F2; destruct (85 <? hot1) eqn:F1; qprop;
      try lra.
    + apply clamp_mono. lra.
    + destruct (Qlt_le_dec (0.6 * (1 - ((hot2 - cpu) / 70) ^ 2)) 0) as [Hn|Hp].
      * rewrite clamp_floor by lra. apply Q.le_max_l.
      * apply clamp_mono. lra.
    + apply clamp_mono. lra.
Qed.

Lemma pro_efficiency_base (cpu hot : Q) :
  hot <= cpu ->
  Pro.calculate_peltier_efficiency cpu hot = Pro.peltier_efficiency_base.
Proof.
  intro H. unfold Pro.calculate_peltier_efficiency. cbv zeta.
  destruct (hot - cpu <=? 0) eqn:D; qprop; [reflexivity | lra].
Qed.

(** The two scripts define the same function. *)
Lemma laptop_efficiency_eq (cpu hot : Q) :
  LaptopSim.calculate_peltier_efficiency cpu hot
  = Pro.calculate_peltier_efficiency cpu hot.
Proof. reflexivity. Qed.

(** C5: for a fixed [cpu_temp], [calculate_peltier_efficiency] returns the
    base efficiency whenever the hot side is not above [cpu_temp], and is
    non-increasing in the hot-side temperature from [cpu_temp] upwards; this
    holds for the function of the year-long script and for the one of
    [laptop_sim.py]. *)
Theorem C5_peltier_efficiency_monotone (cpu_temp : Q) :
  (forall hot, hot <= cpu_temp ->
     Pro.calculate_peltier_efficiency cpu_temp hot
       = Pro.peltier_efficiency_base
     /\ LaptopSim.calculate_peltier_efficiency cpu_temp hot
       = LaptopSim.PELTIER_EFFICIENCY_BASE)
  /\ (forall hot1 hot2, cpu_temp <= hot1 -> hot1 <= hot2 ->
        Pro.calculate_peltier_efficiency cpu_temp hot2
          <= Pro.calculate_peltier_efficiency cpu_temp hot1
        /\ LaptopSim.calculate_peltier_efficiency cpu_temp hot2
          <= LaptopSim.calculate_peltier_efficiency cpu_temp hot1).
Proof.
  split.
  - intros hot H. split; [| change LaptopSim.PELTIER_EFFICIENCY_BASE
                              with Pro.peltier_efficiency_base];
      now apply pro_efficiency_base.
  - intros hot1 hot2 Hc H.
    split; [| change (Pro.calculate_peltier_efficiency cpu_temp hot2
                      <= Pro.calculate_peltier_efficiency cpu_temp hot1)];
      now apply pro_efficiency_antitone.
Qed.

(** The efficiency at 50 C with the hot side at 50, 80, 86 and 130 C. *)
Lemma C5_peltier_efficiency_witness :
  (Pro.calculate_peltier_efficiency 50 50 = 0.6
   /\ LaptopSim.calculate_peltier_efficiency 50 50 = 0.6)
  /\ (Pro.calculate_peltier_efficiency 50 86
        <= Pro.calculate_peltier_efficiency 50 80
      /\ LaptopSim.calculate_peltier_efficiency 50 86
        <= LaptopSim.calculate_peltier_efficiency 50 80).
Proof.
  split.
  - apply (proj1 (C5_peltier_efficiency_monotone 50) 50). lra.
  - apply (proj2 (C5_peltier_efficiency_monotone 50) 80 86); lra.
Defined.

(** ** Fan multiplier *)

Lemma decay_bounds (x : Q) : 0 <= Qmax 0 (Qmin 1 x) <= 1.
Proof.
  split; [apply Q.le_max_l |].
  apply Q.max_lub; [lra | apply Q.le_min_l].
Qed.

Lemma pro_fan_multiplier_ge_1 (duty : Q) (post : bool) (timer : Q) :
  1 <= Pro.calculate_fan_multiplier duty post timer.
Proof.
  unfold Pro.calculate_fan_multiplier, Pro.fan_efficiency_multiplier_base.
  cbv zeta. destruct (duty <=? 0) eqn:D; qprop; [lra |].
  destruct post.
  - match goal with
    | |- context [Qmax 0 (Qmin 1 ?x)] =>
        destruct (decay_bounds x) as [H0 H1];
        set (decay_factor := Qmax 0 (Qmin 1 x)) in *
    end.
    qdiv. nra.
  - qdiv. nra.
Qed.

Lemma laptop_fan_multiplier_ge_1 (duty : Q) (post : bool) (timer : Q) :
  1 <= LaptopSim.calculate_fan_multiplier duty post timer.
Proof.
  unfold LaptopSim.calculate_fan_multiplier,
    LaptopSim.FAN_EFFICIENCY_MULTIPLIER_BASE.
  cbv zeta. destruct (duty <=? 0) eqn:D; qprop; [lra |].
  destruct post.
  - match goal with
    | |- context [Qmax 0 (Qmin 1 ?x)] =>
        destruct (decay_bounds x) as [H0 H1];
        set (decay_factor := Qmax 0 (Qmin 1 x)) in *
    end.
    qdiv. nra.
  - qdiv. nra.
Qed.

(** C6: [calculate_fan_multiplier] returns exactly 1.0 at duty cycle 0,
    whatever the post-purge flag and the timer; and for a duty cycle in
    [0, 100] and a timer in [0, conduction_duration] the multiplier is at
    least 1.0.  Both scripts. *)
Theorem C6_fan_multiplier_identity_and_floor :
  (forall post timer,
     Pro.calculate_fan_multiplier 0 post timer = 1.0
     /\ LaptopSim.calculate_fan_multiplier 0 post timer = 1.0)
  /\ (forall duty post timer,
        0 <= duty <= 100 ->
        0 <= timer <= inject_Z Pro.conduction_duration ->
        1.0 <= Pro.calculate_fan_multiplier duty post timer
        /\ 1.0 <= LaptopSim.calculate_fan_multiplier duty post timer).
Proof.
  split.
  - intros post timer. split; reflexivity.
  - intros duty post timer _ _. split.
    + assert (H := pro_fan_multiplier_ge_1 duty post timer). lra.
    + assert (H := laptop_fan_multiplier_ge_1 duty post timer). lra.
Qed.

(** Duty 50 %, ninety seconds left on the post-purge timer. *)
Lemma C6_fan_multiplier_witness :
  1.0 <= Pro.calculate_fan_multiplier 50 true 90
  /\ 1.0 <= LaptopSim.calculate_fan_multiplier 50 true 90.
Proof.
  apply (proj2 C6_fan_multiplier_identity_and_floor 50 true 90);
    unfold Pro.conduction_duration, inject_Z; split; lra.
Defined.
(** ** The post-purge boost *)

(** In the year-long script the boost factor is [1 + 0.5 * (elapsed / 180)]
    where [elapsed] is the time since the purge: the timer handed to
    [calculate_fan_multiplier] is the remaining time, and the function
    subtracts it from the window length once more. *)
Lemma pro_purge_boost (duty elapsed : Q) :
  0 < duty -> 0 <= elapsed <= 180 ->
  Pro.calculate_fan_multiplier duty true (180 - elapsed)
  == Pro.calculate_fan_multiplier duty false 0 * (1 + 0.5 * (elapsed / 180)).
Proof.
  intros Hd [H0 H1]. unfold Pro.calculate_fan_multiplier. cbv zeta.
  destruct (duty <=? 0) eqn:D; qprop; [lra |].
  unfold Pro.conduction_duration, inject_Z.
  assert (E : (180 - (180 - elapsed)) / 180 == elapsed / 180) by (qdiv; lra).
  rewrite E.
  rewrite (Q.min_r 1 (elapsed / 180)) by (qdiv; lra).
  rewrite (Q.max_r 0 (elapsed / 180)) by (qdiv; lra).
  qdiv. lra.
Qed.

(** In [laptop_sim.py] the factor is [1 + 0.5 * (1 - elapsed / 180)]. *)
Lemma laptop_purge_boost (duty elapsed : Q) :
  0 < duty -> 0 <= elapsed <= 180 ->
  LaptopSim.calculate_fan_multiplier duty true (180 - elapsed)
  == LaptopSim.calculate_fan_multiplier duty false 0
     * (1 + 0.5 * (1 - elapsed / 180)).
Proof.
  intros Hd [H0 H1]. unfold LaptopSim.calculate_fan_multiplier. cbv zeta.
  destruct (duty <=? 0) eqn:D; qprop; [lra |].
  unfold LaptopSim.CONDUCTION_DURATION, inject_Z.
  assert (E : (180 - elapsed) / 180 == 1 - elapsed / 180) by (qdiv; lra).
  rewrite E.
  rewrite (Q.min_r 1 (1 - elapsed / 180)) by (qdiv; lra).
  rewrite (Q.max_r 0 (1 - elapsed / 180)) by (qdiv; lra).
  qdiv. lra.
Qed.

(** ** The canister list *)

Lemma item_setitem_same (l : list Q) (i : nat) (v : Q) :
  (i < length l)%nat -> item (setitem l i v) i = v.
Proof.
  unfold item. revert i. induction l as [|hd tl IH]; intros [|j] H;
    simpl in *; try lia; [reflexivity | apply IH; lia].
Qed.

Lemma item_setitem_other (l : list Q) (i j : nat) (v : Q) :
  i <> j -> item (setitem l i v) j = item l j.
Proof.
  unfold item. revert i j. induction l as [|hd tl IH]; intros [|i] [|j] H;
    simpl; try reflexivity; try congruence.
  apply IH. congruence.
Qed.

Lemma length_setitem (l : list Q) (i : nat) (v : Q) :
  length (setitem l i v) = length l.
Proof.
  revert i. induction l as [|hd tl IH]; intros [|i]; simpl; congruence.
Qed.

(** ** Emergency purge *)










Lemma pro_init_wf : Pro.wf Pro.init.
Proof.
  exists Pro.cooling_capacity_joules, Pro.cooling_capacity_joules.
  repeat split; unfold Pro.cooling_capacity_joules; simpl; (lia || lra).
Qed.


(** ** Canister swap and refill *)

Lemma pro_weekly_log_canisters (seconds : Z) (e : Event) (s : Pro.State) :
  let s' := Pro.weekly_log seconds e s in
  Pro.canisters s' = Pro.canisters s
  /\ Pro.current_canister s' = Pro.current_canister s
  /\ Pro.canister_swaps s' = Pro.canister_swaps s
  /\ Pro.temperature_c s' = Pro.temperature_c s
  /\ Pro.hot_side_temp_c s' = Pro.hot_side_temp_c s
  /\ Pro.cooling_contribution s' = Pro.cooling_contribution s.
Proof.
  unfold Pro.weekly_log.
  destruct (604800 <? seconds - Pro.last_swap_log_time s)%Z; cbn; auto 7.
Qed.

(** The swap/refill block of [laptopcoolingsim1yearsim2.py] refills. *)
Lemma sim2_refill (seconds : Z) (s : Sim2.State) :
  Sim2.active_energy s < 50 ->
  item (Sim2.canisters s) (1 - Sim2.current_canister s) <= 50 ->
  let s' := Sim2.swap_block seconds s in
  Sim2.canisters s'
    = [Sim2.cooling_capacity_joules; Sim2.cooling_capacity_joules]
  /\ Sim2.current_canister s' = 0%nat
  /\ Sim2.canister_swaps s' = (Sim2.canister_swaps s + 1)%Z.
Proof.
  intros Ha Ho. unfold Sim2.swap_block.
  apply Qltb_lt in Ha. rewrite Ha. apply Qltb_ge in Ho. rewrite Ho.
  cbn. auto.
Qed.

(** The same block of the year-long [4o1-pro] script maps
    [min(capacity, c)] over the canisters, which leaves every energy within
    capacity as it is. *)
Lemma pro_refill_keeps_energy (seconds : Z) (s : Pro.State) :
  Pro.wf s ->
  Pro.active_energy s < 50 ->
  item (Pro.canisters s) (1 - Pro.current_canister s) <= 50 ->
  let s' := Pro.swap_block seconds s in
  (forall i, item (Pro.canisters s') i == item (Pro.canisters s) i)
  /\ Pro.current_canister s' = 0%nat
  /\ Pro.canister_swaps s' = (Pro.canister_swaps s + 1)%Z.
Proof.
  intros (c0 & c1 & E & Hi & H0 & H1) Ha Ho. unfold Pro.swap_block.
  apply Qltb_lt in Ha. rewrite Ha. apply Qltb_ge in Ho. rewrite Ho.
  cbv zeta.
  match goal with
  | |- context [Pro.weekly_log ?t ?e ?x] =>
      destruct (pro_weekly_log_canisters t e x) as (Ec & Ei & Es & _)
  end.
  rewrite Ec, Ei, Es. cbn. rewrite E. repeat split.
  intros [|[|[|i]]]; unfold item; cbn; try reflexivity;
    apply Q.min_r; tauto.
Qed.

(** C4, evaluated on the year-long [4o1-pro] script with both canisters
    under 50 J: the refill branch runs (index 0, swap counter incremented)
    but the canisters keep 40 J and 30 J instead of the 2900 J capacity. *)
Theorem C4_pro_refill_leaves_canisters_depleted :
  Pro.active_energy pro_depleted < 50
  /\ item (Pro.canisters pro_depleted) 1 <= 50
  /\ Pro.canisters (Pro.swap_block 0 pro_depleted) = [40; 30]
  /\ Pro.current_canister (Pro.swap_block 0 pro_depleted) = 0%nat
  /\ Pro.canister_swaps (Pro.swap_block 0 pro_depleted) = 1%Z.
Proof. repeat split; intro; discriminate. Qed.

(** ** Peltier controller *)

Lemma sim2_peltier_deactivation
    (cpu_temp battery_level : Q) (co2 : bool) (since : Z) (s : Sim2.State) :
  Sim2.peltier_active s = true ->
  let s' := Sim2.manage_peltier cpu_temp battery_level co2 since s in
  (Sim2.peltier_active s' = false
   <-> cpu_temp < 65
       \/ battery_level < 0.03 * Sim2.battery_capacity_wh
       \/ 95 < Sim2.hot_side_temp_c s
       \/ (Sim2.peltier_max_runtime <= Sim2.peltier_runtime_s s)%Z)
  /\ (Sim2.peltier_active s' = false -> Sim2.peltier_runtime_s s' = 0%Z).
Proof.
  intro Ha. unfold Sim2.manage_peltier. rewrite Ha.
  destruct (Sim2.should_deactivate cpu_temp battery_level s) eqn:D; cbn.
  - split; [| reflexivity]. split; [intros _ | reflexivity].
    unfold Sim2.should_deactivate in D.
    rewrite !orb_true_iff, !Qltb_lt, Z.leb_le in D. tauto.
  - split; [| congruence]. split; [congruence |].
    unfold Sim2.should_deactivate in D.
    rewrite !orb_false_iff, !Qltb_ge, Z.leb_gt in D.
    intros [H | [H | [H | H]]]; (lra || lia).
Qed.

Lemma pro_peltier_deactivation
    (cpu_temp battery_level : Q) (co2 : bool) (since : Z) (s : Pro.State) :
  Pro.peltier_active s = true ->
  let s' := Pro.manage_peltier cpu_temp battery_level co2 since s in
  (cpu_temp < 65
   \/ battery_level < 0.03 * Pro.battery_capacity_wh
   \/ (Pro.peltier_max_runtime <= Pro.peltier_runtime_s s)%Z ->
   Pro.peltier_active s' = false)
  /\ (Pro.peltier_active s' = false ->
      cpu_temp < 65
      \/ battery_level < 0.03 * Pro.battery_capacity_wh
      \/ 95 < Pro.hot_side_temp_c s
      \/ (Pro.peltier_max_runtime <= Pro.peltier_runtime_s s)%Z)
  /\ (Pro.peltier_active s' = false -> Pro.peltier_runtime_s s' = 0%Z).
Proof.
  intro Ha. unfold Pro.manage_peltier. rewrite Ha.
  destruct (Pro.should_deactivate cpu_temp battery_level s) eqn:D; cbn.
  - repeat split. intros _. unfold Pro.should_deactivate in D.
    rewrite !orb_true_iff, !Qltb_lt, Z.leb_le in D. tauto.
  - repeat split; try congruence.
    unfold Pro.should_deactivate in D.
    rewrite !orb_false_iff, !Qltb_ge, Z.leb_gt in D.
    intros [H | [H | H]]; (lra || lia).
Qed.

Lemma laptop_deactivate_excludes_activate (s : LaptopSim.State) :
  LaptopSim.should_deactivate s = true -> LaptopSim.should_activate s = false.
Proof.
  unfold LaptopSim.should_deactivate, LaptopSim.should_activate.
  rewrite !orb_true_iff, !Qltb_lt, Z.leb_le.
  intros H. apply not_true_iff_false.
  rewrite !andb_true_iff, !Qltb_lt, Z.ltb_lt. intros [[[? ?] ?] ?].
  destruct H as [[[H | H] | H] | H]; (lra || lia).
Qed.

Lemma laptop_peltier_deactivation (seconds : Z) (s : LaptopSim.State) :
  LaptopSim.peltier_active s = true ->
  let s' := LaptopSim.peltier_switch seconds s in
  (LaptopSim.peltier_active s' = false
   <-> (LaptopSim.temperature_c s < 65
        \/ LaptopSim.battery_remaining_wh s < 3
        \/ 95 < LaptopSim.hot_side_temp_c s
        \/ (LaptopSim.PELTIER_MAX_RUNTIME <= LaptopSim.peltier_runtime_s s)%Z)
       /\ LaptopSim.post_purge_boost seconds s = false)
  /\ (LaptopSim.peltier_active s' = false ->
      LaptopSim.peltier_runtime_s s' = 0%Z).
Proof.
  intro Ha. unfold LaptopSim.peltier_switch.
  assert (Hx := laptop_deactivate_excludes_activate s).
  assert (Hd : LaptopSim.should_deactivate s = true
               <-> LaptopSim.temperature_c s < 65
                   \/ LaptopSim.battery_remaining_wh s < 3
                   \/ 95 < LaptopSim.hot_side_temp_c s
                   \/ (LaptopSim.PELTIER_MAX_RUNTIME
                       <= LaptopSim.peltier_runtime_s s)%Z).
  { unfold LaptopSim.should_deactivate.
    rewrite !orb_true_iff, !Qltb_lt, Z.leb_le. tauto. }
  destruct (LaptopSim.should_deactivate s) eqn:D.
  - rewrite Hx by reflexivity. cbn [orb].
    destruct (LaptopSim.post_purge_boost seconds s); cbn.
    + split; [| congruence]. split; [congruence | intros [_ H]; congruence].
    + split; [| reflexivity]. split; [| reflexivity].
      intros _. split; [now apply Hd | reflexivity].
  - assert (Hn : LaptopSim.peltier_active
                   (if LaptopSim.should_activate s
                       || LaptopSim.post_purge_boost seconds s
                    then LaptopSim.set_peltier_active true s else s) = true)
      by (destruct (_ || _); [reflexivity | exact Ha]).
    split; [| congruence]. split; [congruence |].
    intros [H _]. apply Hd in H. congruence.
Qed.

(** C7 fails as stated: in [laptop_sim.py] an active Peltier below the
    65 C threshold stays active while the post-purge bonus window is open
    (here 30 s after the purge). *)
Lemma C7_counterexample_laptop_post_purge_window :
  LaptopSim.peltier_active laptop_cool_after_purge = true
  /\ LaptopSim.temperature_c laptop_cool_after_purge < 65
  /\ LaptopSim.peltier_active
       (LaptopSim.peltier_switch 1030 laptop_cool_after_purge) = true.
Proof. repeat split. Qed.

(** C7, amended.  While the Peltier is active:
    - in [laptopcoolingsim1yearsim2.py] it is deactivated exactly when the
      temperature is below 65 C, the battery below 3 % of capacity, the hot
      side above 95 C, or the runtime at or beyond the maximum;
    - in the year-long [4o1-pro] script each of temperature below 65 C,
      battery below 3 % and runtime at or beyond the maximum deactivates it,
      and a deactivation only happens under one of the four conditions;
    - in [laptop_sim.py] it is deactivated exactly when one of the four
      conditions (battery floor 3 Wh) holds outside the post-purge bonus
      window;
    and every deactivation resets [peltier_runtime_s] to 0. *)
Theorem C7_peltier_deactivation :
  (forall cpu_temp battery_level co2 since s,
     Sim2.peltier_active s = true ->
     let s' := Sim2.manage_peltier cpu_temp battery_level co2 since s in
     (Sim2.peltier_active s' = false
      <-> cpu_temp < 65
          \/ battery_level < 0.03 * Sim2.battery_capacity_wh
          \/ 95 < Sim2.hot_side_temp_c s
          \/ (Sim2.peltier_max_runtime <= Sim2.peltier_runtime_s s)%Z)
     /\ (Sim2.peltier_active s' = false -> Sim2.peltier_runtime_s s' = 0%Z))
  /\ (forall cpu_temp battery_level co2 since s,
        Pro.peltier_active s = true ->
        let s' := Pro.manage_peltier cpu_temp battery_level co2 since s in
        (cpu_temp < 65
         \/ battery_level < 0.03 * Pro.battery_capacity_wh
         \/ (Pro.peltier_max_runtime <= Pro.peltier_runtime_s s)%Z ->
         Pro.peltier_active s' = false)
        /\ (Pro.peltier_active s' = false ->
            cpu_temp < 65
            \/ battery_level < 0.03 * Pro.battery_capacity_wh
            \/ 95 < Pro.hot_side_temp_c s
            \/ (Pro.peltier_max_runtime <= Pro.peltier_runtime_s s)%Z)
        /\ (Pro.peltier_active s' = false -> Pro.peltier_runtime_s s' = 0%Z))
  /\ (forall seconds s,
        LaptopSim.peltier_active s = true ->
        let s' := LaptopSim.peltier_switch seconds s in
        (LaptopSim.peltier_active s' = false
         <-> (LaptopSim.temperature_c s < 65
              \/ LaptopSim.battery_remaining_wh s < 3
              \/ 95 < LaptopSim.hot_side_temp_c s
              \/ (LaptopSim.PELTIER_MAX_RUNTIME
                  <= LaptopSim.peltier_runtime_s s)%Z)
             /\ LaptopSim.post_purge_boost seconds s = false)
        /\ (LaptopSim.peltier_active s' = false ->
            LaptopSim.peltier_runtime_s s' = 0%Z)).
Proof.
  split; [| split].
  - exact sim2_peltier_deactivation.
  - exact pro_peltier_deactivation.
  - exact laptop_peltier_deactivation.
Qed.

(** The year-long script starts with the Peltier on at 25 C: the first call
    of the controller switches it off and leaves the runtime at 0. *)
Lemma C7_peltier_deactivation_witness :
  let s' := Pro.manage_peltier 25 Pro.battery_capacity_wh true 9999 Pro.init in
  Pro.peltier_active s' = false /\ Pro.peltier_runtime_s s' = 0%Z.
Proof.
  destruct (proj1 (proj2 C7_peltier_deactivation)
              25 Pro.battery_capacity_wh true 9999%Z Pro.init eq_refl)
    as (Hoff & _ & Hreset).
  assert (H : Pro.peltier_active
                (Pro.manage_peltier 25 Pro.battery_capacity_wh true 9999
                   Pro.init) = false)
    by (apply Hoff; left; reflexivity).
  split; [exact H | exact (Hreset H)].
Defined.

(** ** What the blocks before the purge leave alone (year-long script) *)

(** Destructs every conditional of the goal. *)
Ltac split_ifs :=
  repeat match goal with
  | |- context [if ?b then _ else _] => destruct b
  end.

Lemma pro_manage_peltier_frame
    (cpu_temp battery_level : Q) (co2 : bool) (since : Z) (s : Pro.State) :
  let s' := Pro.manage_peltier cpu_temp battery_level co2 since s in
  Pro.canisters s' = Pro.canisters s
  /\ Pro.current_canister s' = Pro.current_canister s
  /\ Pro.temperature_c s' = Pro.temperature_c s
  /\ Pro.hot_side_temp_c s' = Pro.hot_side_temp_c s
  /\ Pro.cooling_contribution s' = Pro.cooling_contribution s
  /\ Pro.post_purge_timer s' = Pro.post_purge_timer s.
Proof. unfold Pro.manage_peltier. split_ifs; cbn; auto 7. Qed.

Lemma pro_peltier_block_frame (seconds : Z) (s : Pro.State) :
  let s' := fst (Pro.peltier_block seconds s) in
  Pro.canisters s' = Pro.canisters s
  /\ Pro.current_canister s' = Pro.current_canister s
  /\ Pro.temperature_c s' = Pro.temperature_c s
  /\ Pro.cooling_contribution s' = Pro.cooling_contribution s
  /\ Pro.post_purge_timer s' = Pro.post_purge_timer s
  /\ Pro.temperature_c s' <= Pro.hot_side_temp_c s'.
Proof.
  unfold Pro.peltier_block.
  match goal with
  | |- context [Pro.manage_peltier ?a ?b ?c ?d s] =>
      destruct (pro_manage_peltier_frame a b c d s)
        as (Ec & Ei & Et & _ & Ek & Ep);
      set (m := Pro.manage_peltier a b c d s) in *
  end.
  destruct (Pro.peltier_active m); cbn; rewrite Ec, Ei, Et, Ek, Ep;
    repeat split; apply Q.le_max_l.
Qed.

Lemma pro_manage_fan_frame
    (cpu_temp : Q) (post : bool) (since now : Z) (s : Pro.State) :
  let s' := Pro.manage_fan cpu_temp post since now s in
  Pro.canisters s' = Pro.canisters s
  /\ Pro.current_canister s' = Pro.current_canister s
  /\ Pro.temperature_c s' = Pro.temperature_c s
  /\ Pro.hot_side_temp_c s' = Pro.hot_side_temp_c s
  /\ Pro.cooling_contribution s' = Pro.cooling_contribution s
  /\ Pro.post_purge_timer s' = Pro.post_purge_timer s.
Proof.
  unfold Pro.manage_fan.
  destruct (if (cpu_temp <? 50) && negb post then _ else _) as [mode target].
  cbn. auto 7.
Qed.

Lemma pro_fan_block_frame (seconds : Z) (post : bool) (s : Pro.State) :
  let s' := fst (Pro.fan_block seconds post s) in
  Pro.canisters s' = Pro.canisters s
  /\ Pro.current_canister s' = Pro.current_canister s
  /\ Pro.temperature_c s' = Pro.temperature_c s
  /\ Pro.hot_side_temp_c s' = Pro.hot_side_temp_c s
  /\ Pro.cooling_contribution s' = Pro.cooling_contribution s.
Proof.
  unfold Pro.fan_block.
  match goal with
  | |- context [Pro.manage_fan ?a ?b ?c ?d s] =>
      destruct (pro_manage_fan_frame a b c d s)
        as (Ec & Ei & Et & Eh & Ek & _);
      set (m := Pro.manage_fan a b c d s) in *
  end.
  cbn. destruct (Pro.fan_active m); cbn; auto.
Qed.

Lemma pro_fan_block_multiplier (seconds : Z) (post : bool) (s : Pro.State) :
  1 <= snd (Pro.fan_block seconds post s).
Proof. unfold Pro.fan_block. cbn. apply pro_fan_multiplier_ge_1. Qed.

(** The state before the purge block: canisters, index and temperature are
    those of the start of the step, the hot side is not below the
    temperature, the multiplier is at least 1 and the ledger has received
    the step's hiss energy. *)
Lemma pro_before_purge_spec (seconds : Z) (s : Pro.State) :
  let s' := fst (fst (Pro.before_purge seconds s)) in
  Pro.canisters s' = Pro.canisters s
  /\ Pro.current_canister s' = Pro.current_canister s
  /\ Pro.temperature_c s' = Pro.temperature_c s
  /\ Pro.temperature_c s' <= Pro.hot_side_temp_c s'
  /\ 1 <= snd (fst (Pro.before_purge seconds s))
  /\ co2_hiss (Pro.cooling_contribution s')
     == co2_hiss (Pro.cooling_contribution s) + Pro.hiss_energy seconds s
  /\ co2_purge (Pro.cooling_contribution s')
     = co2_purge (Pro.cooling_contribution s).
Proof.
  unfold Pro.before_purge.
  set (s1 := Pro.update_post_purge_timer seconds s).
  destruct (pro_peltier_block_frame seconds s1)
    as (Ec2 & Ei2 & Et2 & Ek2 & _ & Eh2).
  destruct (Pro.peltier_block seconds s1) as [s2 pc]. cbn [fst] in *.
  destruct (pro_fan_block_frame seconds (Pro.is_post_purge seconds s) s2)
    as (Ec3 & Ei3 & Et3 & Eh3 & Ek3).
  assert (Hm := pro_fan_block_multiplier seconds
                  (Pro.is_post_purge seconds s) s2).
  destruct (Pro.fan_block seconds (Pro.is_post_purge seconds s) s2)
    as [s3 fm].
  cbn [fst snd] in *. unfold Pro.cooling_block. cbn.
  rewrite Ec3, Ei3, Et3, Eh3, Ek3, Ec2, Ei2, Ek2. rewrite Et2 in *.
  subst s1. cbn in *.
  repeat split; try assumption.
  unfold Pro.time_step_s, inject_Z. qdiv. lra.
Qed.

(** ** Purge, swap and hiss usage on a two-canister store (year-long
    script) *)

Lemma py_sum_pair (a b : Q) : py_sum [a; b] == a + b.
Proof. unfold py_sum. simpl. lra. Qed.

Lemma pro_hiss_energy_nonneg (seconds : Z) (s : Pro.State) :
  0 <= Pro.hiss_energy seconds s.
Proof.
  unfold Pro.hiss_energy, Pro.microburst_band. split_ifs; cbn; lra.
Qed.

Lemma pro_hiss_energy_gated (seconds : Z) (s : Pro.State) :
  0 < Pro.hiss_energy seconds s -> 0 < Pro.active_energy s.
Proof.
  unfold Pro.hiss_energy, Pro.burst_now.
  destruct (0 <? Pro.active_energy s) eqn:G; cbn [andb]; [| lra].
  intros _. now apply Qltb_lt.
Qed.

Lemma pro_purge_block_store (seconds : Z) (fm : Q) (s : Pro.State) :
  Pro.wf s -> 0 <= fm ->
  let s' := Pro.purge_block seconds fm s in
  Pro.wf s'
  /\ Pro.current_canister s' = Pro.current_canister s
  /\ (forall j, j <> Pro.current_canister s ->
        item (Pro.canisters s') j = item (Pro.canisters s) j)
  /\ Pro.co2_ledger s' == Pro.co2_ledger s
  /\ Pro.hot_side_temp_c s' = Pro.hot_side_temp_c s
  /\ Pro.temperature_c s' <= Pro.temperature_c s.
Proof.
  intros Hwf Hfm. unfold Pro.purge_block.
  destruct (Pro.needs_purge s || Pro.maybe_purge s);
    [| repeat split; (assumption || reflexivity || lra)].
  destruct (Pro.cooling_effective_joules <=? Pro.active_energy s) eqn:He;
    [| repeat split; (assumption || reflexivity || lra)].
  qprop. destruct Hwf as (c0 & c1 & E & Hi & H0 & H1).
  unfold Pro.co2_ledger, Pro.wf, Pro.active_energy in *. cbn.
  rewrite E in *.
  unfold Pro.cooldown_per_purge_c, Pro.cooling_effective_joules,
    Pro.cooling_capacity_joules, Pro.purge_efficiency,
    Pro.thermal_mass_j_per_c in *.
  destruct (Pro.current_canister s) as [|[|i]]; [| | lia];
    unfold item in *; cbn in *.
  - repeat split.
    + eexists _, _. repeat split; try reflexivity; try lia; lra.
    + intros [|[|j]] Hj; try reflexivity; congruence.
    + unfold py_sum. cbn. lra.
    + qdiv. nra.
  - repeat split.
    + eexists _, _. repeat split; try reflexivity; try lia; lra.
    + intros [|[|j]] Hj; try reflexivity; congruence.
    + unfold py_sum. cbn. lra.
    + qdiv. nra.
Qed.

Lemma pro_swap_block_store (seconds : Z) (s : Pro.State) :
  Pro.wf s ->
  let s' := Pro.swap_block seconds s in
  Pro.wf s'
  /\ (forall j, item (Pro.canisters s') j == item (Pro.canisters s) j)
  /\ Pro.co2_ledger s' == Pro.co2_ledger s
  /\ Pro.hot_side_temp_c s' = Pro.hot_side_temp_c s
  /\ Pro.temperature_c s' = Pro.temperature_c s.
Proof.
  intros (c0 & c1 & E & Hi & H0 & H1). unfold Pro.swap_block.
  destruct (Pro.active_energy s <? 50) eqn:Ha.
  2:{ repeat split; try reflexivity. exists c0, c1. auto. }
  destruct (50 <? item (Pro.canisters s) (1 - Pro.current_canister s)) eqn:Ho;
    cbv zeta;
    match goal with
    | |- context [Pro.weekly_log ?t ?e ?x] =>
        destruct (pro_weekly_log_canisters t e x)
          as (Ec & Ei & _ & Et & Eh & Ek);
        set (w := Pro.weekly_log t e x) in *
    end;
    unfold Pro.co2_ledger, Pro.wf, Pro.active_energy;
    rewrite Ec, Ei, Et, Eh, Ek; cbn; rewrite E.
  - repeat split.
    exists c0, c1. repeat split; try tauto.
    destruct (Pro.current_canister s) as [|[|i]]; simpl; lia.
  - assert (M0 : Qmin Pro.cooling_capacity_joules c0 == c0)
      by (apply Q.min_r; tauto).
    assert (M1 : Qmin Pro.cooling_capacity_joules c1 == c1)
      by (apply Q.min_r; tauto).
    repeat split.
    + eexists _, _. repeat split; try reflexivity; try lia;
        rewrite ?M0, ?M1; tauto.
    + intros [|[|[|j]]]; unfold item; cbn; try reflexivity; assumption.
    + unfold py_sum. cbn. rewrite M0, M1. reflexivity.
Qed.

Lemma pro_hiss_deplete_store (hiss : Q) (s : Pro.State) :
  Pro.wf s -> 0 <= hiss ->
  let s' := Pro.hiss_deplete hiss s in
  Pro.current_canister s' = Pro.current_canister s
  /\ Pro.active_energy s' == Qmax 0 (Pro.active_energy s - hiss)
  /\ (forall j, j <> Pro.current_canister s ->
        item (Pro.canisters s') j = item (Pro.canisters s) j)
  /\ Pro.co2_ledger s'
     == Pro.co2_ledger s - Pro.active_energy s
        + Qmax 0 (Pro.active_energy s - hiss)
  /\ Pro.hot_side_temp_c s' = Pro.hot_side_temp_c s
  /\ Pro.temperature_c s' = Pro.temperature_c s.
Proof.
  intros (c0 & c1 & E & Hi & H0 & H1) Hh. unfold Pro.hiss_deplete.
  destruct (0 <? hiss) eqn:P; qprop.
  - unfold Pro.co2_ledger, Pro.active_energy. cbn. rewrite E.
    destruct (Pro.current_canister s) as [|[|i]]; [| | lia];
      unfold item, py_sum; cbn; repeat split; try lra;
      intros [|[|j]] Hj; try reflexivity; congruence.
  - assert (Z0 : hiss == 0) by lra.
    assert (Ha : 0 <= Pro.active_energy s).
    { unfold Pro.active_energy. rewrite E.
      destruct (Pro.current_canister s) as [|[|i]]; [| | lia];
        unfold item; cbn; tauto. }
    assert (M : Qmax 0 (Pro.active_energy s - hiss) == Pro.active_energy s)
      by (rewrite Q.max_r by lra; lra).
    repeat split; rewrite M; lra.
Qed.

(** What the end of the iteration leaves alone. *)
Lemma pro_step_tail (np_sin_pi : Q -> Q) (t : Z) (s : Pro.State) :
  let a := Pro.before_integration (t * Pro.time_step_s) s in
  let s' := fst (Pro.step np_sin_pi t s) in
  Pro.canisters s' = Pro.canisters a
  /\ Pro.current_canister s' = Pro.current_canister a
  /\ Pro.cooling_contribution s' = Pro.cooling_contribution a
  /\ Pro.hot_side_temp_c s' = Pro.hot_side_temp_c a.
Proof.
  unfold Pro.step, Pro.battery_check, Pro.status_block, Pro.integrate.
  cbv zeta. split_ifs; cbn; auto.
Qed.

(** The state just before the hiss usage is applied, from the start of the
    step. *)
Lemma pro_before_hiss_usage_spec (seconds : Z) (s : Pro.State) :
  Pro.wf s ->
  let b := Pro.before_hiss_usage seconds s in
  Pro.wf b
  /\ (Pro.current_canister b <> Pro.current_canister s ->
      Pro.active_energy b
      == item (Pro.canisters s) (Pro.current_canister b))
  /\ Pro.co2_ledger b == Pro.co2_ledger s + Pro.hiss_energy seconds s
  /\ Pro.temperature_c b <= Pro.hot_side_temp_c b.
Proof.
  intro Hwf. unfold Pro.before_hiss_usage.
  destruct (pro_before_purge_spec seconds s)
    as (Ec & Ei & Et & Hh & Hm & Eh & Ep).
  destruct (Pro.before_purge seconds s) as [[s4 fm] tc]. cbn [fst snd] in *.
  assert (Hwf4 : Pro.wf s4) by (unfold Pro.wf; now rewrite Ec, Ei).
  assert (L4 : Pro.co2_ledger s4
               == Pro.co2_ledger s + Pro.hiss_energy seconds s)
    by (unfold Pro.co2_ledger; rewrite Ec, Eh, Ep; lra).
  destruct (pro_purge_block_store seconds fm s4 Hwf4)
    as (Hwf5 & Ei5 & Eo5 & L5 & Eh5 & Et5); [lra |].
  set (s5 := Pro.purge_block seconds fm s4) in *.
  destruct (pro_swap_block_store seconds s5 Hwf5)
    as (Hwf6 & Eo6 & L6 & Eh6 & Et6).
  set (b := Pro.swap_block seconds s5) in *.
  repeat split.
  - exact Hwf6.
  - intro Hne. unfold Pro.active_energy. rewrite Eo6, Eo5, Ec.
    + reflexivity.
    + congruence.
  - rewrite L6, L5, L4. reflexivity.
  - rewrite Eh6, Et6, Eh5. lra.
Qed.

(** ** The same facts for [laptop_sim.py] *)

Lemma laptop_hiss_energy_nonneg (seconds : Z) (s : LaptopSim.State) :
  0 <= LaptopSim.hiss_energy seconds s.
Proof.
  unfold LaptopSim.hiss_energy, LaptopSim.microburst_band.
  split_ifs; cbn; lra.
Qed.

Lemma laptop_hiss_energy_gated (seconds : Z) (s : LaptopSim.State) :
  0 < LaptopSim.hiss_energy seconds s -> 0 < LaptopSim.active_energy s.
Proof.
  unfold LaptopSim.hiss_energy.
  destruct (0 <? LaptopSim.active_energy s) eqn:G;
    [intros _; now apply Qltb_lt |].
  rewrite andb_false_r. lra.
Qed.

Lemma laptop_peltier_block_frame (dt : Z) (s : LaptopSim.State) :
  let s' := fst (LaptopSim.peltier_block dt s) in
  LaptopSim.canisters s' = LaptopSim.canisters s
  /\ LaptopSim.current_canister s' = LaptopSim.current_canister s
  /\ LaptopSim.temperature_c s' = LaptopSim.temperature_c s
  /\ LaptopSim.peltier_active s' = LaptopSim.peltier_active s
  /\ co2_hiss (LaptopSim.cooling_contribution s')
     = co2_hiss (LaptopSim.cooling_contribution s)
  /\ co2_purge (LaptopSim.cooling_contribution s')
     = co2_purge (LaptopSim.cooling_contribution s)
  /\ (LaptopSim.peltier_active s = false ->
      LaptopSim.temperature_c s' <= LaptopSim.hot_side_temp_c s').
Proof.
  unfold LaptopSim.peltier_block.
  destruct (LaptopSim.peltier_active s) eqn:A; cbn; rewrite ?A;
    repeat split; try congruence.
  intros _. apply Q.le_max_l.
Qed.

Lemma laptop_fan_block_frame
    (dt seconds : Z) (post : bool) (s : LaptopSim.State) :
  let s' := fst (LaptopSim.fan_block dt seconds post s) in
  LaptopSim.canisters s' = LaptopSim.canisters s
  /\ LaptopSim.current_canister s' = LaptopSim.current_canister s
  /\ LaptopSim.temperature_c s' = LaptopSim.temperature_c s
  /\ LaptopSim.hot_side_temp_c s' = LaptopSim.hot_side_temp_c s
  /\ LaptopSim.peltier_active s' = LaptopSim.peltier_active s
  /\ LaptopSim.cooling_contribution s' = LaptopSim.cooling_contribution s.
Proof.
  unfold LaptopSim.fan_block.
  destruct (if (LaptopSim.temperature_c s <? 50) && negb post
            then _ else _) as [mode target].
  cbv zeta. split_ifs; cbn; auto 7.
Qed.

Lemma laptop_fan_block_multiplier
    (dt seconds : Z) (post : bool) (s : LaptopSim.State) :
  1 <= snd (LaptopSim.fan_block dt seconds post s).
Proof.
  unfold LaptopSim.fan_block.
  destruct (if (LaptopSim.temperature_c s <? 50) && negb post
            then _ else _) as [mode target].
  cbn. apply laptop_fan_multiplier_ge_1.
Qed.

Lemma laptop_peltier_switch_frame (seconds : Z) (s : LaptopSim.State) :
  let s' := LaptopSim.peltier_switch seconds s in
  LaptopSim.canisters s' = LaptopSim.canisters s
  /\ LaptopSim.current_canister s' = LaptopSim.current_canister s
  /\ LaptopSim.temperature_c s' = LaptopSim.temperature_c s
  /\ LaptopSim.cooling_contribution s' = LaptopSim.cooling_contribution s.
Proof. unfold LaptopSim.peltier_switch. split_ifs; cbn; auto. Qed.

Lemma laptop_before_purge_spec (dt seconds : Z) (s : LaptopSim.State) :
  let s' := fst (fst (LaptopSim.before_purge dt seconds s)) in
  LaptopSim.canisters s' = LaptopSim.canisters s
  /\ LaptopSim.current_canister s' = LaptopSim.current_canister s
  /\ LaptopSim.temperature_c s' = LaptopSim.temperature_c s
  /\ (LaptopSim.peltier_active s' = false ->
      LaptopSim.temperature_c s' <= LaptopSim.hot_side_temp_c s')
  /\ 1 <= snd (fst (LaptopSim.before_purge dt seconds s))
  /\ co2_hiss (LaptopSim.cooling_contribution s')
     = co2_hiss (LaptopSim.cooling_contribution s)
       + LaptopSim.hiss_energy seconds s
  /\ co2_purge (LaptopSim.cooling_contribution s')
     = co2_purge (LaptopSim.cooling_contribution s).
Proof.
  unfold LaptopSim.before_purge. cbv zeta.
  set (s2 := LaptopSim.add_contribution add_co2_hiss _ _).
  destruct (laptop_peltier_switch_frame seconds s2) as (Ec0 & Ei0 & Et0 & Ek0).
  set (sw := LaptopSim.peltier_switch seconds s2) in *.
  destruct (laptop_peltier_block_frame dt sw)
    as (Ec2 & Ei2 & Et2 & Ea2 & Ek2 & Ep2 & Eh2).
  destruct (LaptopSim.peltier_block dt sw) as [s3 pc]. cbn [fst] in *.
  destruct (laptop_fan_block_frame dt seconds
              (LaptopSim.is_post_purge seconds s) s3)
    as (Ec3 & Ei3 & Et3 & Eh3 & Ea3 & Ek3).
  assert (Hm := laptop_fan_block_multiplier dt seconds
                  (LaptopSim.is_post_purge seconds s) s3).
  destruct (LaptopSim.fan_block dt seconds
              (LaptopSim.is_post_purge seconds s) s3) as [s4 fm].
  cbn [fst snd] in *. unfold LaptopSim.cooling_block. cbn.
  rewrite Ec3, Ei3, Et3, Eh3, Ea3, Ek3, Ec2, Ei2, Et2, Ek2, Ep2, Ec0, Ei0,
    Et0, Ek0.
  rewrite Et2, Et0 in Eh2.
  subst s2. cbn in *. repeat split; try assumption.
  rewrite Ea2. exact Eh2.
Qed.

Lemma laptop_purge_block_store
    (seconds : Z) (fm : Q) (s : LaptopSim.State) :
  LaptopSim.wf s -> 0 <= fm ->
  let s' := LaptopSim.purge_block seconds fm s in
  LaptopSim.wf s'
  /\ LaptopSim.current_canister s' = LaptopSim.current_canister s
  /\ (forall j, j <> LaptopSim.current_canister s ->
        item (LaptopSim.canisters s') j = item (LaptopSim.canisters s) j)
  /\ LaptopSim.co2_ledger s' == LaptopSim.co2_ledger s
  /\ LaptopSim.hot_side_temp_c s' = LaptopSim.hot_side_temp_c s
  /\ LaptopSim.temperature_c s' <= LaptopSim.temperature_c s.
Proof.
  intros Hwf Hfm. unfold LaptopSim.purge_block.
  destruct (LaptopSim.purge_condition s);
    [| repeat split; (assumption || reflexivity || lra)].
  destruct (LaptopSim.COOLING_EFFECTIVE_JOULES <=? LaptopSim.active_energy s)
    eqn:He; [| repeat split; (assumption || reflexivity || lra)].
  qprop. destruct Hwf as (c0 & c1 & E & Hi & H0 & H1).
  unfold LaptopSim.co2_ledger, LaptopSim.wf, LaptopSim.active_energy in *.
  cbn. rewrite E in *.
  unfold LaptopSim.COOLDOWN_PER_PURGE_C, LaptopSim.COOLING_EFFECTIVE_JOULES,
    LaptopSim.COOLING_CAPACITY_JOULES, LaptopSim.PURGE_EFFICIENCY,
    LaptopSim.THERMAL_MASS_J_PER_C in *.
  destruct (LaptopSim.current_canister s) as [|[|i]]; [| | lia];
    unfold item in *; cbn in *.
  - repeat split.
    + eexists _, _. repeat split; try reflexivity; try lia; lra.
    + intros [|[|j]] Hj; try reflexivity; congruence.
    + unfold py_sum. cbn. lra.
    + qdiv. nra.
  - repeat split.
    + eexists _, _. repeat split; try reflexivity; try lia; lra.
    + intros [|[|j]] Hj; try reflexivity; congruence.
    + unfold py_sum. cbn. lra.
    + qdiv. nra.
Qed.

Lemma laptop_swap_block_store (seconds : Z) (s : LaptopSim.State) :
  LaptopSim.wf s ->
  let s' := LaptopSim.swap_block seconds s in
  LaptopSim.wf s'
  /\ LaptopSim.canisters s' = LaptopSim.canisters s
  /\ LaptopSim.cooling_contribution s' = LaptopSim.cooling_contribution s
  /\ LaptopSim.hot_side_temp_c s' = LaptopSim.hot_side_temp_c s
  /\ LaptopSim.temperature_c s' = LaptopSim.temperature_c s.
Proof.
  intros (c0 & c1 & E & Hi & H0 & H1). unfold LaptopSim.swap_block.
  destruct (_ && _); cbn; repeat split; exists c0, c1; cbn; auto.
Qed.

Lemma laptop_hiss_deplete_store (hiss : Q) (s : LaptopSim.State) :
  LaptopSim.wf s ->
  let s' := LaptopSim.hiss_deplete hiss s in
  LaptopSim.current_canister s' = LaptopSim.current_canister s
  /\ LaptopSim.active_energy s'
     = Qmax 0 (LaptopSim.active_energy s - hiss)
  /\ (forall j, j <> LaptopSim.current_canister s ->
        item (LaptopSim.canisters s') j = item (LaptopSim.canisters s) j)
  /\ LaptopSim.co2_ledger s'
     == LaptopSim.co2_ledger s - LaptopSim.active_energy s
        + Qmax 0 (LaptopSim.active_energy s - hiss)
  /\ LaptopSim.hot_side_temp_c s' = LaptopSim.hot_side_temp_c s
  /\ LaptopSim.temperature_c s' = LaptopSim.temperature_c s.
Proof.
  intros (c0 & c1 & E & Hi & H0 & H1).
  unfold LaptopSim.hiss_deplete, LaptopSim.co2_ledger,
    LaptopSim.active_energy.
  cbn. rewrite E.
  destruct (LaptopSim.current_canister s) as [|[|i]]; [| | lia];
    unfold item, py_sum; cbn; repeat split; try lra;
    intros [|[|j]] Hj; try reflexivity; congruence.
Qed.

(** What the end of the iteration leaves alone. *)
Lemma laptop_finish_frame
    (dt seconds : Z) (cpu cooling : Q) (a : LaptopSim.State) :
  let s' := LaptopSim.status_block seconds
              (LaptopSim.integrate dt cpu cooling a) in
  LaptopSim.canisters s' = LaptopSim.canisters a
  /\ LaptopSim.current_canister s' = LaptopSim.current_canister a
  /\ LaptopSim.cooling_contribution s' = LaptopSim.cooling_contribution a
  /\ LaptopSim.hot_side_temp_c s' = LaptopSim.hot_side_temp_c a
  /\ length (LaptopSim.temperature_log s')
     = S (length (LaptopSim.temperature_log a)).
Proof.
  unfold LaptopSim.status_block, LaptopSim.integrate. cbv zeta.
  split_ifs; cbn; rewrite length_app; cbn; repeat split; lia.
Qed.

Lemma laptop_step_tail
    (np_sin_pi : Q -> Q) (dt t : Z) (s : LaptopSim.State) :
  let a := LaptopSim.before_integration dt (t * dt) s in
  let s' := LaptopSim.step np_sin_pi dt t s in
  LaptopSim.canisters s' = LaptopSim.canisters a
  /\ LaptopSim.current_canister s' = LaptopSim.current_canister a
  /\ LaptopSim.cooling_contribution s' = LaptopSim.cooling_contribution a
  /\ LaptopSim.hot_side_temp_c s' = LaptopSim.hot_side_temp_c a.
Proof.
  destruct (laptop_finish_frame dt (t * dt)
              (LaptopSim.get_cpu_workload np_sin_pi (t * dt))
              (snd (LaptopSim.before_purge dt (t * dt) s))
              (LaptopSim.before_integration dt (t * dt) s))
    as (Ec & Ei & Ek & Eh & _).
  repeat split; assumption.
Qed.

Lemma laptop_before_hiss_usage_spec (dt seconds : Z) (s : LaptopSim.State) :
  LaptopSim.wf s ->
  let b := LaptopSim.before_hiss_usage dt seconds s in
  LaptopSim.wf b
  /\ (LaptopSim.current_canister b <> LaptopSim.current_canister s ->
      LaptopSim.active_energy b
      = item (LaptopSim.canisters s) (LaptopSim.current_canister b))
  /\ LaptopSim.co2_ledger b
     == LaptopSim.co2_ledger s + LaptopSim.hiss_energy seconds s
  /\ (LaptopSim.peltier_active
        (fst (fst (LaptopSim.before_purge dt seconds s))) = false ->
      LaptopSim.temperature_c b <= LaptopSim.hot_side_temp_c b).
Proof.
  intro Hwf. unfold LaptopSim.before_hiss_usage.
  destruct (laptop_before_purge_spec dt seconds s)
    as (Ec & Ei & Et & Hh & Hm & Eh & Ep).
  destruct (LaptopSim.before_purge dt seconds s) as [[s5 fm] tc].
  cbn [fst snd] in *.
  assert (Hwf5 : LaptopSim.wf s5) by (unfold LaptopSim.wf; now rewrite Ec, Ei).
  assert (L5 : LaptopSim.co2_ledger s5
               == LaptopSim.co2_ledger s + LaptopSim.hiss_energy seconds s)
    by (unfold LaptopSim.co2_ledger; rewrite Ec, Eh, Ep; lra).
  destruct (laptop_purge_block_store seconds fm s5 Hwf5)
    as (Hwf6 & Ei6 & Eo6 & L6 & Eh6 & Et6); [lra |].
  set (s6 := LaptopSim.purge_block seconds fm s5) in *.
  destruct (laptop_swap_block_store seconds s6 Hwf6)
    as (Hwf7 & Ec7 & Ek7 & Eh7 & Et7).
  set (b := LaptopSim.swap_block seconds s6) in *.
  repeat split.
  - exact Hwf7.
  - intro Hne. unfold LaptopSim.active_energy. rewrite Ec7, Eo6, Ec.
    + reflexivity.
    + congruence.
  - unfold LaptopSim.co2_ledger in *. rewrite Ec7, Ek7, L6, L5. reflexivity.
  - intro Ha. rewrite Eh7, Et7, Eh6. specialize (Hh Ha). lra.
Qed.

(** ** Hiss usage after a swap *)

Lemma pro_low_active_wf : Pro.wf pro_low_active.
Proof.
  exists 40, 2900. unfold Pro.cooling_capacity_joules.
  repeat split; simpl; (lia || lra).
Qed.

(** Hiss usage charged to a canister other than the one that was active at
    the start of the step. *)
Lemma pro_hiss_charged (h : Q) (s b s' : Pro.State) :
  Pro.wf b -> 0 <= h ->
  Pro.canisters s' = Pro.canisters (Pro.hiss_deplete h b) ->
  Pro.current_canister s' = Pro.current_canister (Pro.hiss_deplete h b) ->
  Pro.active_energy b == item (Pro.canisters s) (Pro.current_canister b) ->
  Pro.current_canister b <> Pro.current_canister s ->
  Pro.current_canister s' = Pro.current_canister b
  /\ Pro.active_energy s'
     == Qmax 0 (item (Pro.canisters s) (Pro.current_canister b) - h)
  /\ item (Pro.canisters s') (Pro.current_canister s)
     = item (Pro.canisters b) (Pro.current_canister s).
Proof.
  intros Hwfb Hn Ec Ej Eb Hne.
  destruct (pro_hiss_deplete_store h b Hwfb Hn) as (Ei & Ea & Eo & _).
  unfold Pro.active_energy in *.
  split; [congruence |]. split.
  - rewrite Ec, Ej, Ei. rewrite Ei in Ea. rewrite Ea, Eb. reflexivity.
  - rewrite Ec. apply Eo. congruence.
Qed.

Lemma pro_hiss_after_swap (np_sin_pi : Q -> Q) (t : Z) (s : Pro.State) :
  Pro.wf s ->
  0 < Pro.hiss_energy (t * Pro.time_step_s) s ->
  Pro.current_canister (Pro.before_hiss_usage (t * Pro.time_step_s) s)
    <> Pro.current_canister s ->
  0 < Pro.active_energy s
  /\ Pro.current_canister (fst (Pro.step np_sin_pi t s))
     = Pro.current_canister (Pro.before_hiss_usage (t * Pro.time_step_s) s)
  /\ Pro.active_energy (fst (Pro.step np_sin_pi t s))
     == Qmax 0 (item (Pro.canisters s)
                  (Pro.current_canister
                     (Pro.before_hiss_usage (t * Pro.time_step_s) s))
                - Pro.hiss_energy (t * Pro.time_step_s) s)
  /\ item (Pro.canisters (fst (Pro.step np_sin_pi t s)))
       (Pro.current_canister s)
     = item (Pro.canisters (Pro.before_hiss_usage (t * Pro.time_step_s) s))
         (Pro.current_canister s).
Proof.
  intros Hwf Hh Hne.
  destruct (pro_before_hiss_usage_spec (t * Pro.time_step_s) s Hwf)
    as (Hwfb & Eb & _).
  destruct (pro_step_tail np_sin_pi t s) as (Ec & Ej & _).
  split; [exact (pro_hiss_energy_gated (t * Pro.time_step_s) s Hh) |].
  exact (pro_hiss_charged _ s _ _ Hwfb
           (pro_hiss_energy_nonneg (t * Pro.time_step_s) s)
           Ec Ej (Eb Hne) Hne).
Qed.

Lemma laptop_hiss_charged (h : Q) (s b s' : LaptopSim.State) :
  LaptopSim.wf b ->
  LaptopSim.canisters s' = LaptopSim.canisters (LaptopSim.hiss_deplete h b) ->
  LaptopSim.current_canister s'
    = LaptopSim.current_canister (LaptopSim.hiss_deplete h b) ->
  LaptopSim.active_energy b
    = item (LaptopSim.canisters s) (LaptopSim.current_canister b) ->
  LaptopSim.current_canister b <> LaptopSim.current_canister s ->
  LaptopSim.current_canister s' = LaptopSim.current_canister b
  /\ LaptopSim.active_energy s'
     == Qmax 0 (item (LaptopSim.canisters s) (LaptopSim.current_canister b) - h)
  /\ item (LaptopSim.canisters s') (LaptopSim.current_canister s)
     = item (LaptopSim.canisters b) (LaptopSim.current_canister s).
Proof.
  intros Hwfb Ec Ej Eb Hne.
  destruct (laptop_hiss_deplete_store h b Hwfb) as (Ei & Ea & Eo & _).
  unfold LaptopSim.active_energy in *.
  split; [congruence |]. split.
  - rewrite Ec, Ej, Ei. rewrite Ei in Ea. rewrite Ea, Eb. reflexivity.
  - rewrite Ec. apply Eo. congruence.
Qed.

Lemma laptop_hiss_after_swap
    (np_sin_pi : Q -> Q) (dt t : Z) (s : LaptopSim.State) :
  LaptopSim.wf s ->
  0 < LaptopSim.hiss_energy (t * dt) s ->
  LaptopSim.current_canister (LaptopSim.before_hiss_usage dt (t * dt) s)
    <> LaptopSim.current_canister s ->
  0 < LaptopSim.active_energy s
  /\ LaptopSim.current_canister (LaptopSim.step np_sin_pi dt t s)
     = LaptopSim.current_canister (LaptopSim.before_hiss_usage dt (t * dt) s)
  /\ LaptopSim.active_energy (LaptopSim.step np_sin_pi dt t s)
     == Qmax 0 (item (LaptopSim.canisters s)
                  (LaptopSim.current_canister
                     (LaptopSim.before_hiss_usage dt (t * dt) s))
                - LaptopSim.hiss_energy (t * dt) s)
  /\ item (LaptopSim.canisters (LaptopSim.step np_sin_pi dt t s))
       (LaptopSim.current_canister s)
     = item (LaptopSim.canisters (LaptopSim.before_hiss_usage dt (t * dt) s))
         (LaptopSim.current_canister s).
Proof.
  intros Hwf Hh Hne.
  destruct (laptop_before_hiss_usage_spec dt (t * dt) s Hwf)
    as (Hwfb & Eb & _).
  destruct (laptop_step_tail np_sin_pi dt t s) as (Ec & Ej & _).
  split; [exact (laptop_hiss_energy_gated (t * dt) s Hh) |].
  exact (laptop_hiss_charged _ s _ _ Hwfb Ec Ej (Eb Hne) Hne).
Qed.

(** C10: in a step where a hiss burst fires and the swap/refill block
    changes the active index, the burst was gated on the canister active at
    the start of the step, the step ends on the new index, the newly active
    canister ends at [max(0, energy - hiss)] and the hiss usage leaves the
    gating canister as the purge and swap blocks left it.  Both for the
    year-long script and for [laptop_sim.py]. *)
Theorem C10_hiss_charged_to_newly_active_canister :
  (forall np_sin_pi t s,
     Pro.wf s ->
     let seconds := (t * Pro.time_step_s)%Z in
     let b := Pro.before_hiss_usage seconds s in
     let s' := fst (Pro.step np_sin_pi t s) in
     0 < Pro.hiss_energy seconds s ->
     Pro.current_canister b <> Pro.current_canister s ->
     0 < Pro.active_energy s
     /\ Pro.current_canister s' = Pro.current_canister b
     /\ Pro.active_energy s'
        == Qmax 0 (item (Pro.canisters s) (Pro.current_canister b)
                   - Pro.hiss_energy seconds s)
     /\ item (Pro.canisters s') (Pro.current_canister s)
        = item (Pro.canisters b) (Pro.current_canister s))
  /\ (forall np_sin_pi time_step_s t s,
        LaptopSim.wf s ->
        let seconds := (t * time_step_s)%Z in
        let b := LaptopSim.before_hiss_usage time_step_s seconds s in
        let s' := LaptopSim.step np_sin_pi time_step_s t s in
        0 < LaptopSim.hiss_energy seconds s ->
        LaptopSim.current_canister b <> LaptopSim.current_canister s ->
        0 < LaptopSim.active_energy s
        /\ LaptopSim.current_canister s' = LaptopSim.current_canister b
        /\ LaptopSim.active_energy s'
           == Qmax 0 (item (LaptopSim.canisters s) (LaptopSim.current_canister b)
                      - LaptopSim.hiss_energy seconds s)
        /\ item (LaptopSim.canisters s') (LaptopSim.current_canister s)
           = item (LaptopSim.canisters b) (LaptopSim.current_canister s)).
Proof.
  split.
  - intros np_sin_pi t s Hwf seconds b s' Hh Hne.
    exact (pro_hiss_after_swap np_sin_pi t s Hwf Hh Hne).
  - intros np_sin_pi dt t s Hwf seconds b s' Hh Hne.
    exact (laptop_hiss_after_swap np_sin_pi dt t s Hwf Hh Hne).
Qed.

(** First step of the year-long script with 40 J in canister 0: the burst
    fires on canister 0, the block swaps to canister 1, and the 0.9 J are
    taken from canister 1. *)
Lemma C10_hiss_after_swap_witness :
  let s' := fst (Pro.step zero_wave 0 pro_low_active) in
  0 < Pro.active_energy pro_low_active
  /\ Pro.current_canister s'
     = Pro.current_canister (Pro.before_hiss_usage 0 pro_low_active)
  /\ Pro.active_energy s'
     == Qmax 0 (item (Pro.canisters pro_low_active)
                  (Pro.current_canister
                     (Pro.before_hiss_usage 0 pro_low_active))
                - Pro.hiss_energy 0 pro_low_active)
  /\ item (Pro.canisters s') (Pro.current_canister pro_low_active)
     = item (Pro.canisters (Pro.before_hiss_usage 0 pro_low_active))
         (Pro.current_canister pro_low_active).
Proof.
  apply (proj1 C10_hiss_charged_to_newly_active_canister zero_wave 0%Z
           pro_low_active pro_low_active_wf).
  - vm_compute. reflexivity.
  - vm_compute. discriminate.
Defined.

(** The figures of that step. *)
Lemma pro_low_active_step :
  let s' := fst (Pro.step zero_wave 0 pro_low_active) in
  Pro.hiss_energy 0 pro_low_active == 0.9
  /\ Pro.current_canister s' = 1%nat
  /\ item (Pro.canisters s') 0 == 40
  /\ item (Pro.canisters s') 1 == 2899.1.
Proof. vm_compute. repeat split. Qed.

(** ** CO2 accounting *)

Lemma clamp_surplus (e h : Q) : Qmax 0 (e - h) - (e - h) == Qmax 0 (h - e).
Proof.
  destruct (Q.max_spec 0 (e - h)) as [[H E] | [H E]];
    destruct (Q.max_spec 0 (h - e)) as [[H' E'] | [H' E']];
    rewrite E, E'; lra.
Qed.

Lemma pro_ledger_step (np_sin_pi : Q -> Q) (t : Z) (s : Pro.State) :
  Pro.wf s ->
  let seconds := (t * Pro.time_step_s)%Z in
  Pro.co2_ledger (fst (Pro.step np_sin_pi t s))
  == Pro.co2_ledger s
     + Qmax 0 (Pro.hiss_energy seconds s
               - Pro.active_energy (Pro.before_hiss_usage seconds s)).
Proof.
  intros Hwf seconds.
  destruct (pro_before_hiss_usage_spec seconds s Hwf) as (Hwfb & _ & Lb & _).
  set (b := Pro.before_hiss_usage seconds s) in *.
  destruct (pro_hiss_deplete_store (Pro.hiss_energy seconds s) b Hwfb)
    as (_ & _ & _ & La & _); [apply pro_hiss_energy_nonneg |].
  destruct (pro_step_tail np_sin_pi t s) as (Ec & _ & Ek & _).
  fold seconds in Ec, Ek. unfold Pro.before_integration in Ec, Ek.
  fold b in Ec, Ek.
  unfold Pro.co2_ledger at 1. rewrite Ec, Ek.
  fold (Pro.co2_ledger (Pro.hiss_deplete (Pro.hiss_energy seconds s) b)).
  rewrite La, Lb, <- clamp_surplus. lra.
Qed.

Lemma laptop_ledger_step
    (np_sin_pi : Q -> Q) (dt t : Z) (s : LaptopSim.State) :
  LaptopSim.wf s ->
  let seconds := (t * dt)%Z in
  LaptopSim.co2_ledger (LaptopSim.step np_sin_pi dt t s)
  == LaptopSim.co2_ledger s
     + Qmax 0 (LaptopSim.hiss_energy seconds s
               - LaptopSim.active_energy
                   (LaptopSim.before_hiss_usage dt seconds s)).
Proof.
  intros Hwf seconds.
  destruct (laptop_before_hiss_usage_spec dt seconds s Hwf)
    as (Hwfb & _ & Lb & _).
  set (b := LaptopSim.before_hiss_usage dt seconds s) in *.
  destruct (laptop_hiss_deplete_store (LaptopSim.hiss_energy seconds s)
              b Hwfb) as (_ & _ & _ & La & _).
  destruct (laptop_step_tail np_sin_pi dt t s) as (Ec & _ & Ek & _).
  fold seconds in Ec, Ek. unfold LaptopSim.before_integration in Ec, Ek.
  fold b in Ec, Ek.
  unfold LaptopSim.co2_ledger at 1. rewrite Ec, Ek.
  fold (LaptopSim.co2_ledger
          (LaptopSim.hiss_deplete (LaptopSim.hiss_energy seconds s) b)).
  rewrite La, Lb, <- clamp_surplus. lra.
Qed.

(** The canister store over a step and over a run of the loop. *)

Lemma pro_hiss_deplete_wf (hiss : Q) (s : Pro.State) :
  Pro.wf s -> 0 <= hiss ->
  Pro.wf (Pro.hiss_deplete hiss s)
  /\ forall j, item (Pro.canisters (Pro.hiss_deplete hiss s)) j
               <= item (Pro.canisters s) j.
Proof.
  intros (c0 & c1 & E & Hi & H0 & H1) Hh. unfold Pro.hiss_deplete.
  destruct (0 <? hiss); [| split; [exists c0, c1; auto | intro j; lra]].
  unfold Pro.wf, Pro.active_energy. cbn. rewrite E.
  destruct (Pro.current_canister s) as [|[|i]]; [| | lia];
    unfold item; cbn.
  - assert (M := decay_bounds 0).
    destruct (Q.max_spec 0 (c0 - hiss)) as [[L M'] | [L M']].
    + split; [eexists _, _; repeat split; try reflexivity; try lia; lra |].
      intros [|[|[|j]]]; cbn; lra.
    + split; [eexists _, _; repeat split; try reflexivity; try lia; lra |].
      intros [|[|[|j]]]; cbn; lra.
  - destruct (Q.max_spec 0 (c1 - hiss)) as [[L M'] | [L M']].
    + split; [eexists _, _; repeat split; try reflexivity; try lia; lra |].
      intros [|[|[|j]]]; cbn; lra.
    + split; [eexists _, _; repeat split; try reflexivity; try lia; lra |].
      intros [|[|[|j]]]; cbn; lra.
Qed.

Lemma pro_purge_block_energy (seconds : Z) (fm : Q) (s : Pro.State) :
  Pro.wf s ->
  forall j, item (Pro.canisters (Pro.purge_block seconds fm s)) j
            <= item (Pro.canisters s) j.
Proof.
  intros (c0 & c1 & E & Hi & H0 & H1) j. unfold Pro.purge_block.
  destruct (Pro.needs_purge s || Pro.maybe_purge s); [| lra].
  destruct (Pro.cooling_effective_joules <=? Pro.active_energy s); [| lra].
  unfold Pro.active_energy. cbn. rewrite E.
  unfold Pro.cooling_effective_joules, Pro.cooling_capacity_joules,
    Pro.purge_efficiency.
  destruct (Pro.current_canister s) as [|[|i]]; [| | lia];
    destruct j as [|[|[|j]]]; unfold item; cbn; lra.
Qed.

Lemma pro_step_store (np_sin_pi : Q -> Q) (t : Z) (s : Pro.State) :
  Pro.wf s ->
  Pro.wf (fst (Pro.step np_sin_pi t s))
  /\ forall j, item (Pro.canisters (fst (Pro.step np_sin_pi t s))) j
               <= item (Pro.canisters s) j.
Proof.
  intro Hwf.
  destruct (pro_step_tail np_sin_pi t s) as (Ec & Ei & _).
  unfold Pro.before_integration, Pro.before_hiss_usage in Ec, Ei.
  destruct (pro_before_purge_spec (t * Pro.time_step_s) s)
    as (Ec4 & Ei4 & _ & _ & Hm & _).
  destruct (Pro.before_purge (t * Pro.time_step_s) s) as [[s4 fm] tc].
  cbn [fst snd] in *.
  assert (Hwf4 : Pro.wf s4) by (unfold Pro.wf; now rewrite Ec4, Ei4).
  assert (P := pro_purge_block_energy (t * Pro.time_step_s) fm s4 Hwf4).
  destruct (pro_purge_block_store (t * Pro.time_step_s) fm s4 Hwf4)
    as (Hwf5 & _); [lra |].
  set (s5 := Pro.purge_block (t * Pro.time_step_s) fm s4) in *.
  destruct (pro_swap_block_store (t * Pro.time_step_s) s5 Hwf5)
    as (Hwf6 & Eo6 & _).
  set (b := Pro.swap_block (t * Pro.time_step_s) s5) in *.
  destruct (pro_hiss_deplete_wf (Pro.hiss_energy (t * Pro.time_step_s) s)
              b Hwf6 (pro_hiss_energy_nonneg _ s)) as (Hwf7 & D7).
  set (a := Pro.hiss_deplete (Pro.hiss_energy (t * Pro.time_step_s) s) b)
    in *.
  set (s' := fst (Pro.step np_sin_pi t s)) in *.
  clearbody s' a b s5. split.
  - unfold Pro.wf in *. now rewrite Ec, Ei.
  - intro j. rewrite Ec. specialize (D7 j). specialize (Eo6 j).
    specialize (P j). rewrite Ec4 in P. lra.
Qed.

Lemma pro_loop_store (np_sin_pi : Q -> Q) (n : nat) :
  forall t s,
    Pro.wf s ->
    Pro.wf (Pro.loop np_sin_pi n t s)
    /\ forall j, item (Pro.canisters (Pro.loop np_sin_pi n t s)) j
                 <= item (Pro.canisters s) j.
Proof.
  induction n as [|n IH]; intros t s Hwf; cbn [Pro.loop].
  - split; [exact Hwf | intro j; lra].
  - destruct (pro_step_store np_sin_pi t s Hwf) as [Hwf1 D1].
    destruct (Pro.step np_sin_pi t s) as [s1 stop]. cbn [fst] in *.
    destruct stop; [split; assumption |].
    destruct (IH (t + 1)%Z s1 Hwf1) as [Hwf2 D2].
    split; [exact Hwf2 |]. intro j. specialize (D1 j). specialize (D2 j).
    lra.
Qed.

Lemma pro_hiss_energy_range (seconds : Z) (s : Pro.State) :
  0 <= Pro.hiss_energy seconds s <= 3.
Proof.
  unfold Pro.hiss_energy, Pro.microburst_band. split_ifs; cbn; split; lra.
Qed.

(** [refill_due] is the condition of the refill branch: when it holds the
    swap block runs that branch, which logs a refill, and when it does not
    the block leaves at least 50 J in the active canister. *)
Lemma pro_refill_due_branch (seconds : Z) (s : Pro.State) :
  Pro.refill_due s = true ->
  Pro.swap_block seconds s
  = let s1 := Pro.set_canisters
                (map (fun c => Qmin Pro.cooling_capacity_joules c)
                   (Pro.canisters s)) s in
    let s2 := Pro.set_current_canister 0%nat s1 in
    let s3 := Pro.set_canister_swaps (Pro.canister_swaps s2 + 1)%Z s2 in
    Pro.weekly_log seconds
      (RefillLog seconds (Pro.temperature_c s3) (Pro.battery_percent s3)) s3.
Proof.
  unfold Pro.refill_due, Pro.swap_block. intro H.
  apply andb_true_iff in H. destruct H as [A B].
  apply negb_true_iff in B. rewrite A, B. reflexivity.
Qed.

Lemma pro_no_refill_active (seconds : Z) (s : Pro.State) :
  Pro.refill_due s = false ->
  50 <= Pro.active_energy (Pro.swap_block seconds s).
Proof.
  unfold Pro.refill_due, Pro.swap_block. intro H.
  destruct (Pro.active_energy s <? 50) eqn:A; [| now apply Qltb_ge].
  destruct (50 <? item (Pro.canisters s) (1 - Pro.current_canister s)) eqn:B;
    [| discriminate].
  cbv zeta.
  match goal with
  | |- context [Pro.weekly_log ?t ?e ?x] =>
      destruct (pro_weekly_log_canisters t e x) as (Ec & Ei & _);
      set (w := Pro.weekly_log t e x) in *
  end.
  unfold Pro.active_energy. rewrite Ec, Ei. cbn -[Nat.sub item].
  apply Qltb_lt in B. lra.
Qed.

Lemma pro_ledger_step_no_refill
    (np_sin_pi : Q -> Q) (t : Z) (s : Pro.State) :
  Pro.wf s ->
  Pro.refill_runs (t * Pro.time_step_s) s = false ->
  Pro.co2_ledger (fst (Pro.step np_sin_pi t s)) == Pro.co2_ledger s.
Proof.
  intros Hwf Hr.
  assert (L := pro_ledger_step np_sin_pi t s Hwf). cbv zeta in L.
  destruct (pro_hiss_energy_range (t * Pro.time_step_s) s) as [_ H3].
  assert (E : 50 <= Pro.active_energy
                      (Pro.before_hiss_usage (t * Pro.time_step_s) s)).
  { unfold Pro.refill_runs in Hr. unfold Pro.before_hiss_usage.
    destruct (Pro.before_purge (t * Pro.time_step_s) s) as [[s4 fm] tc].
    now apply pro_no_refill_active. }
  rewrite L, Q.max_l by lra. lra.
Qed.

Lemma pro_ledger_loop_no_refill (np_sin_pi : Q -> Q) (n : nat) :
  forall t s,
    Pro.wf s -> pro_no_refill np_sin_pi n t s ->
    Pro.co2_ledger (Pro.loop np_sin_pi n t s) == Pro.co2_ledger s.
Proof.
  induction n as [|n IH]; intros t s Hwf H; cbn [Pro.loop]; [reflexivity |].
  destruct H as [H0 Hrest].
  assert (L := pro_ledger_step_no_refill np_sin_pi t s Hwf H0).
  destruct (pro_step_store np_sin_pi t s Hwf) as [W _].
  destruct (Pro.step np_sin_pi t s) as [s1 stop]. cbn [fst] in *.
  destruct stop; [exact L |].
  rewrite (IH (t + 1)%Z s1 W Hrest). exact L.
Qed.

(** C3 fails as stated.  [laptop_sim.py] never refills; with 0.3 J left in
    the active canister a 0.9 J burst is booked in full while the clamp at
    zero removes only 0.3 J, so canisters plus spent energy go from the
    initial 5800 J to 5800.6 J. *)
Lemma C3_counterexample_clamped_burst :
  LaptopSim.co2_ledger laptop_nearly_empty == 5800
  /\ LaptopSim.canister_swaps
       (LaptopSim.step zero_wave 5 1600 laptop_nearly_empty)
     = LaptopSim.canister_swaps laptop_nearly_empty
  /\ LaptopSim.co2_ledger
       (LaptopSim.step zero_wave 5 1600 laptop_nearly_empty) == 5800.6
  /\ LaptopSim.canisters
       (LaptopSim.step zero_wave 5 1600 laptop_nearly_empty) = [40; 0].
Proof. vm_compute. repeat split. Qed.

(** C3, amended.  In the year-long script every iteration that does not
    run the refill branch of the swap block leaves the sum of the canister
    energies plus the CO2 energy booked on hiss bursts and purges
    unchanged, and so does every run of the loop none of whose iterations
    runs it.  In [laptop_sim.py], which never refills, every step makes
    that sum grow by exactly [max(0, hiss - e)], where [e] is the energy
    of the canister the burst is charged to: it never decreases, it is
    unchanged whenever the burst does not exceed [e], and it grows when
    the clamp at zero cuts the deduction short. *)
Theorem C3_ledger_grows_by_clamped_part :
  (forall np_sin_pi t s,
     Pro.wf s ->
     Pro.refill_runs (t * Pro.time_step_s) s = false ->
     Pro.co2_ledger (fst (Pro.step np_sin_pi t s)) == Pro.co2_ledger s)
  /\ (forall np_sin_pi n t s,
        Pro.wf s ->
        pro_no_refill np_sin_pi n t s ->
        Pro.co2_ledger (Pro.loop np_sin_pi n t s) == Pro.co2_ledger s)
  /\ (forall np_sin_pi time_step_s t s,
        LaptopSim.wf s ->
        let seconds := (t * time_step_s)%Z in
        let e := LaptopSim.active_energy
                   (LaptopSim.before_hiss_usage time_step_s seconds s) in
        let s' := LaptopSim.step np_sin_pi time_step_s t s in
        LaptopSim.co2_ledger s'
          == LaptopSim.co2_ledger s
             + Qmax 0 (LaptopSim.hiss_energy seconds s - e)
        /\ LaptopSim.co2_ledger s <= LaptopSim.co2_ledger s'
        /\ (LaptopSim.hiss_energy seconds s <= e ->
            LaptopSim.co2_ledger s' == LaptopSim.co2_ledger s)).
Proof.
  split; [exact pro_ledger_step_no_refill |].
  split; [exact pro_ledger_loop_no_refill |].
  intros np_sin_pi dt t s Hwf. cbv zeta.
  assert (L := laptop_ledger_step np_sin_pi dt t s Hwf). cbv zeta in L.
  match type of L with
  | _ == _ + Qmax 0 ?d => assert (P := Q.le_max_l 0 d)
  end.
  repeat split; [exact L | lra |].
  intro H. rewrite L, Q.max_l by lra. lra.
Qed.

Lemma laptop_init_wf : LaptopSim.wf LaptopSim.init.
Proof.
  exists LaptopSim.COOLING_CAPACITY_JOULES, LaptopSim.COOLING_CAPACITY_JOULES.
  repeat split; unfold LaptopSim.COOLING_CAPACITY_JOULES; simpl; (lia || lra).
Qed.

(** The first step of either script: a 0.9 J burst out of a full canister
    leaves the sum at the initial 5800 J. *)
Lemma C3_ledger_witness :
  Pro.co2_ledger (fst (Pro.step zero_wave 0 Pro.init))
    == Pro.co2_ledger Pro.init
  /\ LaptopSim.co2_ledger (LaptopSim.step zero_wave 5 0 LaptopSim.init)
     == LaptopSim.co2_ledger LaptopSim.init.
Proof.
  split.
  - apply (proj1 C3_ledger_grows_by_clamped_part zero_wave 0%Z Pro.init).
    + exact pro_init_wf.
    + vm_compute. reflexivity.
  - apply (proj2 (proj2 (proj2 (proj2 C3_ledger_grows_by_clamped_part)
                           zero_wave 5%Z 0%Z LaptopSim.init laptop_init_wf))).
    vm_compute. discriminate.
Defined.

(** ** Hot side and device temperature *)

Lemma pro_purge_block_thermal (seconds : Z) (fm : Q) (s : Pro.State) :
  0 <= fm ->
  let s' := Pro.purge_block seconds fm s in
  Pro.hot_side_temp_c s' = Pro.hot_side_temp_c s
  /\ Pro.temperature_c s' <= Pro.temperature_c s.
Proof.
  intro Hfm. unfold Pro.purge_block. split_ifs; cbn; split;
    try reflexivity; try lra.
  unfold Pro.cooldown_per_purge_c, Pro.cooling_effective_joules,
    Pro.cooling_capacity_joules, Pro.purge_efficiency,
    Pro.thermal_mass_j_per_c.
  qdiv. nra.
Qed.

Lemma pro_swap_block_thermal (seconds : Z) (s : Pro.State) :
  let s' := Pro.swap_block seconds s in
  Pro.hot_side_temp_c s' = Pro.hot_side_temp_c s
  /\ Pro.temperature_c s' = Pro.temperature_c s.
Proof.
  unfold Pro.swap_block. cbv zeta.
  destruct (Pro.active_energy s <? 50); [| auto].
  destruct (50 <? item (Pro.canisters s) (1 - Pro.current_canister s));
    match goal with
    | |- context [Pro.weekly_log ?t ?e ?x] =>
        destruct (pro_weekly_log_canisters t e x)
          as (_ & _ & _ & Et & Eh & _);
        set (w := Pro.weekly_log t e x) in *
    end;
    rewrite Et, Eh; cbn; auto.
Qed.

Lemma pro_hiss_deplete_thermal (hiss : Q) (s : Pro.State) :
  let s' := Pro.hiss_deplete hiss s in
  Pro.hot_side_temp_c s' = Pro.hot_side_temp_c s
  /\ Pro.temperature_c s' = Pro.temperature_c s.
Proof. unfold Pro.hiss_deplete. split_ifs; cbn; auto. Qed.

Lemma pro_hot_side_floor_before_integration (seconds : Z) (s : Pro.State) :
  let a := Pro.before_integration seconds s in
  Pro.temperature_c a <= Pro.hot_side_temp_c a.
Proof.
  unfold Pro.before_integration, Pro.before_hiss_usage.
  destruct (pro_before_purge_spec seconds s) as (_ & _ & _ & Hh & Hm & _).
  destruct (Pro.before_purge seconds s) as [[s4 fm] tc]. cbn [fst snd] in *.
  destruct (pro_purge_block_thermal seconds fm s4) as (Eh5 & Et5); [lra |].
  set (s5 := Pro.purge_block seconds fm s4) in *.
  destruct (pro_swap_block_thermal seconds s5) as (Eh6 & Et6).
  set (b := Pro.swap_block seconds s5) in *.
  destruct (pro_hiss_deplete_thermal (Pro.hiss_energy seconds s) b)
    as (Eh7 & Et7).
  cbv zeta. rewrite Eh7, Et7, Eh6, Et6, Eh5. lra.
Qed.

Lemma laptop_hot_side_floor_before_integration
    (dt seconds : Z) (s : LaptopSim.State) :
  LaptopSim.peltier_active (fst (fst (LaptopSim.before_purge dt seconds s)))
    = false ->
  let a := LaptopSim.before_integration dt seconds s in
  LaptopSim.temperature_c a <= LaptopSim.hot_side_temp_c a.
Proof.
  intro Hoff. unfold LaptopSim.before_integration, LaptopSim.before_hiss_usage.
  destruct (laptop_before_purge_spec dt seconds s)
    as (_ & _ & _ & Hh & Hm & _).
  destruct (LaptopSim.before_purge dt seconds s) as [[s5 fm] tc].
  cbn [fst snd] in *. specialize (Hh Hoff).
  assert (P : LaptopSim.hot_side_temp_c
                (LaptopSim.purge_block seconds fm s5)
              = LaptopSim.hot_side_temp_c s5
              /\ LaptopSim.temperature_c
                   (LaptopSim.purge_block seconds fm s5)
                 <= LaptopSim.temperature_c s5).
  { unfold LaptopSim.purge_block. split_ifs; cbn; split;
      try reflexivity; try lra.
    unfold LaptopSim.COOLDOWN_PER_PURGE_C, LaptopSim.COOLING_EFFECTIVE_JOULES,
      LaptopSim.COOLING_CAPACITY_JOULES, LaptopSim.PURGE_EFFICIENCY,
      LaptopSim.THERMAL_MASS_J_PER_C.
    qdiv. nra. }
  destruct P as (Eh6 & Et6).
  set (s6 := LaptopSim.purge_block seconds fm s5) in *.
  assert (W : LaptopSim.hot_side_temp_c (LaptopSim.swap_block seconds s6)
              = LaptopSim.hot_side_temp_c s6
              /\ LaptopSim.temperature_c (LaptopSim.swap_block seconds s6)
                 = LaptopSim.temperature_c s6)
    by (unfold LaptopSim.swap_block; split_ifs; cbn; auto).
  destruct W as (Eh7 & Et7). cbn. rewrite Eh7, Et7, Eh6. lra.
Qed.

(** C2 fails as stated: the first step of the year-long script, from its
    initial state (workload sine term [np.sin(0)] = 0), leaves the hot side
    at 25 C and raises the device to 302809/12000 C (about 25.23). *)
Lemma C2_counterexample_first_step :
  let s' := fst (Pro.step zero_wave 0 Pro.init) in
  Pro.hot_side_temp_c s' == 25
  /\ Pro.temperature_c s' == 302809 # 12000
  /\ Pro.hot_side_temp_c s' < Pro.temperature_c s'.
Proof. vm_compute. repeat split. Qed.

(** C2, amended.  In every step of the year-long script, once the hot side
    has been updated and up to the net temperature update that ends the
    step (so also right after a purge, which only lowers the temperature),
    [hot_side_temp_c >= temperature_c]; in [laptop_sim.py] the same holds
    in every step in which the Peltier is off.  Nothing is claimed after
    the net temperature update. *)
Theorem C2_hot_side_floor_until_integration :
  (forall seconds s,
     let a := Pro.before_integration seconds s in
     Pro.temperature_c a <= Pro.hot_side_temp_c a)
  /\ (forall time_step_s seconds s,
        LaptopSim.peltier_active
          (fst (fst (LaptopSim.before_purge time_step_s seconds s))) = false ->
        let a := LaptopSim.before_integration time_step_s seconds s in
        LaptopSim.temperature_c a <= LaptopSim.hot_side_temp_c a).
Proof.
  split.
  - exact pro_hot_side_floor_before_integration.
  - exact laptop_hot_side_floor_before_integration.
Qed.

(** The first step of [laptop_sim.py]: the Peltier stays off and the hot
    side sits at the device temperature before the integration. *)
Lemma C2_hot_side_floor_witness :
  let a := LaptopSim.before_integration 5 0 LaptopSim.init in
  LaptopSim.temperature_c a <= LaptopSim.hot_side_temp_c a.
Proof.
  apply (proj2 C2_hot_side_floor_until_integration 5%Z 0%Z LaptopSim.init).
  vm_compute. reflexivity.
Defined.

(** ** The loop and the battery *)

Lemma pro_same_bookkeeping_trans (s1 s2 s3 : Pro.State) :
  pro_same_bookkeeping s1 s2 -> pro_same_bookkeeping s2 s3 ->
  pro_same_bookkeeping s1 s3.
Proof. unfold pro_same_bookkeeping. intuition congruence. Qed.

Lemma pro_peltier_block_bookkeeping (seconds : Z) (s : Pro.State) :
  pro_same_bookkeeping s (fst (Pro.peltier_block seconds s)).
Proof.
  unfold Pro.peltier_block, Pro.manage_peltier, pro_same_bookkeeping.
  split_ifs; cbn; auto.
Qed.

Lemma pro_fan_block_bookkeeping (seconds : Z) (post : bool) (s : Pro.State) :
  pro_same_bookkeeping s (fst (Pro.fan_block seconds post s)).
Proof.
  unfold Pro.fan_block, Pro.manage_fan, pro_same_bookkeeping.
  destruct (if (Pro.temperature_c s <? 50) && negb post then _ else _)
    as [mode target].
  cbv zeta. split_ifs; cbn; auto.
Qed.

Lemma pro_purge_block_bookkeeping (seconds : Z) (fm : Q) (s : Pro.State) :
  pro_same_bookkeeping s (Pro.purge_block seconds fm s).
Proof.
  unfold Pro.purge_block, pro_same_bookkeeping. split_ifs; cbn; auto.
Qed.

Lemma pro_swap_block_bookkeeping (seconds : Z) (s : Pro.State) :
  pro_same_bookkeeping s (Pro.swap_block seconds s).
Proof.
  unfold Pro.swap_block, Pro.weekly_log, pro_same_bookkeeping.
  cbv zeta. split_ifs; cbn; auto.
Qed.

Lemma pro_before_integration_bookkeeping (seconds : Z) (s : Pro.State) :
  pro_same_bookkeeping s (Pro.before_integration seconds s).
Proof.
  unfold Pro.before_integration, Pro.before_hiss_usage, Pro.before_purge.
  set (s1 := Pro.update_post_purge_timer seconds s).
  assert (B1 : pro_same_bookkeeping s s1) by (split; reflexivity).
  assert (B2 := pro_peltier_block_bookkeeping seconds s1).
  destruct (Pro.peltier_block seconds s1) as [s2 pc]. cbn [fst] in B2.
  assert (B3 := pro_fan_block_bookkeeping seconds
                  (Pro.is_post_purge seconds s) s2).
  destruct (Pro.fan_block seconds (Pro.is_post_purge seconds s) s2)
    as [s3 fm].
  cbn [fst] in B3. unfold Pro.cooling_block. cbv zeta.
  match goal with
  | |- pro_same_bookkeeping s
         (Pro.hiss_deplete ?h (Pro.swap_block ?t (Pro.purge_block ?t ?f ?x))) =>
      assert (B4 : pro_same_bookkeeping s3 x) by (split; reflexivity);
      assert (B5 := pro_purge_block_bookkeeping t f x);
      assert (B6 := pro_swap_block_bookkeeping t (Pro.purge_block t f x));
      set (b := Pro.swap_block t (Pro.purge_block t f x)) in *;
      assert (B7 : pro_same_bookkeeping b (Pro.hiss_deplete h b))
        by (unfold Pro.hiss_deplete; split_ifs; split; reflexivity)
  end.
  eauto 10 using pro_same_bookkeeping_trans.
Qed.

(** An iteration appends one temperature sample; it breaks exactly when it
    ends with the battery at or below zero, and then it also logs the
    depletion and sets [n_steps] to the number of iterations run. *)
Lemma pro_step_spec (np_sin_pi : Q -> Q) (t : Z) (s : Pro.State) :
  let s' := fst (Pro.step np_sin_pi t s) in
  length (Pro.temperature_log s') = S (length (Pro.temperature_log s))
  /\ snd (Pro.step np_sin_pi t s) = (Pro.battery_remaining_wh s' <=? 0)
  /\ (snd (Pro.step np_sin_pi t s) = true ->
      Pro.n_steps s' = (t + 1)%Z
      /\ exists ev,
           Pro.events s' = ev ++ [BatteryDepleted (t * Pro.time_step_s)])
  /\ (snd (Pro.step np_sin_pi t s) = false -> Pro.n_steps s' = Pro.n_steps s).
Proof.
  destruct (pro_before_integration_bookkeeping (t * Pro.time_step_s) s)
    as (El & En).
  unfold Pro.step. cbv zeta.
  set (a := Pro.before_integration (t * Pro.time_step_s) s) in *.
  match goal with
  | |- context [Pro.battery_check t ?sec ?x] => set (s6 := x)
  end.
  assert (L6 : length (Pro.temperature_log s6)
               = S (length (Pro.temperature_log s))).
  { subst s6. unfold Pro.status_block, Pro.integrate. cbv zeta.
    split_ifs; cbn; rewrite El, length_app; cbn; lia. }
  assert (N6 : Pro.n_steps s6 = Pro.n_steps s).
  { subst s6. unfold Pro.status_block, Pro.integrate. cbv zeta.
    split_ifs; cbn; exact En. }
  unfold Pro.battery_check.
  destruct (Pro.battery_remaining_wh s6 <=? 0) eqn:B; cbn; rewrite ?B.
  - repeat split; try assumption; try congruence.
    eexists. reflexivity.
  - repeat split; try assumption; congruence.
Qed.

Lemma pro_loop_runs_all (np_sin_pi : Q -> Q) (n : nat) :
  forall t s,
    pro_battery_lasts np_sin_pi n t s ->
    Pro.loop np_sin_pi n t s = pro_iterate np_sin_pi n t s
    /\ length (Pro.temperature_log (Pro.loop np_sin_pi n t s))
       = (length (Pro.temperature_log s) + n)%nat.
Proof.
  induction n as [|n IH]; intros t s H; cbn.
  - split; [reflexivity | lia].
  - destruct H as [Hb Hrest].
    destruct (pro_step_spec np_sin_pi t s) as (Hl & Hs & _).
    destruct (Pro.step np_sin_pi t s) as [s' stop]. cbn [fst snd] in *.
    apply Qlt_not_le in Hb. rewrite <- Qle_bool_iff in Hb.
    apply not_true_is_false in Hb. rewrite Hb in Hs. subst stop.
    destruct (IH (t + 1)%Z s' Hrest) as [E L]. split; [exact E |].
    rewrite L, Hl. lia.
Qed.

Lemma pro_loop_halts (np_sin_pi : Q -> Q) (n k : nat) :
  forall t s,
    (k < n)%nat ->
    pro_battery_lasts np_sin_pi k t s ->
    let s' := fst (Pro.step np_sin_pi (t + Z.of_nat k)
                     (pro_iterate np_sin_pi k t s)) in
    Pro.battery_remaining_wh s' <= 0 ->
    Pro.loop np_sin_pi n t s = s'
    /\ length (Pro.temperature_log s')
       = (length (Pro.temperature_log s) + k + 1)%nat
    /\ Pro.n_steps s' = (t + Z.of_nat k + 1)%Z
    /\ exists ev,
         Pro.events s'
         = ev ++ [BatteryDepleted ((t + Z.of_nat k) * Pro.time_step_s)].
Proof.
  revert n. induction k as [|k IH]; intros n t s Hk Hlast; cbv zeta.
  - destruct n as [|n]; [lia |]. cbn [pro_iterate Pro.loop Z.of_nat].
    rewrite Z.add_0_r. intro Hb.
    destruct (pro_step_spec np_sin_pi t s) as (Hl & Hs & Hbrk & _).
    destruct (Pro.step np_sin_pi t s) as [s' stop]. cbn [fst snd] in *.
    apply Qle_bool_iff in Hb. rewrite Hb in Hs. subst stop.
    destruct (Hbrk eq_refl) as [Hn Hev].
    repeat split; [lia | lia | exact Hev].
  - destruct n as [|n]; [lia |]. destruct Hlast as [Hb0 Hrest].
    cbn [pro_iterate Pro.loop]. intro Hb.
    destruct (pro_step_spec np_sin_pi t s) as (Hl & Hs & _).
    destruct (Pro.step np_sin_pi t s) as [s1 stop]. cbn [fst snd] in *.
    apply Qlt_not_le in Hb0. rewrite <- Qle_bool_iff in Hb0.
    apply not_true_is_false in Hb0. rewrite Hb0 in Hs. subst stop.
    replace (t + Z.of_nat (S k))%Z with (t + 1 + Z.of_nat k)%Z in * by lia.
    destruct (IH n (t + 1)%Z s1 ltac:(lia) Hrest Hb) as (E & L & N & Ev).
    repeat split; [exact E | rewrite L, Hl; lia | lia | exact Ev].
Qed.

(** The truncation after the loop never cuts anything: the log holds at
    most [n_steps] samples. *)
Lemma pro_loop_log_bound (np_sin_pi : Q -> Q) (n : nat) :
  forall t s,
    Z.of_nat (length (Pro.temperature_log s)) = t ->
    (t + Z.of_nat n <= Pro.n_steps s)%Z ->
    (Z.of_nat (length (Pro.temperature_log (Pro.loop np_sin_pi n t s)))
     <= Pro.n_steps (Pro.loop np_sin_pi n t s))%Z.
Proof.
  induction n as [|n IH]; intros t s Ht Hn; cbn [Pro.loop].
  - lia.
  - destruct (pro_step_spec np_sin_pi t s) as (Hl & _ & Hbrk & Hcont).
    destruct (Pro.step np_sin_pi t s) as [s' stop]. cbn [fst snd] in *.
    destruct stop.
    + destruct (Hbrk eq_refl) as [E _]. rewrite E, Hl. lia.
    + apply IH; rewrite ?Hl, ?Hcont by reflexivity; lia.
Qed.

Lemma pro_run_is_loop (np_sin_pi : Q -> Q) :
  Pro.run np_sin_pi
  = Pro.loop np_sin_pi (Z.to_nat (Pro.n_steps Pro.init)) 0 Pro.init.
Proof.
  unfold Pro.run. cbv zeta.
  assert (H := pro_loop_log_bound np_sin_pi
                 (Z.to_nat (Pro.n_steps Pro.init)) 0 Pro.init eq_refl).
  rewrite Z2Nat.id in H by (cbn; lia).
  specialize (H (Z.le_refl _)).
  apply Z.ltb_ge in H. now rewrite H.
Qed.

Lemma laptop_purge_block_log (seconds : Z) (fm : Q) (s : LaptopSim.State) :
  LaptopSim.temperature_log (LaptopSim.purge_block seconds fm s)
  = LaptopSim.temperature_log s.
Proof. unfold LaptopSim.purge_block. split_ifs; reflexivity. Qed.

Lemma laptop_swap_block_log (seconds : Z) (s : LaptopSim.State) :
  LaptopSim.temperature_log (LaptopSim.swap_block seconds s)
  = LaptopSim.temperature_log s.
Proof. unfold LaptopSim.swap_block. split_ifs; reflexivity. Qed.

Lemma laptop_peltier_block_log (dt : Z) (s : LaptopSim.State) :
  LaptopSim.temperature_log (fst (LaptopSim.peltier_block dt s))
  = LaptopSim.temperature_log s.
Proof. unfold LaptopSim.peltier_block. split_ifs; reflexivity. Qed.

Lemma laptop_peltier_switch_log (seconds : Z) (s : LaptopSim.State) :
  LaptopSim.temperature_log (LaptopSim.peltier_switch seconds s)
  = LaptopSim.temperature_log s.
Proof. unfold LaptopSim.peltier_switch. split_ifs; reflexivity. Qed.

Lemma laptop_fan_block_log
    (dt seconds : Z) (post : bool) (s : LaptopSim.State) :
  LaptopSim.temperature_log (fst (LaptopSim.fan_block dt seconds post s))
  = LaptopSim.temperature_log s.
Proof.
  unfold LaptopSim.fan_block.
  destruct (if (LaptopSim.temperature_c s <? 50) && negb post
            then _ else _) as [mode target].
  cbv zeta. split_ifs; reflexivity.
Qed.

Lemma laptop_before_integration_log (dt seconds : Z) (s : LaptopSim.State) :
  LaptopSim.temperature_log (LaptopSim.before_integration dt seconds s)
  = LaptopSim.temperature_log s.
Proof.
  unfold LaptopSim.before_integration, LaptopSim.before_hiss_usage,
    LaptopSim.before_purge.
  cbv zeta.
  set (s2 := LaptopSim.add_contribution add_co2_hiss _ _).
  assert (E2 : LaptopSim.temperature_log s2 = LaptopSim.temperature_log s)
    by reflexivity.
  clearbody s2.
  assert (Esw := laptop_peltier_switch_log seconds s2).
  set (sw := LaptopSim.peltier_switch seconds s2) in *. clearbody sw.
  assert (E3 := laptop_peltier_block_log dt sw).
  destruct (LaptopSim.peltier_block dt sw) as [s3 pc]. cbn [fst] in E3.
  assert (E4 := laptop_fan_block_log dt seconds
                  (LaptopSim.is_post_purge seconds s) s3).
  destruct (LaptopSim.fan_block dt seconds
              (LaptopSim.is_post_purge seconds s) s3) as [s4 fm].
  cbn [fst] in E4. unfold LaptopSim.cooling_block. cbv zeta.
  match goal with
  | |- LaptopSim.temperature_log
         (LaptopSim.hiss_deplete ?h
            (LaptopSim.swap_block ?t (LaptopSim.purge_block ?t ?f ?x))) = _ =>
      assert (E5 : LaptopSim.temperature_log x = LaptopSim.temperature_log s4)
        by reflexivity;
      assert (E6 := laptop_purge_block_log t f x);
      assert (E7 := laptop_swap_block_log t (LaptopSim.purge_block t f x));
      set (b := LaptopSim.swap_block t (LaptopSim.purge_block t f x)) in *;
      clearbody b;
      change (LaptopSim.temperature_log b = LaptopSim.temperature_log s)
  end.
  congruence.
Qed.

Lemma laptop_step_log
    (np_sin_pi : Q -> Q) (dt t : Z) (s : LaptopSim.State) :
  length (LaptopSim.temperature_log (LaptopSim.step np_sin_pi dt t s))
  = S (length (LaptopSim.temperature_log s)).
Proof.
  destruct (laptop_finish_frame dt (t * dt)
              (LaptopSim.get_cpu_workload np_sin_pi (t * dt))
              (snd (LaptopSim.before_purge dt (t * dt) s))
              (LaptopSim.before_integration dt (t * dt) s))
    as (_ & _ & _ & _ & El).
  rewrite laptop_before_integration_log in El. exact El.
Qed.

Lemma laptop_loop_runs_all (np_sin_pi : Q -> Q) (dt : Z) (n : nat) :
  forall t s,
    length (LaptopSim.temperature_log (LaptopSim.loop np_sin_pi dt n t s))
    = (length (LaptopSim.temperature_log s) + n)%nat.
Proof.
  induction n as [|n IH]; intros t s; cbn [LaptopSim.loop].
  - lia.
  - rewrite IH, laptop_step_log. lia.
Qed.

(** C9 fails as stated: [run_simulation(270000, 90000)] of [laptop_sim.py]
    runs three steps (sine term [np.sin(k * pi)] = 0 at the three sample
    times); the battery is at -690.6 Wh at the end of the second step and
    the third step still executes. *)
Lemma C9_counterexample_laptop_keeps_running :
  LaptopSim.run_simulation zero_wave 270000 90000
    = Some (LaptopSim.loop zero_wave 90000 3 0 LaptopSim.init)
  /\ LaptopSim.battery_remaining_wh
       (LaptopSim.loop zero_wave 90000 2 0 LaptopSim.init) <= 0
  /\ LaptopSim.loop zero_wave 90000 3 0 LaptopSim.init
     = LaptopSim.step zero_wave 90000 2
         (LaptopSim.loop zero_wave 90000 2 0 LaptopSim.init)
  /\ length (LaptopSim.temperature_log
               (LaptopSim.loop zero_wave 90000 3 0 LaptopSim.init)) = 3%nat.
Proof.
  split; [reflexivity |]. split; [vm_compute; discriminate |].
  split; [reflexivity |]. vm_compute. reflexivity.
Qed.

(** C9, amended.  In the year-long script, when an iteration ends with the
    battery at or below zero after [k] iterations that did not, the loop
    stops there: its result is the state of that iteration, the temperature
    log has one sample per executed iteration, [n_steps] is the number of
    executed iterations and the depletion is the last logged event; a run
    whose battery never reaches zero executes every iteration; the
    truncation after the loop removes nothing.  [run_simulation] of
    [laptop_sim.py] has no battery check and always executes all its
    iterations. *)
Theorem C9_battery_depletion_halts_year_long_loop :
  (forall np_sin_pi n k t s,
     (k < n)%nat ->
     pro_battery_lasts np_sin_pi k t s ->
     let s' := fst (Pro.step np_sin_pi (t + Z.of_nat k)
                      (pro_iterate np_sin_pi k t s)) in
     Pro.battery_remaining_wh s' <= 0 ->
     Pro.loop np_sin_pi n t s = s'
     /\ length (Pro.temperature_log s')
        = (length (Pro.temperature_log s) + k + 1)%nat
     /\ Pro.n_steps s' = (t + Z.of_nat k + 1)%Z
     /\ exists ev,
          Pro.events s'
          = ev ++ [BatteryDepleted ((t + Z.of_nat k) * Pro.time_step_s)])
  /\ (forall np_sin_pi n t s,
        pro_battery_lasts np_sin_pi n t s ->
        Pro.loop np_sin_pi n t s = pro_iterate np_sin_pi n t s
        /\ length (Pro.temperature_log (Pro.loop np_sin_pi n t s))
           = (length (Pro.temperature_log s) + n)%nat)
  /\ (forall np_sin_pi,
        Pro.run np_sin_pi
        = Pro.loop np_sin_pi (Z.to_nat (Pro.n_steps Pro.init)) 0 Pro.init)
  /\ (forall np_sin_pi time_step_s n t s,
        length (LaptopSim.temperature_log
                  (LaptopSim.loop np_sin_pi time_step_s n t s))
        = (length (LaptopSim.temperature_log s) + n)%nat).
Proof.
  split; [| split; [| split]].
  - intros np_sin_pi n k. apply pro_loop_halts.
  - intros np_sin_pi n. apply pro_loop_runs_all.
  - exact pro_run_is_loop.
  - intros np_sin_pi dt n. apply laptop_loop_runs_all.
Qed.

(** With 0.0003 Wh left the first iteration empties the battery and a
    ten-iteration loop stops after it. *)
Lemma C9_battery_halt_witness :
  let s' := fst (Pro.step zero_wave 0 pro_battery_nearly_flat) in
  Pro.loop zero_wave 10 0 pro_battery_nearly_flat = s'
  /\ length (Pro.temperature_log s') = 1%nat
  /\ Pro.n_steps s' = 1%Z
  /\ exists ev, Pro.events s' = ev ++ [BatteryDepleted 0].
Proof.
  apply (proj1 C9_battery_depletion_halts_year_long_loop
           zero_wave 10%nat 0%nat 0%Z pro_battery_nearly_flat).
  - lia.
  - exact I.
  - vm_compute. discriminate.
Defined.

(** * Further properties of the modelled code *)

(** ** The helper functions *)

(** X1: [calculate_peltier_efficiency] always returns a value between the
    absolute floor 0.1 and the base efficiency 0.6, whatever the two
    temperatures (same function in the year-long script and in
    [laptop_sim.py]). *)
Theorem X1_peltier_efficiency_range (cpu_temp hot_side_temp : Q) :
  0.1 <= Pro.calculate_peltier_efficiency cpu_temp hot_side_temp
      <= Pro.peltier_efficiency_base
  /\ 0.1 <= LaptopSim.calculate_peltier_efficiency cpu_temp hot_side_temp
         <= LaptopSim.PELTIER_EFFICIENCY_BASE.
Proof.
  assert (H : 0.1 <= Pro.calculate_peltier_efficiency cpu_temp hot_side_temp
              <= Pro.peltier_efficiency_base).
  { unfold Pro.calculate_peltier_efficiency, Pro.peltier_efficiency_base.
    cbv zeta. destruct (hot_side_temp - cpu_temp <=? 0); [split; lra |].
    split; [apply Q.le_max_l | apply clamp_ceiling; lra]. }
  split; exact H.
Qed.

Lemma fan_product_monotone (d1 d2 p : Q) :
  0 <= d1 -> d1 <= d2 -> 1 <= p ->
  (1.0 + (1.3 - 1.0) * (d1 / 100)) * (1.0 + d1 / 100 * 0.7) * p
  <= (1.0 + (1.3 - 1.0) * (d2 / 100)) * (1.0 + d2 / 100 * 0.7) * p.
Proof.
  intros H0 H Hp. qdiv.
  assert (A : (1.0 + (1.3 - 1.0) * (d1 * (1 # 100)))
              * (1.0 + d1 * (1 # 100) * 0.7)
              <= (1.0 + (1.3 - 1.0) * (d2 * (1 # 100)))
                 * (1.0 + d2 * (1 # 100) * 0.7)) by nra.
  nra.
Qed.

Lemma pro_fan_multiplier_monotone (d1 d2 : Q) (post : bool) (timer : Q) :
  d1 <= d2 ->
  Pro.calculate_fan_multiplier d1 post timer
  <= Pro.calculate_fan_multiplier d2 post timer.
Proof.
  intro H. destruct (Qlt_le_dec 0 d1) as [Hp | Hn].
  - unfold Pro.calculate_fan_multiplier, Pro.fan_efficiency_multiplier_base.
    cbv zeta.
    destruct (d1 <=? 0) eqn:D1; destruct (d2 <=? 0) eqn:D2; qprop; try lra.
    apply fan_product_monotone; try lra.
    destruct post; [| lra].
    match goal with
    | |- context [Qmax 0 (Qmin 1 ?x)] => destruct (decay_bounds x); lra
    end.
  - assert (E : Pro.calculate_fan_multiplier d1 post timer = 1.0).
    { unfold Pro.calculate_fan_multiplier. apply Qle_bool_iff in Hn.
      now rewrite Hn. }
    rewrite E. assert (G := pro_fan_multiplier_ge_1 d2 post timer). lra.
Qed.

Lemma laptop_fan_multiplier_monotone (d1 d2 : Q) (post : bool) (timer : Q) :
  d1 <= d2 ->
  LaptopSim.calculate_fan_multiplier d1 post timer
  <= LaptopSim.calculate_fan_multiplier d2 post timer.
Proof.
  intro H. destruct (Qlt_le_dec 0 d1) as [Hp | Hn].
  - unfold LaptopSim.calculate_fan_multiplier,
      LaptopSim.FAN_EFFICIENCY_MULTIPLIER_BASE.
    cbv zeta.
    destruct (d1 <=? 0) eqn:D1; destruct (d2 <=? 0) eqn:D2; qprop; try lra.
    apply fan_product_monotone; try lra.
    destruct post; [| lra].
    match goal with
    | |- context [Qmax 0 (Qmin 1 ?x)] => destruct (decay_bounds x); lra
    end.
  - assert (E : LaptopSim.calculate_fan_multiplier d1 post timer = 1.0).
    { unfold LaptopSim.calculate_fan_multiplier. apply Qle_bool_iff in Hn.
      now rewrite Hn. }
    rewrite E. assert (G := laptop_fan_multiplier_ge_1 d2 post timer). lra.
Qed.

(** X2: with the post-purge flag and the timer fixed,
    [calculate_fan_multiplier] is non-decreasing in the duty cycle, over all
    duty cycles (both scripts). *)
Theorem X2_fan_multiplier_monotone_in_duty
    (d1 d2 : Q) (post : bool) (timer : Q) :
  d1 <= d2 ->
  Pro.calculate_fan_multiplier d1 post timer
    <= Pro.calculate_fan_multiplier d2 post timer
  /\ LaptopSim.calculate_fan_multiplier d1 post timer
     <= LaptopSim.calculate_fan_multiplier d2 post timer.
Proof.
  intro H. split;
    [now apply pro_fan_multiplier_monotone
    | now apply laptop_fan_multiplier_monotone].
Qed.

Lemma X2_fan_multiplier_monotone_witness :
  Pro.calculate_fan_multiplier 30 true 90
    <= Pro.calculate_fan_multiplier 80 true 90
  /\ LaptopSim.calculate_fan_multiplier 30 true 90
     <= LaptopSim.calculate_fan_multiplier 80 true 90.
Proof. apply (X2_fan_multiplier_monotone_in_duty 30 80 true 90). lra. Defined.

(** X3: for a duty cycle of at most 100 the multiplier never exceeds
    1.3 * 1.7 * 1.5 = 3.315, whatever the post-purge flag and the timer
    (both scripts); [laptop_sim.py] reaches that value at full duty with a
    full timer. *)
Theorem X3_fan_multiplier_upper_bound :
  (forall duty post timer,
     duty <= 100 ->
     Pro.calculate_fan_multiplier duty post timer <= 3.315
     /\ LaptopSim.calculate_fan_multiplier duty post timer <= 3.315)
  /\ LaptopSim.calculate_fan_multiplier 100 true 180 == 3.315.
Proof.
  split; [| reflexivity].
  intros duty post timer H.
  assert (P100 : forall t, Pro.calculate_fan_multiplier 100 post t <= 3.315).
  { intro t. unfold Pro.calculate_fan_multiplier,
      Pro.fan_efficiency_multiplier_base.
    cbv zeta. change (100 <=? 0) with false. cbv iota.
    destruct post.
    - match goal with
      | |- context [Qmax 0 (Qmin 1 ?x)] =>
          destruct (decay_bounds x) as [H0 H1];
          set (decay_factor := Qmax 0 (Qmin 1 x)) in *
      end.
      qdiv. lra.
    - qdiv. lra. }
  assert (L100 : forall t,
             LaptopSim.calculate_fan_multiplier 100 post t <= 3.315).
  { intro t. unfold LaptopSim.calculate_fan_multiplier,
      LaptopSim.FAN_EFFICIENCY_MULTIPLIER_BASE.
    cbv zeta. change (100 <=? 0) with false. cbv iota.
    destruct post.
    - match goal with
      | |- context [Qmax 0 (Qmin 1 ?x)] =>
          destruct (decay_bounds x) as [H0 H1];
          set (decay_factor := Qmax 0 (Qmin 1 x)) in *
      end.
      qdiv. lra.
    - qdiv. lra. }
  split.
  - eapply Qle_trans; [apply (pro_fan_multiplier_monotone duty 100); exact H |].
    apply P100.
  - eapply Qle_trans;
      [apply (laptop_fan_multiplier_monotone duty 100); exact H |].
    apply L100.
Qed.

Lemma X3_fan_multiplier_upper_bound_witness :
  Pro.calculate_fan_multiplier 50 true 90 <= 3.315
  /\ LaptopSim.calculate_fan_multiplier 50 true 90 <= 3.315.
Proof.
  apply (proj1 X3_fan_multiplier_upper_bound 50 true 90). lra.
Defined.

(** X4: when the sine term lies in [-1, 1], [get_cpu_workload] returns
    between 70 % and 110 % of [cpu_power_watts] (12.95 W to 20.35 W) at
    every time, in both scripts. *)
Theorem X4_cpu_workload_bounds (np_sin_pi : Q -> Q) :
  (forall x, -1 <= np_sin_pi x <= 1) ->
  forall total_time time_s,
    12.95 <= Pro.get_cpu_workload np_sin_pi total_time time_s <= 20.35
    /\ 12.95 <= LaptopSim.get_cpu_workload np_sin_pi time_s <= 20.35.
Proof.
  intros Hs total_time time_s.
  unfold Pro.get_cpu_workload, LaptopSim.get_cpu_workload,
    Pro.cpu_power_watts, LaptopSim.CPU_POWER_WATTS.
  cbv zeta. split.
  - destruct (_ || _); [split; lra |].
    destruct (Hs (inject_Z time_s / (300 * 60))). split; lra.
  - destruct (_ || _)%bool; [split; lra |].
    destruct (Hs (inject_Z time_s / 300)). split; lra.
Qed.

Lemma zero_wave_bounded (x : Q) : -1 <= zero_wave x <= 1.
Proof. unfold zero_wave. split; lra. Qed.

Lemma X4_cpu_workload_witness :
  12.95 <= Pro.get_cpu_workload zero_wave 31536000 3153700 <= 20.35
  /\ 12.95 <= LaptopSim.get_cpu_workload zero_wave 3153700 <= 20.35.
Proof.
  exact (X4_cpu_workload_bounds zero_wave zero_wave_bounded
           31536000%Z 3153700%Z).
Defined.

(** ** Fan control *)

Lemma fan_clamp_bounds (x : Q) : 0 <= Qmax 0 (Qmin 100 x) <= 100.
Proof.
  split; [apply Q.le_max_l |].
  apply Q.max_lub; [lra | apply Q.le_min_l].
Qed.

Lemma fan_ramp_reaches (target duty : Q) :
  0 <= target <= 100 -> 0 <= duty <= 100 ->
  Qmax 0
    (Qmin 100
       (if duty <? target then Qmin target (duty + 100 / 1.0 * inject_Z 5)
        else if target <? duty
             then Qmax target (duty - 100 / 1.0 * inject_Z 5 * 0.5)
             else duty))
  == target.
Proof.
  intros [T0 T1] [D0 D1].
  assert (U : 100 / 1.0 * inject_Z 5 == 500) by reflexivity.
  destruct (duty <? target) eqn:A; [| destruct (target <? duty) eqn:B];
    qprop.
  - rewrite (Q.min_l target) by (rewrite U; lra).
    rewrite Q.min_r, Q.max_r by lra. reflexivity.
  - rewrite (Q.max_l target) by (rewrite U; lra).
    rewrite Q.min_r, Q.max_r by lra. reflexivity.
  - rewrite Q.min_r, Q.max_r by lra. lra.
Qed.

(** X5: [manage_fan] of the year-long script always leaves the duty cycle
    within [0, 100] with [fan_active] telling whether it is positive; and
    from a duty cycle within [0, 100] one call lands exactly on the target
    of the selected mode (0 below 50 C outside the post-purge window; a
    30 % pulse every 15 s below 50 C inside it; 70 in the window otherwise;
    100 above 70 C; 50 in between): with [fan_ramp_time] = 1 s and a 5 s
    step the ramp never limits the change. *)
Theorem X5_pro_manage_fan_reaches_target
    (cpu_temp : Q) (post : bool) (since now : Z) (s : Pro.State) :
  let s' := Pro.manage_fan cpu_temp post since now s in
  0 <= Pro.fan_duty_cycle s' <= 100
  /\ Pro.fan_active s' = (0 <? Pro.fan_duty_cycle s')
  /\ (0 <= Pro.fan_duty_cycle s <= 100 ->
      (cpu_temp < 50 -> post = false ->
       Pro.fan_duty_cycle s' == 0 /\ Pro.fan_mode s' = PASSIVE)
      /\ (cpu_temp < 50 -> post = true ->
          Pro.fan_duty_cycle s' == (if (now mod 15 =? 0)%Z then 30 else 0)
          /\ Pro.fan_mode s' = SLOW_HISS)
      /\ (50 <= cpu_temp -> post = true ->
          Pro.fan_duty_cycle s' == 70 /\ Pro.fan_mode s' = PURGE)
      /\ (70 < cpu_temp -> post = false ->
          Pro.fan_duty_cycle s' == 100 /\ Pro.fan_mode s' = EMERGENCY)
      /\ (50 <= cpu_temp <= 70 -> post = false ->
          Pro.fan_duty_cycle s' == 50 /\ Pro.fan_mode s' = NORMAL)).
Proof.
  unfold Pro.manage_fan, Pro.fan_ramp_time, Pro.time_step_s.
  split; [| split].
  - destruct (if (cpu_temp <? 50) && negb post then _ else _) as [m tg].
    cbn. apply fan_clamp_bounds.
  - destruct (if (cpu_temp <? 50) && negb post then _ else _) as [m tg].
    reflexivity.
  - intro Hd.
    split; [| split; [| split; [| split]]]; intros Hc Hp; subst post.
    + apply Qltb_lt in Hc. rewrite Hc. cbn.
      split; [apply fan_ramp_reaches; lra | reflexivity].
    + apply Qltb_lt in Hc. rewrite Hc. cbn.
      split; [| reflexivity].
      destruct (now mod 15 =? 0)%Z; apply fan_ramp_reaches; lra.
    + apply Qltb_ge in Hc. rewrite Hc. cbn.
      split; [apply fan_ramp_reaches; lra | reflexivity].
    + assert (Hc' : (cpu_temp <? 50) = false) by (apply Qltb_ge; lra).
      apply Qltb_lt in Hc. rewrite Hc', Hc. cbn.
      split; [apply fan_ramp_reaches; lra | reflexivity].
    + destruct Hc as [Hl Hu].
      apply Qltb_ge in Hl, Hu. rewrite Hl, Hu. cbn.
      split; [apply fan_ramp_reaches; lra | reflexivity].
Qed.

(** From a duty cycle of 100 at 60 C the fan is at 50 after one call. *)
Lemma X5_pro_manage_fan_witness :
  let s' := Pro.manage_fan 60 false 9999 0
              (Pro.set_fan_duty_cycle 100 Pro.init) in
  Pro.fan_duty_cycle s' == 50 /\ Pro.fan_mode s' = NORMAL.
Proof.
  apply (proj2 (proj2 (proj2 (proj2
           (proj2 (proj2 (X5_pro_manage_fan_reaches_target 60 false 9999 0
                            (Pro.set_fan_duty_cycle 100 Pro.init)))
              ltac:(cbn; split; lra)))))).
  - split; lra.
  - reflexivity.
Defined.

Lemma laptop_fan_target_range
    (temperature : Q) (post : bool) (seconds : Z) (m : FanMode) (tg : Z) :
  (if (temperature <? 50) && negb post then (PASSIVE, 0%Z)
   else if temperature <? 65
        then (SLOW_HISS, if (seconds mod 15 =? 0)%Z then 30%Z else 0%Z)
        else if post then (PURGE, 80%Z)
             else if 75 <? temperature then (EMERGENCY, 100%Z)
                  else (NORMAL, 50%Z)) = (m, tg) ->
  (0 <= tg <= 100)%Z.
Proof. split_ifs; intro E; inversion E; lia. Qed.

Lemma laptop_fan_block_duty
    (time_step_s seconds : Z) (post : bool) (s : LaptopSim.State) :
  let s' := fst (LaptopSim.fan_block time_step_s seconds post s) in
  let d := LaptopSim.fan_duty_cycle s in
  exists tg,
    (0 <= tg <= 100)%Z
    /\ LaptopSim.fan_duty_cycle s'
       = (if d <? tg then Z.min tg (d + 10)
          else if tg <? d then Z.max tg (d - 5) else d)%Z
    /\ LaptopSim.fan_active s' = (0 <? LaptopSim.fan_duty_cycle s')%Z.
Proof.
  cbv zeta. unfold LaptopSim.fan_block.
  destruct (if (LaptopSim.temperature_c s <? 50) && negb post
            then _ else _) as [m tg] eqn:E.
  apply laptop_fan_target_range in E. exists tg. split; [exact E |].
  cbv zeta. set (s1 := LaptopSim.set_fan_mode m s).
  change (LaptopSim.fan_duty_cycle s) with (LaptopSim.fan_duty_cycle s1).
  clearbody s1.
  destruct (LaptopSim.fan_duty_cycle s1 <? tg)%Z;
    [| destruct (tg <? LaptopSim.fan_duty_cycle s1)%Z];
    cbn;
    match goal with
    | |- context [if (0 <? ?x)%Z then _ else _] =>
        let F := fresh "F" in destruct (0 <? x)%Z eqn:F; cbn; rewrite ?F
    end;
    split; reflexivity.
Qed.

(** X6: the fan block of [laptop_sim.py] keeps a duty cycle that is within
    [0, 100] within [0, 100], moves it by at most 10 points up or 5 points
    down per step, sets [fan_active] to whether it is positive and returns
    a multiplier of at least 1. *)
Theorem X6_laptop_fan_duty_invariant
    (time_step_s seconds : Z) (post : bool) (s : LaptopSim.State) :
  (0 <= LaptopSim.fan_duty_cycle s <= 100)%Z ->
  let s' := fst (LaptopSim.fan_block time_step_s seconds post s) in
  (0 <= LaptopSim.fan_duty_cycle s' <= 100)%Z
  /\ (LaptopSim.fan_duty_cycle s - 5 <= LaptopSim.fan_duty_cycle s'
      <= LaptopSim.fan_duty_cycle s + 10)%Z
  /\ LaptopSim.fan_active s' = (0 <? LaptopSim.fan_duty_cycle s')%Z
  /\ 1 <= snd (LaptopSim.fan_block time_step_s seconds post s).
Proof.
  intro Hd.
  destruct (laptop_fan_block_duty time_step_s seconds post s)
    as (tg & Ht & Ed & Ea).
  assert (Hm := laptop_fan_block_multiplier time_step_s seconds post s).
  cbv zeta.
  set (s' := fst (LaptopSim.fan_block time_step_s seconds post s)) in *.
  clearbody s'.
  destruct (Z.ltb_spec (LaptopSim.fan_duty_cycle s) tg);
    [| destruct (Z.ltb_spec tg (LaptopSim.fan_duty_cycle s))];
    repeat split; try assumption; lia.
Qed.

Lemma X6_laptop_fan_duty_witness :
  let s' := fst (LaptopSim.fan_block 5 0 false LaptopSim.init) in
  (0 <= LaptopSim.fan_duty_cycle s' <= 100)%Z
  /\ (LaptopSim.fan_duty_cycle LaptopSim.init - 5
      <= LaptopSim.fan_duty_cycle s'
      <= LaptopSim.fan_duty_cycle LaptopSim.init + 10)%Z
  /\ LaptopSim.fan_active s' = (0 <? LaptopSim.fan_duty_cycle s')%Z
  /\ 1 <= snd (LaptopSim.fan_block 5 0 false LaptopSim.init).
Proof.
  apply (X6_laptop_fan_duty_invariant 5 0 false LaptopSim.init).
  cbn. lia.
Defined.

(** ** Microburst schedule *)

Lemma sim2_hiss_energy_range (seconds : Z) (s : Sim2.State) :
  0 <= Sim2.hiss_energy seconds s <= 3.
Proof.
  unfold Sim2.hiss_energy, Sim2.microburst_band. split_ifs; cbn; split; lra.
Qed.

Lemma mod_below_step (seconds c : Z) :
  (0 < c <= 5)%Z -> (seconds mod c <? 5)%Z = true.
Proof.
  intro H. apply Z.ltb_lt.
  assert (B := Z.mod_pos_bound seconds c ltac:(lia)). lia.
Qed.

(** X7: the hiss energy of a step is between 0 and 3 J.  With the 5 s time
    step the timing test [seconds % int(cycle_time) < time_step_s] is always
    true for the 5 s, 4 s and 3 s cycles: from 50 C on in the year-long
    [4o1-pro] script, and from 60 C on in [laptopcoolingsim1yearsim2.py], a
    burst fires in every step in which the active canister is not empty;
    below that temperature (8 s cycle) it fires when [seconds mod 8 < 5]. *)
Theorem X7_burst_schedule :
  (forall seconds s, 0 <= Pro.hiss_energy seconds s <= 3)
  /\ (forall seconds s,
        50 <= Pro.temperature_c s ->
        Pro.burst_now seconds s = (0 <? Pro.active_energy s))
  /\ (forall seconds s,
        Pro.temperature_c s < 50 ->
        Pro.burst_now seconds s
        = (0 <? Pro.active_energy s) && (seconds mod 8 <? 5)%Z)
  /\ (forall seconds s, 0 <= Sim2.hiss_energy seconds s <= 3)
  /\ (forall seconds s,
        60 <= Sim2.temperature_c s ->
        Sim2.burst_now seconds s = (0 <? Sim2.active_energy s))
  /\ (forall seconds s,
        Sim2.temperature_c s < 60 ->
        Sim2.burst_now seconds s
        = (0 <? Sim2.active_energy s) && (seconds mod 8 <? 5)%Z).
Proof.
  split; [exact pro_hiss_energy_range |].
  split; [| split; [| split; [exact sim2_hiss_energy_range | split]]].
  - intros seconds s H. unfold Pro.burst_now, Pro.microburst_band.
    apply Qltb_ge in H. rewrite H. split_ifs; cbn [snd];
      rewrite mod_below_step by (vm_compute; split; [reflexivity | discriminate]);
      now rewrite !andb_true_r.
  - intros seconds s H. unfold Pro.burst_now, Pro.microburst_band.
    apply Qltb_lt in H. rewrite H. cbn [snd].
    now rewrite andb_true_r.
  - intros seconds s H. unfold Sim2.burst_now, Sim2.microburst_band.
    apply Qltb_ge in H. rewrite H. split_ifs; cbn [snd];
      rewrite mod_below_step by (vm_compute; split; [reflexivity | discriminate]);
      now rewrite !andb_true_r.
  - intros seconds s H. unfold Sim2.burst_now, Sim2.microburst_band.
    apply Qltb_lt in H. rewrite H. cbn [snd].
    now rewrite andb_true_r.
Qed.

(** At 80 C every time fires: here 7 s, which no cycle length divides. *)
Lemma X7_burst_schedule_witness :
  Pro.burst_now 7 pro_battery_nearly_flat
  = (0 <? Pro.active_energy pro_battery_nearly_flat).
Proof.
  apply (proj1 (proj2 X7_burst_schedule) 7%Z pro_battery_nearly_flat).
  vm_compute. discriminate.
Defined.

(** ** Peltier controller and the battery *)

(** X8: in the year-long [4o1-pro] script and in
    [laptopcoolingsim1yearsim2.py], whatever the state, a Peltier that is on
    after [manage_peltier] implies a battery level of at least 3 % of
    capacity; and a Peltier that was off is never switched on at a battery
    level of 5 % of capacity or less, also inside the post-purge bonus
    window. *)
Theorem X8_manage_peltier_respects_battery :
  (forall cpu_temp battery_level co2 since s,
     let s' := Pro.manage_peltier cpu_temp battery_level co2 since s in
     (Pro.peltier_active s' = true ->
      0.03 * Pro.battery_capacity_wh <= battery_level)
     /\ (Pro.peltier_active s = false ->
         battery_level <= 0.05 * Pro.battery_capacity_wh ->
         Pro.peltier_active s' = false))
  /\ (forall cpu_temp battery_level co2 since s,
        let s' := Sim2.manage_peltier cpu_temp battery_level co2 since s in
        (Sim2.peltier_active s' = true ->
         0.03 * Sim2.battery_capacity_wh <= battery_level)
        /\ (Sim2.peltier_active s = false ->
            battery_level <= 0.05 * Sim2.battery_capacity_wh ->
            Sim2.peltier_active s' = false)).
Proof.
  split; intros cpu_temp battery_level co2 since s; cbv zeta.
  - unfold Pro.manage_peltier.
    destruct (Pro.peltier_active s) eqn:A.
    + split; [| discriminate].
      destruct (Pro.should_deactivate cpu_temp battery_level s) eqn:D;
        cbn; [discriminate |].
      intros _. unfold Pro.should_deactivate in D. qprop.
      unfold Pro.battery_capacity_wh in *. lra.
    + destruct (Pro.should_activate cpu_temp battery_level s
                || Pro.post_purge_boost since);
        [| split; [congruence | intros _ _; exact A]].
      destruct (0.05 * Pro.battery_capacity_wh <? battery_level) eqn:B;
        cbn; qprop.
      * split; [intros _ | intros _ Hb];
          unfold Pro.battery_capacity_wh in *; lra.
      * split; [discriminate | reflexivity].
  - unfold Sim2.manage_peltier.
    destruct (Sim2.peltier_active s) eqn:A.
    + split; [| discriminate].
      destruct (Sim2.should_deactivate cpu_temp battery_level s) eqn:D;
        cbn; [discriminate |].
      intros _. unfold Sim2.should_deactivate in D. qprop.
      unfold Sim2.battery_capacity_wh in *. lra.
    + destruct (Sim2.should_activate cpu_temp battery_level s
                || Sim2.post_purge_boost since);
        [| split; [congruence | intros _ _; exact A]].
      destruct (0.05 * Sim2.battery_capacity_wh <? battery_level) eqn:B;
        cbn; qprop.
      * split; [intros _ | intros _ Hb];
          unfold Sim2.battery_capacity_wh in *; lra.
      * split; [discriminate | reflexivity].
Qed.

(** Ten seconds after a purge, Peltier off, battery at 4 % of capacity. *)
Lemma X8_manage_peltier_witness :
  Pro.peltier_active
    (Pro.manage_peltier 80 340000000 true 10
       (Pro.set_peltier_active false Pro.init)) = false.
Proof.
  apply (proj2 (proj1 X8_manage_peltier_respects_battery
                  80 340000000 true 10%Z
                  (Pro.set_peltier_active false Pro.init))).
  - reflexivity.
  - vm_compute. discriminate.
Defined.

(** ** Canister swap *)

Lemma sim2_swap_block_active (seconds : Z) (s : Sim2.State) :
  length (Sim2.canisters s) = 2%nat ->
  (Sim2.current_canister s < 2)%nat ->
  let b := Sim2.swap_block seconds s in
  length (Sim2.canisters b) = 2%nat
  /\ (Sim2.current_canister b < 2)%nat
  /\ 50 <= Sim2.active_energy b.
Proof.
  intros Hl Hi. unfold Sim2.swap_block.
  destruct (Sim2.active_energy s <? 50) eqn:A; qprop; [| auto].
  destruct (50 <? item (Sim2.canisters s) (1 - Sim2.current_canister s))
    eqn:B; qprop; unfold Sim2.active_energy; cbn -[Nat.sub];
    unfold item in *.
  - repeat split; [exact Hl | lia | lra].
  - repeat split; [lia |]. unfold Sim2.cooling_capacity_joules. cbn. lra.
Qed.

(** X9: in [laptopcoolingsim1yearsim2.py], on a two-canister store, the
    active canister holds at least 50 J after the swap/refill block; the
    hiss usage that follows therefore subtracts the step's hiss energy in
    full (the clamp at zero never applies) and leaves at least 47 J. *)
Theorem X9_sim2_active_canister_above_threshold
    (seconds gate_seconds : Z) (s gate : Sim2.State) :
  length (Sim2.canisters s) = 2%nat ->
  (Sim2.current_canister s < 2)%nat ->
  let b := Sim2.swap_block seconds s in
  let hiss := Sim2.hiss_energy gate_seconds gate in
  50 <= Sim2.active_energy b
  /\ Sim2.active_energy (Sim2.hiss_deplete hiss b)
     == Sim2.active_energy b - hiss
  /\ 47 <= Sim2.active_energy (Sim2.hiss_deplete hiss b).
Proof.
  intros Hl Hi.
  destruct (sim2_swap_block_active seconds s Hl Hi) as (Hlb & Hib & Hb).
  destruct (sim2_hiss_energy_range gate_seconds gate) as [H0 H3].
  cbv zeta.
  set (b := Sim2.swap_block seconds s) in *.
  set (h := Sim2.hiss_energy gate_seconds gate) in *. clearbody b h.
  assert (E : Sim2.active_energy (Sim2.hiss_deplete h b)
              = Qmax 0 (Sim2.active_energy b - h)).
  { unfold Sim2.hiss_deplete, Sim2.active_energy. cbn.
    apply item_setitem_same. lia. }
  rewrite E, Q.max_r by lra. repeat split; lra.
Qed.

(** Both canisters under 50 J: the block refills, and the 0.9 J burst gated
    on the old 40 J leaves 2899.1 J. *)
Lemma X9_sim2_active_canister_witness :
  let b := Sim2.swap_block 0 sim2_depleted in
  let hiss := Sim2.hiss_energy 0 sim2_depleted in
  50 <= Sim2.active_energy b
  /\ Sim2.active_energy (Sim2.hiss_deplete hiss b)
     == Sim2.active_energy b - hiss
  /\ 47 <= Sim2.active_energy (Sim2.hiss_deplete hiss b).
Proof.
  apply (X9_sim2_active_canister_above_threshold 0 0
           sim2_depleted sim2_depleted).
  - reflexivity.
  - cbn. lia.
Defined.

Lemma sim2_swap_to_other (seconds : Z) (s : Sim2.State) :
  Sim2.active_energy s < 50 ->
  50 < item (Sim2.canisters s) (1 - Sim2.current_canister s) ->
  let s' := Sim2.swap_block seconds s in
  Sim2.current_canister s' = (1 - Sim2.current_canister s)%nat
  /\ Sim2.canisters s' = Sim2.canisters s
  /\ Sim2.canister_swaps s' = (Sim2.canister_swaps s + 1)%Z.
Proof.
  intros A B. unfold Sim2.swap_block.
  apply Qltb_lt in A, B. rewrite A, B. cbn -[Nat.sub]. auto.
Qed.

Lemma pro_swap_to_other (seconds : Z) (s : Pro.State) :
  Pro.active_energy s < 50 ->
  50 < item (Pro.canisters s) (1 - Pro.current_canister s) ->
  let s' := Pro.swap_block seconds s in
  Pro.current_canister s' = (1 - Pro.current_canister s)%nat
  /\ Pro.canisters s' = Pro.canisters s
  /\ Pro.canister_swaps s' = (Pro.canister_swaps s + 1)%Z.
Proof.
  intros A B. unfold Pro.swap_block.
  apply Qltb_lt in A, B. rewrite A, B. cbv zeta.
  match goal with
  | |- context [Pro.weekly_log ?t ?e ?x] =>
      destruct (pro_weekly_log_canisters t e x) as (Ec & Ei & Es & _);
      set (w := Pro.weekly_log t e x) in *
  end.
  rewrite Ec, Ei, Es. cbn -[Nat.sub]. auto.
Qed.

(** X10: in the swap/refill block of the year-long [4o1-pro] script and of
    [laptopcoolingsim1yearsim2.py], an active canister under 50 J with more
    than 50 J in the other one switches the index to the other canister,
    increments the swap counter and leaves both energies untouched; an
    active canister at 50 J or more leaves the whole state as it is. *)
Theorem X10_swap_to_other_canister :
  (forall seconds s,
     (Pro.active_energy s < 50 ->
      50 < item (Pro.canisters s) (1 - Pro.current_canister s) ->
      let s' := Pro.swap_block seconds s in
      Pro.current_canister s' = (1 - Pro.current_canister s)%nat
      /\ Pro.canisters s' = Pro.canisters s
      /\ Pro.canister_swaps s' = (Pro.canister_swaps s + 1)%Z)
     /\ (50 <= Pro.active_energy s -> Pro.swap_block seconds s = s))
  /\ (forall seconds s,
        (Sim2.active_energy s < 50 ->
         50 < item (Sim2.canisters s) (1 - Sim2.current_canister s) ->
         let s' := Sim2.swap_block seconds s in
         Sim2.current_canister s' = (1 - Sim2.current_canister s)%nat
         /\ Sim2.canisters s' = Sim2.canisters s
         /\ Sim2.canister_swaps s' = (Sim2.canister_swaps s + 1)%Z)
        /\ (50 <= Sim2.active_energy s -> Sim2.swap_block seconds s = s)).
Proof.
  split; intros seconds s; split.
  - apply pro_swap_to_other.
  - intro H. unfold Pro.swap_block. apply Qltb_ge in H. now rewrite H.
  - apply sim2_swap_to_other.
  - intro H. unfold Sim2.swap_block. apply Qltb_ge in H. now rewrite H.
Qed.

(** Canister 0 at 40 J, canister 1 full: the block switches to canister 1
    and canister 0 keeps its 40 J. *)
Lemma X10_swap_to_other_witness :
  let s' := Sim2.swap_block 0 sim2_low_active in
  Sim2.current_canister s' = 1%nat
  /\ Sim2.canisters s' = [40; 2900]
  /\ Sim2.canister_swaps s' = 1%Z.
Proof.
  apply (proj1 (proj2 X10_swap_to_other_canister 0%Z sim2_low_active));
    reflexivity.
Defined.

(** ** The canister store over a run *)

Lemma laptop_hiss_deplete_wf (hiss : Q) (s : LaptopSim.State) :
  LaptopSim.wf s -> 0 <= hiss ->
  LaptopSim.wf (LaptopSim.hiss_deplete hiss s)
  /\ forall j, item (LaptopSim.canisters (LaptopSim.hiss_deplete hiss s)) j
               <= item (LaptopSim.canisters s) j.
Proof.
  intros (c0 & c1 & E & Hi & H0 & H1) Hh.
  unfold LaptopSim.hiss_deplete, LaptopSim.wf, LaptopSim.active_energy.
  cbn. rewrite E.
  destruct (LaptopSim.current_canister s) as [|[|i]]; [| | lia];
    unfold item; cbn.
  - destruct (Q.max_spec 0 (c0 - hiss)) as [[L M'] | [L M']].
    + split; [eexists _, _; repeat split; try reflexivity; try lia; lra |].
      intros [|[|[|j]]]; cbn; lra.
    + split; [eexists _, _; repeat split; try reflexivity; try lia; lra |].
      intros [|[|[|j]]]; cbn; lra.
  - destruct (Q.max_spec 0 (c1 - hiss)) as [[L M'] | [L M']].
    + split; [eexists _, _; repeat split; try reflexivity; try lia; lra |].
      intros [|[|[|j]]]; cbn; lra.
    + split; [eexists _, _; repeat split; try reflexivity; try lia; lra |].
      intros [|[|[|j]]]; cbn; lra.
Qed.

Lemma laptop_purge_block_energy
    (seconds : Z) (fm : Q) (s : LaptopSim.State) :
  LaptopSim.wf s ->
  forall j, item (LaptopSim.canisters (LaptopSim.purge_block seconds fm s)) j
            <= item (LaptopSim.canisters s) j.
Proof.
  intros (c0 & c1 & E & Hi & H0 & H1) j. unfold LaptopSim.purge_block.
  destruct (LaptopSim.purge_condition s); [| lra].
  destruct (LaptopSim.COOLING_EFFECTIVE_JOULES <=? LaptopSim.active_energy s);
    [| lra].
  unfold LaptopSim.active_energy. cbn. rewrite E.
  unfold LaptopSim.COOLING_EFFECTIVE_JOULES,
    LaptopSim.COOLING_CAPACITY_JOULES, LaptopSim.PURGE_EFFICIENCY.
  destruct (LaptopSim.current_canister s) as [|[|i]]; [| | lia];
    destruct j as [|[|[|j]]]; unfold item; cbn; lra.
Qed.

(** One iteration as the composition of its blocks. *)
Lemma laptop_step_stages
    (np_sin_pi : Q -> Q) (dt t : Z) (s : LaptopSim.State) :
  exists s4 fm tc,
    LaptopSim.before_purge dt (t * dt) s = (s4, fm, tc)
    /\ LaptopSim.step np_sin_pi dt t s
       = LaptopSim.status_block (t * dt)
           (LaptopSim.integrate dt
              (LaptopSim.get_cpu_workload np_sin_pi (t * dt)) tc
              (LaptopSim.hiss_deplete (LaptopSim.hiss_energy (t * dt) s)
                 (LaptopSim.swap_block (t * dt)
                    (LaptopSim.purge_block (t * dt) fm s4)))).
Proof.
  unfold LaptopSim.step, LaptopSim.before_integration,
    LaptopSim.before_hiss_usage.
  destruct (LaptopSim.before_purge dt (t * dt) s) as [[s4 fm] tc].
  exists s4, fm, tc. split; reflexivity.
Qed.

Lemma laptop_store_chain
    (seconds : Z) (fm h : Q) (s s4 : LaptopSim.State) :
  LaptopSim.wf s ->
  LaptopSim.canisters s4 = LaptopSim.canisters s ->
  LaptopSim.current_canister s4 = LaptopSim.current_canister s ->
  0 <= fm -> 0 <= h ->
  let a := LaptopSim.hiss_deplete h
             (LaptopSim.swap_block seconds
                (LaptopSim.purge_block seconds fm s4)) in
  LaptopSim.wf a
  /\ forall j, item (LaptopSim.canisters a) j
               <= item (LaptopSim.canisters s) j.
Proof.
  intros Hwf Ec4 Ei4 Hm Hh.
  assert (Hwf4 : LaptopSim.wf s4)
    by (unfold LaptopSim.wf; now rewrite Ec4, Ei4).
  assert (P := laptop_purge_block_energy seconds fm s4 Hwf4).
  destruct (laptop_purge_block_store seconds fm s4 Hwf4 Hm) as (Hwf5 & _).
  set (s5 := LaptopSim.purge_block seconds fm s4) in *. clearbody s5.
  destruct (laptop_swap_block_store seconds s5 Hwf5) as (Hwf6 & Eo6 & _).
  set (b := LaptopSim.swap_block seconds s5) in *. clearbody b.
  destruct (laptop_hiss_deplete_wf h b Hwf6 Hh) as (Hwf7 & D7).
  cbv zeta. split; [exact Hwf7 |].
  intro j. specialize (D7 j). specialize (P j).
  rewrite Eo6 in D7. rewrite Ec4 in P. lra.
Qed.

Lemma laptop_step_store
    (np_sin_pi : Q -> Q) (dt t : Z) (s : LaptopSim.State) :
  LaptopSim.wf s ->
  LaptopSim.wf (LaptopSim.step np_sin_pi dt t s)
  /\ forall j, item (LaptopSim.canisters (LaptopSim.step np_sin_pi dt t s)) j
               <= item (LaptopSim.canisters s) j.
Proof.
  intro Hwf.
  destruct (laptop_step_stages np_sin_pi dt t s) as (s4 & fm & tc & Eb & Es).
  destruct (laptop_before_purge_spec dt (t * dt) s)
    as (Ec4 & Ei4 & _ & _ & Hm & _).
  rewrite Eb in Ec4, Ei4, Hm. cbn [fst snd] in Ec4, Ei4, Hm.
  destruct (laptop_store_chain (t * dt) fm
              (LaptopSim.hiss_energy (t * dt) s) s s4 Hwf Ec4 Ei4
              ltac:(lra) (laptop_hiss_energy_nonneg _ s)) as [Hwfa Da].
  rewrite Es.
  match goal with
  | |- LaptopSim.wf (LaptopSim.status_block ?sec
                       (LaptopSim.integrate ?d ?c ?k ?a)) /\ _ =>
      destruct (laptop_finish_frame d sec c k a) as (Ec & Ei & _);
      set (s' := LaptopSim.status_block sec (LaptopSim.integrate d c k a))
        in *;
      set (a' := a) in *; clearbody s' a'
  end.
  split.
  - unfold LaptopSim.wf in *. now rewrite Ec, Ei.
  - intro j. rewrite Ec. apply Da.
Qed.

Lemma laptop_loop_store (np_sin_pi : Q -> Q) (dt : Z) (n : nat) :
  forall t s,
    LaptopSim.wf s ->
    LaptopSim.wf (LaptopSim.loop np_sin_pi dt n t s)
    /\ forall j, item (LaptopSim.canisters
                         (LaptopSim.loop np_sin_pi dt n t s)) j
                 <= item (LaptopSim.canisters s) j.
Proof.
  induction n as [|n IH]; intros t s Hwf; cbn [LaptopSim.loop].
  - split; [exact Hwf | intro j; lra].
  - destruct (laptop_step_store np_sin_pi dt t s Hwf) as [Hwf1 D1].
    destruct (IH (t + 1)%Z _ Hwf1) as [Hwf2 D2].
    split; [exact Hwf2 |]. intro j. specialize (D1 j). specialize (D2 j).
    lra.
Qed.

(** X11: the canister store keeps its shape over a run: two canisters, an
    index of 0 or 1, every energy between 0 and the capacity.  This holds
    after every step from any such state, for the state the year-long
    script ends in, and for the state [run_simulation] of [laptop_sim.py]
    ends in, whatever its two arguments. *)
Theorem X11_canister_store_invariant :
  (forall np_sin_pi t s,
     Pro.wf s -> Pro.wf (fst (Pro.step np_sin_pi t s)))
  /\ (forall np_sin_pi, Pro.wf (Pro.run np_sin_pi))
  /\ (forall np_sin_pi time_step_s t s,
        LaptopSim.wf s -> LaptopSim.wf (LaptopSim.step np_sin_pi time_step_s t s))
  /\ (forall np_sin_pi total_time_s time_step_s r,
        LaptopSim.run_simulation np_sin_pi total_time_s time_step_s = Some r ->
        LaptopSim.wf r).
Proof.
  split; [| split; [| split]].
  - intros np_sin_pi t s H. apply pro_step_store, H.
  - intro np_sin_pi. rewrite pro_run_is_loop.
    apply pro_loop_store, pro_init_wf.
  - intros np_sin_pi dt t s H. apply laptop_step_store, H.
  - intros np_sin_pi total dt r. unfold LaptopSim.run_simulation.
    destruct (dt =? 0)%Z; [discriminate |]. intro E. inversion E.
    apply laptop_loop_store, laptop_init_wf.
Qed.

Lemma X11_canister_store_witness :
  LaptopSim.wf (LaptopSim.loop zero_wave 90000 3 0 LaptopSim.init).
Proof.
  apply (proj2 (proj2 (proj2 X11_canister_store_invariant))
           zero_wave 270000%Z 90000%Z).
  reflexivity.
Defined.

(** X12: no step of [laptop_sim.py] ever adds energy to a canister: from
    a state with two canisters within [0, capacity], each canister's energy
    after a step, and after any number of steps, is at most what it was. *)
Theorem X12_canister_energy_never_increases :
  forall np_sin_pi time_step_s n t s j,
    LaptopSim.wf s ->
    item (LaptopSim.canisters (LaptopSim.step np_sin_pi time_step_s t s)) j
      <= item (LaptopSim.canisters s) j
    /\ item (LaptopSim.canisters
               (LaptopSim.loop np_sin_pi time_step_s n t s)) j
       <= item (LaptopSim.canisters s) j.
Proof.
  intros np_sin_pi dt n t s j H. split.
  - apply laptop_step_store, H.
  - apply laptop_loop_store, H.
Qed.

(** Three steps from the initial state: canister 0 only loses its
    bursts. *)
Lemma X12_canister_energy_witness :
  item (LaptopSim.canisters (LaptopSim.step zero_wave 5 0 LaptopSim.init)) 0
    <= item (LaptopSim.canisters LaptopSim.init) 0
  /\ item (LaptopSim.canisters (LaptopSim.loop zero_wave 5 3 0 LaptopSim.init)) 0
     <= item (LaptopSim.canisters LaptopSim.init) 0.
Proof.
  apply (X12_canister_energy_never_increases zero_wave 5%Z 3%nat 0%Z
           LaptopSim.init 0%nat).
  exact laptop_init_wf.
Defined.

(** ** Stages of an iteration and what they leave alone *)

(** One iteration of the year-long script as the composition of its
    blocks. *)
Lemma pro_step_stages (np_sin_pi : Q -> Q) (t : Z) (s : Pro.State) :
  exists s4 fm tc,
    Pro.before_purge (t * Pro.time_step_s) s = (s4, fm, tc)
    /\ Pro.step np_sin_pi t s
       = Pro.battery_check t (t * Pro.time_step_s)
           (Pro.status_block (t * Pro.time_step_s)
              (Pro.integrate
                 (Pro.get_cpu_workload np_sin_pi (Pro.total_time_s s)
                    (t * Pro.time_step_s)) tc
                 (Pro.hiss_deplete (Pro.hiss_energy (t * Pro.time_step_s) s)
                    (Pro.swap_block (t * Pro.time_step_s)
                       (Pro.purge_block (t * Pro.time_step_s) fm s4))))).
Proof.
  unfold Pro.step, Pro.before_integration, Pro.before_hiss_usage.
  destruct (Pro.before_purge (t * Pro.time_step_s) s) as [[s4 fm] tc].
  exists s4, fm, tc. split; reflexivity.
Qed.

Lemma pro_same_counters_refl (s : Pro.State) : pro_same_counters s s.
Proof. repeat split. Qed.

Lemma pro_same_counters_trans (s1 s2 s3 : Pro.State) :
  pro_same_counters s1 s2 -> pro_same_counters s2 s3 ->
  pro_same_counters s1 s3.
Proof. unfold pro_same_counters. intuition congruence. Qed.

Lemma pro_peltier_block_counters (seconds : Z) (s : Pro.State) :
  pro_same_counters s (fst (Pro.peltier_block seconds s)).
Proof.
  unfold Pro.peltier_block, Pro.manage_peltier, pro_same_counters.
  split_ifs; cbn; auto.
Qed.

Lemma pro_fan_block_counters (seconds : Z) (post : bool) (s : Pro.State) :
  pro_same_counters s (fst (Pro.fan_block seconds post s)).
Proof.
  unfold Pro.fan_block, Pro.manage_fan, pro_same_counters.
  destruct (if (Pro.temperature_c s <? 50) && negb post then _ else _)
    as [mode target].
  cbv zeta. split_ifs; cbn; auto.
Qed.

Lemma pro_before_purge_counters (seconds : Z) (s : Pro.State) :
  pro_same_counters s (fst (fst (Pro.before_purge seconds s))).
Proof.
  unfold Pro.before_purge.
  set (s1 := Pro.update_post_purge_timer seconds s).
  assert (B1 : pro_same_counters s s1) by (repeat split).
  clearbody s1.
  assert (B2 := pro_peltier_block_counters seconds s1).
  destruct (Pro.peltier_block seconds s1) as [s2 pc]. cbn [fst] in B2.
  assert (B3 := pro_fan_block_counters seconds
                  (Pro.is_post_purge seconds s) s2).
  destruct (Pro.fan_block seconds (Pro.is_post_purge seconds s) s2)
    as [s3 fm].
  cbn [fst] in B3. unfold Pro.cooling_block. cbv zeta. cbn [fst].
  match goal with
  | |- pro_same_counters s ?x =>
      assert (B4 : pro_same_counters s3 x) by (repeat split)
  end.
  eauto using pro_same_counters_trans.
Qed.

Lemma pro_tail_counters
    (t seconds : Z) (cpu cooling : Q) (a : Pro.State) :
  let s' := fst (Pro.battery_check t seconds
                   (Pro.status_block seconds (Pro.integrate cpu cooling a))) in
  Pro.canisters s' = Pro.canisters a
  /\ Pro.current_canister s' = Pro.current_canister a
  /\ Pro.purge_count s' = Pro.purge_count a
  /\ Pro.canister_swaps s' = Pro.canister_swaps a
  /\ Pro.last_purge_time s' = Pro.last_purge_time a
  /\ Pro.peltier_active s' = Pro.peltier_active a
  /\ Pro.peltier_runtime_s s' = Pro.peltier_runtime_s a
  /\ Pro.battery_remaining_wh s' = Pro.battery_remaining_wh a
  /\ Pro.fan_duty_cycle s' = Pro.fan_duty_cycle a.
Proof.
  unfold Pro.battery_check, Pro.status_block, Pro.integrate. cbv zeta.
  split_ifs; cbn; auto 10.
Qed.




(** ** Purges over a run of [laptop_sim.py] *)

Lemma laptop_same_counters_trans (s1 s2 s3 : LaptopSim.State) :
  laptop_same_counters s1 s2 -> laptop_same_counters s2 s3 ->
  laptop_same_counters s1 s3.
Proof. unfold laptop_same_counters. intuition congruence. Qed.

Lemma laptop_peltier_counters (dt seconds : Z) (s : LaptopSim.State) :
  laptop_same_counters s
    (fst (LaptopSim.peltier_block dt (LaptopSim.peltier_switch seconds s))).
Proof.
  unfold LaptopSim.peltier_block, LaptopSim.peltier_switch,
    laptop_same_counters.
  split_ifs; cbn; auto.
Qed.

Lemma laptop_fan_block_counters
    (dt seconds : Z) (post : bool) (s : LaptopSim.State) :
  laptop_same_counters s (fst (LaptopSim.fan_block dt seconds post s)).
Proof.
  unfold LaptopSim.fan_block, laptop_same_counters.
  destruct (if (LaptopSim.temperature_c s <? 50) && negb post then _ else _)
    as [mode target].
  cbv zeta. split_ifs; cbn; auto.
Qed.

Lemma laptop_before_purge_counters (dt seconds : Z) (s : LaptopSim.State) :
  laptop_same_counters s (fst (fst (LaptopSim.before_purge dt seconds s))).
Proof.
  unfold LaptopSim.before_purge. cbv zeta.
  set (s2 := LaptopSim.add_contribution add_co2_hiss _ _).
  assert (B2 : laptop_same_counters s s2) by (repeat split).
  clearbody s2.
  assert (B3 := laptop_peltier_counters dt seconds s2).
  destruct (LaptopSim.peltier_block dt (LaptopSim.peltier_switch seconds s2))
    as [s3 pc].
  cbn [fst] in B3.
  assert (B4 := laptop_fan_block_counters dt seconds
                  (LaptopSim.is_post_purge seconds s) s3).
  destruct (LaptopSim.fan_block dt seconds
              (LaptopSim.is_post_purge seconds s) s3) as [s4 fm].
  cbn [fst] in B4. unfold LaptopSim.cooling_block. cbv zeta. cbn [fst].
  match goal with
  | |- laptop_same_counters s ?x =>
      assert (B5 : laptop_same_counters s4 x) by (repeat split)
  end.
  eauto using laptop_same_counters_trans.
Qed.

Lemma laptop_finish_counters
    (dt seconds : Z) (cpu cooling : Q) (a : LaptopSim.State) :
  let s' := LaptopSim.status_block seconds
              (LaptopSim.integrate dt cpu cooling a) in
  LaptopSim.purge_count s' = LaptopSim.purge_count a
  /\ LaptopSim.canister_swaps s' = LaptopSim.canister_swaps a
  /\ LaptopSim.last_purge_time s' = LaptopSim.last_purge_time a
  /\ LaptopSim.battery_remaining_wh s' = LaptopSim.battery_remaining_wh a
  /\ LaptopSim.fan_duty_cycle s' = LaptopSim.fan_duty_cycle a
  /\ LaptopSim.peltier_runtime_s s' = LaptopSim.peltier_runtime_s a
  /\ LaptopSim.peltier_active s' = LaptopSim.peltier_active a.
Proof.
  unfold LaptopSim.status_block, LaptopSim.integrate. cbv zeta.
  split_ifs; cbn; auto 10.
Qed.








(** ** The Peltier's continuous runtime (year-long script) *)

Lemma pro_peltier_block_runtime (seconds : Z) (s : Pro.State) :
  pro_runtime_ok s -> pro_runtime_ok (fst (Pro.peltier_block seconds s)).
Proof.
  unfold pro_runtime_ok, Pro.peltier_block, Pro.manage_peltier,
    Pro.should_deactivate, Pro.peltier_max_runtime, Pro.time_step_s.
  intros (Hr & Hm & Hoff).
  destruct (Pro.peltier_active s) eqn:A.
  - destruct (Pro.temperature_c s <? 65); cbn;
      [repeat split; (lia || reflexivity || auto) |].
    destruct (Pro.battery_remaining_wh s <? 0.03 * Pro.battery_capacity_wh);
      cbn; [repeat split; (lia || reflexivity || auto) |].
    destruct (120 <=? Pro.peltier_runtime_s s)%Z eqn:R; cbn;
      [repeat split; (lia || reflexivity || auto) |].
    rewrite A. cbn. apply Z.leb_gt in R.
    assert (D := Hm). apply Z.mod_divide in D; [| lia].
    destruct D as [q Hq].
    repeat split; try lia; [| congruence].
    rewrite Hq. replace (q * 5 + 5)%Z with ((q + 1) * 5)%Z by lia.
    apply Z.mod_mul. lia.
  - specialize (Hoff eq_refl).
    destruct (Pro.should_activate _ _ _ || Pro.post_purge_boost _).
    + destruct (0.05 * Pro.battery_capacity_wh <? Pro.battery_remaining_wh s);
        cbn; rewrite ?Hoff; repeat split; try lia; try reflexivity;
        try discriminate.
    + rewrite A. cbn. rewrite Hoff. repeat split; try lia; reflexivity.
Qed.

Lemma pro_fan_block_peltier (seconds : Z) (post : bool) (s : Pro.State) :
  pro_same_peltier s (fst (Pro.fan_block seconds post s)).
Proof.
  unfold Pro.fan_block, Pro.manage_fan, pro_same_peltier.
  destruct (if (Pro.temperature_c s <? 50) && negb post then _ else _)
    as [mode target].
  cbv zeta. split_ifs; cbn; auto.
Qed.

Lemma pro_store_blocks_peltier (seconds : Z) (fm h : Q) (s : Pro.State) :
  pro_same_peltier s
    (Pro.hiss_deplete h (Pro.swap_block seconds (Pro.purge_block seconds fm s))).
Proof.
  assert (P : pro_same_peltier s (Pro.purge_block seconds fm s)).
  { unfold Pro.purge_block, pro_same_peltier. split_ifs; cbn; auto. }
  set (s5 := Pro.purge_block seconds fm s) in *. clearbody s5.
  assert (W : pro_same_peltier s5 (Pro.swap_block seconds s5)).
  { unfold Pro.swap_block, Pro.weekly_log, pro_same_peltier.
    split_ifs; cbn; auto. }
  set (b := Pro.swap_block seconds s5) in *. clearbody b.
  assert (D : pro_same_peltier b (Pro.hiss_deplete h b)).
  { unfold Pro.hiss_deplete, pro_same_peltier. split_ifs; cbn; auto. }
  unfold pro_same_peltier in *. intuition congruence.
Qed.

Lemma pro_before_purge_runtime (seconds : Z) (s : Pro.State) :
  pro_runtime_ok s ->
  pro_runtime_ok (fst (fst (Pro.before_purge seconds s))).
Proof.
  intro H. unfold Pro.before_purge.
  set (s1 := Pro.update_post_purge_timer seconds s).
  assert (H1 : pro_runtime_ok s1) by exact H.
  clearbody s1.
  assert (H2 := pro_peltier_block_runtime seconds s1 H1).
  destruct (Pro.peltier_block seconds s1) as [s2 pc]. cbn [fst] in H2.
  assert (H3 := pro_fan_block_peltier seconds
                  (Pro.is_post_purge seconds s) s2).
  destruct (Pro.fan_block seconds (Pro.is_post_purge seconds s) s2)
    as [s3 fm].
  cbn [fst] in H3. unfold Pro.cooling_block. cbv zeta. cbn [fst].
  destruct H3 as [Ea Er]. unfold pro_runtime_ok in *. cbn.
  rewrite Ea, Er. exact H2.
Qed.

Lemma pro_step_runtime (np_sin_pi : Q -> Q) (t : Z) (s : Pro.State) :
  pro_runtime_ok s -> pro_runtime_ok (fst (Pro.step np_sin_pi t s)).
Proof.
  intro H.
  destruct (pro_step_stages np_sin_pi t s) as (s4 & fm & tc & Eb & Es).
  assert (H4 := pro_before_purge_runtime (t * Pro.time_step_s) s H).
  rewrite Eb in H4. cbn [fst] in H4.
  destruct (pro_store_blocks_peltier (t * Pro.time_step_s) fm
              (Pro.hiss_energy (t * Pro.time_step_s) s) s4) as [Ea Er].
  set (a := Pro.hiss_deplete _ _) in *. clearbody a. rewrite Es.
  match goal with
  | |- context [Pro.battery_check ?t ?sec
                  (Pro.status_block ?sec (Pro.integrate ?c ?k a))] =>
      destruct (pro_tail_counters t sec c k a)
        as (_ & _ & _ & _ & _ & Ea' & Er' & _);
      set (s' := fst (Pro.battery_check t sec
                        (Pro.status_block sec (Pro.integrate c k a)))) in *;
      clearbody s'
  end.
  unfold pro_runtime_ok in *. rewrite Ea', Er', Ea, Er. exact H4.
Qed.

Lemma pro_loop_runtime (np_sin_pi : Q -> Q) (n : nat) :
  forall t s,
    pro_runtime_ok s -> pro_runtime_ok (Pro.loop np_sin_pi n t s).
Proof.
  induction n as [|n IH]; intros t s H; cbn [Pro.loop]; [exact H |].
  assert (H1 := pro_step_runtime np_sin_pi t s H).
  destruct (Pro.step np_sin_pi t s) as [s1 stop]. cbn [fst] in H1.
  destruct stop; [exact H1 | now apply IH].
Qed.

(** X14: in the year-long [4o1-pro] script the Peltier's continuous
    runtime stays a multiple of the 5 s time step between 0 and
    [peltier_max_runtime] = 120 s, and is 0 whenever the Peltier is off:
    every iteration keeps this, so it holds after every iteration of a
    run and at its end. *)
Theorem X14_pro_peltier_runtime_capped :
  (forall np_sin_pi t s,
     pro_runtime_ok s -> pro_runtime_ok (fst (Pro.step np_sin_pi t s)))
  /\ (forall np_sin_pi n,
        pro_runtime_ok (Pro.loop np_sin_pi n 0 Pro.init))
  /\ (forall np_sin_pi, pro_runtime_ok (Pro.run np_sin_pi)).
Proof.
  assert (I : pro_runtime_ok Pro.init).
  { unfold pro_runtime_ok. cbn. repeat split; try lia; discriminate. }
  split; [exact pro_step_runtime | split].
  - intros np n. now apply pro_loop_runtime.
  - intro np. rewrite pro_run_is_loop. now apply pro_loop_runtime.
Qed.

(** A Peltier that has run for 115 s is switched off by the controller
    one iteration later, after reaching 120 s. *)
Lemma X14_pro_peltier_runtime_witness :
  pro_runtime_ok
    (fst (Pro.step zero_wave 0
            (Pro.set_peltier_runtime_s 115
               (Pro.set_temperature_c 80 Pro.init)))).
Proof.
  apply (proj1 X14_pro_peltier_runtime_capped zero_wave 0%Z
           (Pro.set_peltier_runtime_s 115
              (Pro.set_temperature_c 80 Pro.init))).
  unfold pro_runtime_ok. cbn. repeat split; try lia; discriminate.
Defined.

(** ** Battery drain *)

Lemma pro_drain_trans (d1 d2 : Q) (s1 s2 s3 : Pro.State) :
  pro_drain d1 s1 s2 -> pro_drain d2 s2 s3 -> pro_drain (d1 + d2) s1 s3.
Proof. unfold pro_drain. intros [A B] [C D]. split; lra. Qed.

Lemma pro_drain_same (s s' : Pro.State) :
  Pro.battery_remaining_wh s' = Pro.battery_remaining_wh s ->
  pro_drain 0 s s'.
Proof. unfold pro_drain. intros ->. split; lra. Qed.

Lemma pro_peltier_block_battery (seconds : Z) (s : Pro.State) :
  pro_drain (Pro.peltier_power_draw * inject_Z Pro.time_step_s / 3600)
    s (fst (Pro.peltier_block seconds s)).
Proof.
  unfold Pro.peltier_block.
  match goal with
  | |- context [Pro.manage_peltier ?a ?b ?c ?d s] =>
      assert (E : Pro.battery_remaining_wh (Pro.manage_peltier a b c d s)
                  = Pro.battery_remaining_wh s)
        by (unfold Pro.manage_peltier; split_ifs; reflexivity);
      set (m := Pro.manage_peltier a b c d s) in *
  end.
  clearbody m. unfold pro_drain, Pro.peltier_power_draw, Pro.time_step_s.
  destruct (Pro.peltier_active m); cbn; rewrite E; qdiv;
    unfold inject_Z; split; lra.
Qed.

Lemma pro_manage_fan_duty
    (cpu_temp : Q) (post : bool) (since now : Z) (s : Pro.State) :
  let s' := Pro.manage_fan cpu_temp post since now s in
  0 <= Pro.fan_duty_cycle s' <= 100
  /\ Pro.battery_remaining_wh s' = Pro.battery_remaining_wh s.
Proof.
  unfold Pro.manage_fan.
  destruct (if (cpu_temp <? 50) && negb post then _ else _) as [mode target].
  cbn. split; [apply fan_clamp_bounds | reflexivity].
Qed.

Lemma pro_fan_block_battery (seconds : Z) (post : bool) (s : Pro.State) :
  pro_drain (Pro.fan_power_draw * inject_Z Pro.time_step_s / 3600)
    s (fst (Pro.fan_block seconds post s)).
Proof.
  unfold Pro.fan_block.
  match goal with
  | |- context [Pro.manage_fan ?a ?b ?c ?d s] =>
      destruct (pro_manage_fan_duty a b c d s) as ([D0 D1] & E);
      set (m := Pro.manage_fan a b c d s) in *
  end.
  clearbody m. unfold pro_drain, Pro.fan_power_draw, Pro.time_step_s.
  cbv zeta. destruct (Pro.fan_active m); cbn; rewrite E; qdiv;
    unfold inject_Z; split; lra.
Qed.

Lemma pro_store_blocks_battery (seconds : Z) (fm h : Q) (s : Pro.State) :
  Pro.battery_remaining_wh
    (Pro.hiss_deplete h (Pro.swap_block seconds (Pro.purge_block seconds fm s)))
  = Pro.battery_remaining_wh s.
Proof.
  unfold Pro.hiss_deplete, Pro.swap_block, Pro.weekly_log, Pro.purge_block.
  split_ifs; reflexivity.
Qed.

Lemma pro_before_purge_battery (seconds : Z) (s : Pro.State) :
  pro_drain
    ((Pro.peltier_power_draw + Pro.fan_power_draw)
     * inject_Z Pro.time_step_s / 3600)
    s (fst (fst (Pro.before_purge seconds s))).
Proof.
  unfold Pro.before_purge.
  set (s1 := Pro.update_post_purge_timer seconds s).
  assert (B1 : Pro.battery_remaining_wh s1 = Pro.battery_remaining_wh s)
    by reflexivity.
  clearbody s1.
  assert (B2 := pro_peltier_block_battery seconds s1).
  destruct (Pro.peltier_block seconds s1) as [s2 pc]. cbn [fst] in B2.
  assert (B3 := pro_fan_block_battery seconds
                  (Pro.is_post_purge seconds s) s2).
  destruct (Pro.fan_block seconds (Pro.is_post_purge seconds s) s2)
    as [s3 fm].
  cbn [fst] in B3. unfold Pro.cooling_block. cbv zeta. cbn [fst].
  unfold pro_drain in *. cbn. rewrite B1 in B2.
  unfold Pro.peltier_power_draw, Pro.fan_power_draw, Pro.time_step_s in *.
  qdiv. unfold inject_Z in *. destruct B2, B3. split; lra.
Qed.

Lemma pro_step_battery (np_sin_pi : Q -> Q) (t : Z) (s : Pro.State) :
  pro_drain
    ((Pro.peltier_power_draw + Pro.fan_power_draw)
     * inject_Z Pro.time_step_s / 3600)
    s (fst (Pro.step np_sin_pi t s)).
Proof.
  destruct (pro_step_stages np_sin_pi t s) as (s4 & fm & tc & Eb & Es).
  assert (H4 := pro_before_purge_battery (t * Pro.time_step_s) s).
  rewrite Eb in H4. cbn [fst] in H4.
  assert (E := pro_store_blocks_battery (t * Pro.time_step_s) fm
                 (Pro.hiss_energy (t * Pro.time_step_s) s) s4).
  set (a := Pro.hiss_deplete _ _) in *. clearbody a. rewrite Es.
  match goal with
  | |- context [Pro.battery_check ?t ?sec
                  (Pro.status_block ?sec (Pro.integrate ?c ?k a))] =>
      destruct (pro_tail_counters t sec c k a)
        as (_ & _ & _ & _ & _ & _ & _ & E' & _);
      set (s' := fst (Pro.battery_check t sec
                        (Pro.status_block sec (Pro.integrate c k a)))) in *;
      clearbody s'
  end.
  unfold pro_drain in *. rewrite E', E. exact H4.
Qed.

Lemma pro_loop_battery (np_sin_pi : Q -> Q) (n : nat) :
  forall t s,
    Pro.battery_remaining_wh (Pro.loop np_sin_pi n t s)
    <= Pro.battery_remaining_wh s.
Proof.
  induction n as [|n IH]; intros t s; cbn [Pro.loop]; [lra |].
  destruct (pro_step_battery np_sin_pi t s) as [_ H1].
  destruct (Pro.step np_sin_pi t s) as [s1 stop]. cbn [fst] in H1.
  destruct stop; [exact H1 |].
  specialize (IH (t + 1)%Z s1). lra.
Qed.

Lemma laptop_peltier_battery (dt seconds : Z) (s : LaptopSim.State) :
  (0 <= dt)%Z ->
  let s' := fst (LaptopSim.peltier_block dt
                   (LaptopSim.peltier_switch seconds s)) in
  laptop_drain (LaptopSim.PELTIER_POWER_DRAW * inject_Z dt / 3600) s s'
  /\ LaptopSim.fan_duty_cycle s' = LaptopSim.fan_duty_cycle s.
Proof.
  intro Hdt. assert (Hq : 0 <= inject_Z dt).
  { change 0 with (inject_Z 0). now rewrite <- Zle_Qle. }
  unfold LaptopSim.peltier_block, LaptopSim.peltier_switch, laptop_drain,
    LaptopSim.PELTIER_POWER_DRAW.
  split_ifs; cbn -[inject_Z]; set (x := inject_Z dt) in *; clearbody x;
    qdiv; (split; [split; lra | reflexivity]).
Qed.

Lemma laptop_fan_block_battery
    (dt seconds : Z) (post : bool) (s : LaptopSim.State) :
  (0 <= dt)%Z -> laptop_duty_ok s ->
  let s' := fst (LaptopSim.fan_block dt seconds post s) in
  laptop_drain (LaptopSim.FAN_POWER_DRAW * inject_Z dt / 3600) s s'
  /\ laptop_duty_ok s'.
Proof.
  intros Hdt Hd. assert (Hq : 0 <= inject_Z dt).
  { change 0 with (inject_Z 0). now rewrite <- Zle_Qle. }
  destruct (laptop_fan_block_duty dt seconds post s) as (tg & Ht & Ed & _).
  cbv zeta in Ed.
  assert (Hd' : laptop_duty_ok (fst (LaptopSim.fan_block dt seconds post s))).
  { unfold laptop_duty_ok in *. rewrite Ed.
    destruct (LaptopSim.fan_duty_cycle s <? tg)%Z;
      [lia | destruct (tg <? LaptopSim.fan_duty_cycle s)%Z; lia]. }
  cbv zeta. split; [| exact Hd'].
  revert Hd'. unfold laptop_duty_ok. clear Ed.
  unfold LaptopSim.fan_block.
  destruct (if (LaptopSim.temperature_c s <? 50) && negb post then _ else _)
    as [mode target].
  cbv zeta.
  match goal with
  | |- context [LaptopSim.set_fan_active ?b ?m] =>
      set (m1 := LaptopSim.set_fan_active b m);
      assert (E : LaptopSim.battery_remaining_wh m1
                  = LaptopSim.battery_remaining_wh s)
        by (subst m1; split_ifs; reflexivity);
      clearbody m1
  end.
  unfold laptop_drain, LaptopSim.FAN_POWER_DRAW.
  destruct (LaptopSim.fan_active m1); cbn [fst]; cbn -[inject_Z]; rewrite E;
    intros [D0 D1]; [| qdiv; split; lra].
  assert (Q0 : 0 <= inject_Z (LaptopSim.fan_duty_cycle m1)).
  { change 0 with (inject_Z 0). now rewrite <- Zle_Qle. }
  assert (Q1 : inject_Z (LaptopSim.fan_duty_cycle m1) <= 100).
  { change 100 with (inject_Z 100). now rewrite <- Zle_Qle. }
  set (d := inject_Z (LaptopSim.fan_duty_cycle m1)) in *.
  set (x := inject_Z dt) in *. clearbody d x.
  qdiv. split; nra.
Qed.

Lemma laptop_store_blocks_battery
    (seconds : Z) (fm h : Q) (s : LaptopSim.State) :
  let a := LaptopSim.hiss_deplete h
             (LaptopSim.swap_block seconds
                (LaptopSim.purge_block seconds fm s)) in
  LaptopSim.battery_remaining_wh a = LaptopSim.battery_remaining_wh s
  /\ LaptopSim.fan_duty_cycle a = LaptopSim.fan_duty_cycle s.
Proof.
  unfold LaptopSim.hiss_deplete, LaptopSim.swap_block, LaptopSim.purge_block.
  split_ifs; split; reflexivity.
Qed.

Lemma laptop_before_purge_battery (dt seconds : Z) (s : LaptopSim.State) :
  (0 <= dt)%Z -> laptop_duty_ok s ->
  let s' := fst (fst (LaptopSim.before_purge dt seconds s)) in
  laptop_drain
    ((LaptopSim.PELTIER_POWER_DRAW + LaptopSim.FAN_POWER_DRAW)
     * inject_Z dt / 3600) s s'
  /\ laptop_duty_ok s'.
Proof.
  intros Hdt Hd. unfold LaptopSim.before_purge. cbv zeta.
  set (s2 := LaptopSim.add_contribution add_co2_hiss _ _).
  assert (B2 : LaptopSim.battery_remaining_wh s2
               = LaptopSim.battery_remaining_wh s) by reflexivity.
  assert (D2 : LaptopSim.fan_duty_cycle s2 = LaptopSim.fan_duty_cycle s)
    by reflexivity.
  clearbody s2.
  destruct (laptop_peltier_battery dt seconds s2 Hdt) as (B3 & D3).
  destruct (LaptopSim.peltier_block dt (LaptopSim.peltier_switch seconds s2))
    as [s3 pc].
  cbn [fst] in B3, D3.
  assert (Hd3 : laptop_duty_ok s3)
    by (unfold laptop_duty_ok in *; now rewrite D3, D2).
  destruct (laptop_fan_block_battery dt seconds
              (LaptopSim.is_post_purge seconds s) s3 Hdt Hd3) as (B4 & Hd4).
  destruct (LaptopSim.fan_block dt seconds
              (LaptopSim.is_post_purge seconds s) s3) as [s4 fm].
  cbn [fst] in B4, Hd4. unfold LaptopSim.cooling_block. cbv zeta. cbn [fst].
  split; [| exact Hd4].
  unfold laptop_drain in *. cbn -[inject_Z]. rewrite B2 in B3.
  unfold LaptopSim.PELTIER_POWER_DRAW, LaptopSim.FAN_POWER_DRAW in *.
  set (x := inject_Z dt) in *. clearbody x.
  qdiv. destruct B3, B4. split; lra.
Qed.

Lemma laptop_step_battery
    (np_sin_pi : Q -> Q) (dt t : Z) (s : LaptopSim.State) :
  (0 <= dt)%Z -> laptop_duty_ok s ->
  let s' := LaptopSim.step np_sin_pi dt t s in
  laptop_drain
    ((LaptopSim.PELTIER_POWER_DRAW + LaptopSim.FAN_POWER_DRAW)
     * inject_Z dt / 3600) s s'
  /\ laptop_duty_ok s'.
Proof.
  intros Hdt Hd.
  destruct (laptop_step_stages np_sin_pi dt t s) as (s4 & fm & tc & Eb & Es).
  destruct (laptop_before_purge_battery dt (t * dt) s Hdt Hd) as (H4 & Hd4).
  rewrite Eb in H4, Hd4. cbn [fst] in H4, Hd4.
  destruct (laptop_store_blocks_battery (t * dt) fm
              (LaptopSim.hiss_energy (t * dt) s) s4) as (E & D).
  cbv zeta in E, D.
  set (a := LaptopSim.hiss_deplete _ _) in *. clearbody a.
  cbv zeta. rewrite Es.
  match goal with
  | |- context [LaptopSim.status_block ?sec (LaptopSim.integrate ?d ?c ?k a)] =>
      destruct (laptop_finish_counters d sec c k a)
        as (_ & _ & _ & E' & D' & _);
      set (s' := LaptopSim.status_block sec (LaptopSim.integrate d c k a))
        in *;
      clearbody s'
  end.
  unfold laptop_drain, laptop_duty_ok in *. rewrite E', D', E, D.
  split; assumption.
Qed.

Lemma laptop_loop_battery (np_sin_pi : Q -> Q) (dt : Z) (n : nat) :
  forall t s,
    (0 <= dt)%Z -> laptop_duty_ok s ->
    LaptopSim.battery_remaining_wh (LaptopSim.loop np_sin_pi dt n t s)
    <= LaptopSim.battery_remaining_wh s.
Proof.
  induction n as [|n IH]; intros t s Hdt Hd; cbn [LaptopSim.loop]; [lra |].
  destruct (laptop_step_battery np_sin_pi dt t s Hdt Hd) as ([_ H1] & Hd1).
  specialize (IH (t + 1)%Z _ Hdt Hd1). lra.
Qed.

(** X15: the battery only drains.  One iteration of the year-long
    [4o1-pro] script lowers [battery_remaining_wh] by at most the Peltier's
    and the fan's full draw over a time step, (30 + 0.25) * 5 / 3600 Wh, and
    never raises it, so it never rises over a run; the same holds for
    [laptop_sim.py] with its time step in place of 5 s, for a time step that
    is not negative and a fan duty cycle within 0..100, which every
    iteration keeps there. *)
Theorem X15_battery_only_drains :
  (forall np_sin_pi t s,
     let s' := fst (Pro.step np_sin_pi t s) in
     Pro.battery_remaining_wh s
       - (Pro.peltier_power_draw + Pro.fan_power_draw)
         * inject_Z Pro.time_step_s / 3600
       <= Pro.battery_remaining_wh s'
     /\ Pro.battery_remaining_wh s' <= Pro.battery_remaining_wh s)
  /\ (forall np_sin_pi n t s,
        Pro.battery_remaining_wh (Pro.loop np_sin_pi n t s)
        <= Pro.battery_remaining_wh s)
  /\ (forall np_sin_pi time_step_s t s,
        (0 <= time_step_s)%Z ->
        (0 <= LaptopSim.fan_duty_cycle s <= 100)%Z ->
        let s' := LaptopSim.step np_sin_pi time_step_s t s in
        LaptopSim.battery_remaining_wh s
          - (LaptopSim.PELTIER_POWER_DRAW + LaptopSim.FAN_POWER_DRAW)
            * inject_Z time_step_s / 3600
          <= LaptopSim.battery_remaining_wh s'
        /\ LaptopSim.battery_remaining_wh s'
           <= LaptopSim.battery_remaining_wh s
        /\ (0 <= LaptopSim.fan_duty_cycle s' <= 100)%Z)
  /\ (forall np_sin_pi time_step_s n t s,
        (0 <= time_step_s)%Z ->
        (0 <= LaptopSim.fan_duty_cycle s <= 100)%Z ->
        LaptopSim.battery_remaining_wh
          (LaptopSim.loop np_sin_pi time_step_s n t s)
        <= LaptopSim.battery_remaining_wh s).
Proof.
  split; [| split; [| split]].
  - intros np t s. exact (pro_step_battery np t s).
  - intros np n t s. apply pro_loop_battery.
  - intros np dt t s Hdt Hd.
    destruct (laptop_step_battery np dt t s Hdt Hd) as ([A B] & C).
    cbv zeta. auto.
  - intros np dt n t s Hdt Hd. now apply laptop_loop_battery.
Qed.

(** Three 5 s steps of [laptop_sim.py] from its initial state. *)
Lemma X15_battery_only_drains_witness :
  LaptopSim.battery_remaining_wh (LaptopSim.loop zero_wave 5 3 0 LaptopSim.init)
  <= LaptopSim.battery_remaining_wh LaptopSim.init.
Proof.
  apply (proj2 (proj2 (proj2 X15_battery_only_drains)) zero_wave 5%Z 3%nat
           0%Z LaptopSim.init).
  - lia.
  - cbn. lia.
Defined.

(** ** Temperature floor, peak and log (year-long script) *)

Lemma pro_integrate_temp (cpu cooling : Q) (a : Pro.State) :
  let s' := Pro.integrate cpu cooling a in
  Pro.initial_temp_c * 0.8 <= Pro.temperature_c s'
  /\ Pro.temperature_c s' <= Pro.peak_temp_c s'
  /\ Pro.peak_temp_c a <= Pro.peak_temp_c s'
  /\ Pro.temperature_log s'
     = Pro.temperature_log a ++ [Pro.temperature_c s'].
Proof.
  unfold Pro.integrate. cbv zeta.
  set (x := Pro.temperature_c a + _).
  cbn. assert (F := Q.le_max_l (Pro.initial_temp_c * 0.8) x).
  destruct (Pro.peak_temp_c a <? Qmax (Pro.initial_temp_c * 0.8) x) eqn:P;
    cbn; qprop; repeat split; (exact F || lra).
Qed.

Lemma pro_finish_temp (t seconds : Z) (b : Pro.State) :
  let s' := fst (Pro.battery_check t seconds (Pro.status_block seconds b)) in
  Pro.temperature_c s' = Pro.temperature_c b
  /\ Pro.peak_temp_c s' = Pro.peak_temp_c b
  /\ Pro.temperature_log s' = Pro.temperature_log b.
Proof.
  unfold Pro.battery_check, Pro.status_block. split_ifs; cbn; auto.
Qed.

Lemma pro_store_blocks_peak (seconds : Z) (fm h : Q) (s : Pro.State) :
  Pro.peak_temp_c
    (Pro.hiss_deplete h (Pro.swap_block seconds (Pro.purge_block seconds fm s)))
  = Pro.peak_temp_c s.
Proof.
  assert (P : Pro.peak_temp_c (Pro.purge_block seconds fm s)
              = Pro.peak_temp_c s)
    by (unfold Pro.purge_block; split_ifs; reflexivity).
  set (s5 := Pro.purge_block seconds fm s) in *. clearbody s5.
  assert (W : Pro.peak_temp_c (Pro.swap_block seconds s5)
              = Pro.peak_temp_c s5)
    by (unfold Pro.swap_block, Pro.weekly_log; split_ifs; reflexivity).
  set (b := Pro.swap_block seconds s5) in *. clearbody b.
  assert (D : Pro.peak_temp_c (Pro.hiss_deplete h b) = Pro.peak_temp_c b)
    by (unfold Pro.hiss_deplete; split_ifs; reflexivity).
  congruence.
Qed.

Lemma pro_step_temp (np_sin_pi : Q -> Q) (t : Z) (s : Pro.State) :
  let s' := fst (Pro.step np_sin_pi t s) in
  Pro.initial_temp_c * 0.8 <= Pro.temperature_c s'
  /\ Pro.temperature_c s' <= Pro.peak_temp_c s'
  /\ Pro.peak_temp_c s <= Pro.peak_temp_c s'
  /\ Pro.temperature_log s'
     = Pro.temperature_log s ++ [Pro.temperature_c s'].
Proof.
  destruct (pro_step_stages np_sin_pi t s) as (s4 & fm & tc & Eb & Es).
  destruct (pro_before_purge_counters (t * Pro.time_step_s) s)
    as (_ & _ & _ & Ep4).
  destruct (pro_before_integration_bookkeeping (t * Pro.time_step_s) s)
    as (El & _).
  unfold Pro.before_integration, Pro.before_hiss_usage in El.
  rewrite Eb in Ep4, El. cbn [fst] in Ep4.
  assert (Ep := pro_store_blocks_peak (t * Pro.time_step_s) fm
                  (Pro.hiss_energy (t * Pro.time_step_s) s) s4).
  set (a := Pro.hiss_deplete _ _) in *. clearbody a.
  cbv zeta. rewrite Es.
  match goal with
  | |- context [Pro.battery_check ?t ?sec
                  (Pro.status_block ?sec (Pro.integrate ?c ?k a))] =>
      destruct (pro_integrate_temp c k a) as (I1 & I2 & I3 & I4);
      set (i := Pro.integrate c k a) in *; clearbody i;
      destruct (pro_finish_temp t sec i) as (F1 & F2 & F3);
      set (s' := fst (Pro.battery_check t sec (Pro.status_block sec i))) in *;
      clearbody s'
  end.
  rewrite F1, F2, F3, I4, El. rewrite Ep, Ep4 in I3.
  repeat split; (assumption || reflexivity).
Qed.

Lemma pro_step_peak_ok (np_sin_pi : Q -> Q) (t : Z) (s : Pro.State) :
  pro_peak_ok s -> pro_peak_ok (fst (Pro.step np_sin_pi t s)).
Proof.
  unfold pro_peak_ok. intro H.
  destruct (pro_step_temp np_sin_pi t s) as (T1 & T2 & T3 & T4).
  rewrite T4. apply Forall_app. split.
  - eapply Forall_impl; [| exact H]. cbv beta. intros x [A B].
    split; [exact A | lra].
  - constructor; [split; assumption | constructor].
Qed.

Lemma pro_loop_peak_ok (np_sin_pi : Q -> Q) (n : nat) :
  forall t s,
    pro_peak_ok s ->
    pro_peak_ok (Pro.loop np_sin_pi n t s)
    /\ Pro.peak_temp_c s <= Pro.peak_temp_c (Pro.loop np_sin_pi n t s).
Proof.
  induction n as [|n IH]; intros t s H; cbn [Pro.loop];
    [split; [exact H | lra] |].
  assert (H1 := pro_step_peak_ok np_sin_pi t s H).
  destruct (pro_step_temp np_sin_pi t s) as (_ & _ & T3 & _).
  destruct (Pro.step np_sin_pi t s) as [s1 stop]. cbn [fst] in *.
  destruct stop; [split; assumption |].
  destruct (IH (t + 1)%Z s1 H1) as [A B]. split; [exact A | lra].
Qed.

(** X16: the net temperature update of the year-long [4o1-pro] script
    leaves the temperature at or above 0.8 * [initial_temp_c] = 20 C and at
    or below [peak_temp_c], which it never lowers, and appends exactly the
    new temperature to the log.  So at the end of a run every logged
    temperature lies between 20 C and the reported peak. *)
Theorem X16_pro_temperature_floor_and_peak :
  (forall np_sin_pi t s,
     let s' := fst (Pro.step np_sin_pi t s) in
     Pro.initial_temp_c * 0.8 <= Pro.temperature_c s'
     /\ Pro.temperature_c s' <= Pro.peak_temp_c s'
     /\ Pro.peak_temp_c s <= Pro.peak_temp_c s'
     /\ Pro.temperature_log s'
        = Pro.temperature_log s ++ [Pro.temperature_c s'])
  /\ (forall np_sin_pi,
        Forall (fun x => 20 <= x <= Pro.peak_temp_c (Pro.run np_sin_pi))
          (Pro.temperature_log (Pro.run np_sin_pi)))
  /\ (forall np_sin_pi,
        Pro.initial_temp_c <= Pro.peak_temp_c (Pro.run np_sin_pi)).
Proof.
  assert (I : pro_peak_ok Pro.init) by constructor.
  split; [exact pro_step_temp | split]; intro np; rewrite pro_run_is_loop;
    destruct (pro_loop_peak_ok np (Z.to_nat (Pro.n_steps Pro.init)) 0%Z
                Pro.init I) as [A B].
  - eapply Forall_impl; [| exact A]. cbv beta.
    unfold Pro.initial_temp_c. intros x [C D]. split; lra.
  - exact B.
Qed.

(** ** Canister swaps in [laptop_sim.py] *)

Lemma laptop_step_swap
    (np_sin_pi : Q -> Q) (dt t : Z) (s : LaptopSim.State) :
  let s' := LaptopSim.step np_sin_pi dt t s in
  (LaptopSim.current_canister s' = LaptopSim.current_canister s
   /\ LaptopSim.canister_swaps s' = LaptopSim.canister_swaps s)
  \/ (LaptopSim.current_canister s = 0%nat
      /\ LaptopSim.current_canister s' = 1%nat
      /\ LaptopSim.canister_swaps s' = (LaptopSim.canister_swaps s + 1)%Z).
Proof.
  destruct (laptop_step_stages np_sin_pi dt t s) as (s4 & fm & tc & Eb & Es).
  destruct (laptop_before_purge_spec dt (t * dt) s) as (_ & Ei4 & _).
  destruct (laptop_before_purge_counters dt (t * dt) s) as (_ & Ew4 & _).
  rewrite Eb in Ei4, Ew4. cbn [fst] in Ei4, Ew4.
  assert (P : LaptopSim.current_canister (LaptopSim.purge_block (t * dt) fm s4)
              = LaptopSim.current_canister s4
              /\ LaptopSim.canister_swaps (LaptopSim.purge_block (t * dt) fm s4)
                 = LaptopSim.canister_swaps s4).
  { unfold LaptopSim.purge_block. split_ifs; split; reflexivity. }
  set (s5 := LaptopSim.purge_block (t * dt) fm s4) in *. clearbody s5.
  assert (W : (LaptopSim.current_canister (LaptopSim.swap_block (t * dt) s5)
               = LaptopSim.current_canister s5
               /\ LaptopSim.canister_swaps (LaptopSim.swap_block (t * dt) s5)
                  = LaptopSim.canister_swaps s5)
              \/ (LaptopSim.current_canister s5 = 0%nat
                  /\ LaptopSim.current_canister
                       (LaptopSim.swap_block (t * dt) s5) = 1%nat
                  /\ LaptopSim.canister_swaps
                       (LaptopSim.swap_block (t * dt) s5)
                     = (LaptopSim.canister_swaps s5 + 1)%Z)).
  { unfold LaptopSim.swap_block.
    destruct (LaptopSim.active_energy s5 <? 50); cbn [andb];
      [| left; split; reflexivity].
    destruct (LaptopSim.current_canister s5 =? 0)%nat eqn:Z0;
      [| left; split; reflexivity].
    apply Nat.eqb_eq in Z0. right. cbn. auto. }
  set (b := LaptopSim.swap_block (t * dt) s5) in *. clearbody b.
  set (a := LaptopSim.hiss_deplete (LaptopSim.hiss_energy (t * dt) s) b)
    in *.
  assert (D : LaptopSim.current_canister a = LaptopSim.current_canister b
              /\ LaptopSim.canister_swaps a = LaptopSim.canister_swaps b)
    by (split; reflexivity).
  clearbody a. cbv zeta. rewrite Es.
  match goal with
  | |- context [LaptopSim.status_block ?sec (LaptopSim.integrate ?d ?c ?k a)] =>
      destruct (laptop_finish_frame d sec c k a) as (_ & Ei & _);
      destruct (laptop_finish_counters d sec c k a) as (_ & Ew & _);
      set (s' := LaptopSim.status_block sec (LaptopSim.integrate d c k a))
        in *;
      clearbody s'
  end.
  destruct P as [P1 P2], D as [D1 D2].
  rewrite Ei, Ew, D1, D2.
  destruct W as [[W1 W2] | (W0 & W1 & W2)]; [left | right];
    rewrite W1, W2; repeat split; congruence.
Qed.

Lemma laptop_step_swapped_once
    (np_sin_pi : Q -> Q) (dt t : Z) (s : LaptopSim.State) :
  laptop_swapped_once s ->
  laptop_swapped_once (LaptopSim.step np_sin_pi dt t s).
Proof.
  unfold laptop_swapped_once.
  destruct (laptop_step_swap np_sin_pi dt t s)
    as [[A B] | (A & B & C)]; rewrite ?A, ?B, ?C; intro H.
  - exact H.
  - destruct H as [[H1 H2] | [H1 H2]]; [right | congruence].
    split; [reflexivity | lia].
Qed.

Lemma laptop_loop_swapped_once (np_sin_pi : Q -> Q) (dt : Z) (n : nat) :
  forall t s,
    laptop_swapped_once s ->
    laptop_swapped_once (LaptopSim.loop np_sin_pi dt n t s).
Proof.
  induction n as [|n IH]; intros t s H; cbn [LaptopSim.loop]; [exact H |].
  apply IH. now apply laptop_step_swapped_once.
Qed.

(** X17: [laptop_sim.py] swaps canisters only from canister 0 to
    canister 1.  An iteration either leaves the active index and the swap
    counter alone or moves from 0 to 1 and counts one swap; once canister 1
    is active it stays active and no further swap is counted, however empty
    it is.  So a whole run ends either on canister 0 with no swap or on
    canister 1 with exactly one: there is no way back and no refill. *)
Theorem X17_laptop_swaps_at_most_once :
  (forall np_sin_pi time_step_s t s,
     LaptopSim.current_canister s = 1%nat ->
     let s' := LaptopSim.step np_sin_pi time_step_s t s in
     LaptopSim.current_canister s' = 1%nat
     /\ LaptopSim.canister_swaps s' = LaptopSim.canister_swaps s)
  /\ (forall np_sin_pi total_time_s time_step_s r,
        LaptopSim.run_simulation np_sin_pi total_time_s time_step_s = Some r ->
        (LaptopSim.current_canister r = 0%nat
         /\ LaptopSim.canister_swaps r = 0%Z)
        \/ (LaptopSim.current_canister r = 1%nat
            /\ LaptopSim.canister_swaps r = 1%Z)).
Proof.
  split.
  - intros np dt t s H1. cbv zeta.
    destruct (laptop_step_swap np dt t s) as [[A B] | (A & _)];
      [split; congruence | congruence].
  - intros np total dt r Hr. unfold LaptopSim.run_simulation in Hr.
    destruct (dt =? 0)%Z; [discriminate |].
    injection Hr as <-.
    apply laptop_loop_swapped_once. left. split; reflexivity.
Qed.

(** Late in a long run canister 1 is active with 0.3 J left: the next
    iteration stays on it and counts no swap. *)
Lemma X17_laptop_swaps_witness :
  let s' := LaptopSim.step zero_wave 5 1000 laptop_nearly_empty in
  LaptopSim.current_canister s' = 1%nat
  /\ LaptopSim.canister_swaps s' = LaptopSim.canister_swaps laptop_nearly_empty.
Proof.
  apply (proj1 X17_laptop_swaps_at_most_once zero_wave 5%Z 1000%Z
           laptop_nearly_empty).
  reflexivity.
Defined.

(** ** [run_simulation] before and after its loop *)

Lemma py_max_fold (tl : list Q) :
  forall x,
    let p := fold_left (fun m y => if m <? y then y else m) tl x in
    In p (x :: tl) /\ x <= p /\ Forall (fun y => y <= p) tl.
Proof.
  induction tl as [|y tl IH]; intro x; cbn [fold_left].
  - cbv zeta. split; [left; reflexivity | split; [lra | constructor]].
  - cbv zeta. destruct (x <? y) eqn:C; qprop.
    + destruct (IH y) as (I & L & F). cbv zeta in I, L, F.
      split; [right; exact I | split; [lra | constructor; assumption]].
    + destruct (IH x) as (I & L & F). cbv zeta in I, L, F.
      split; [| split; [exact L | constructor; [lra | exact F]]].
      destruct I as [I | I]; [left; exact I | right; right; exact I].
Qed.

Lemma py_max_spec (l : list Q) :
  match py_max l with
  | None => l = []
  | Some p => In p l /\ Forall (fun y => y <= p) l
  end.
Proof.
  destruct l as [|x tl]; cbn [py_max]; [reflexivity |].
  destruct (py_max_fold tl x) as (I & L & F). cbv zeta in I, L, F.
  split; [exact I | constructor; assumption].
Qed.

(** X18: [run_simulation(total_time_s, time_step_s)] of [laptop_sim.py]
    raises at [total_time_s // time_step_s] exactly when the time step
    is 0; otherwise its loop logs one temperature per step,
    [total_time_s // time_step_s] of them, none when that quotient is zero
    or negative.  The summary's [max(temperature_log)] then raises on the
    empty log, so the peak line is computed exactly when the time step is
    not 0 and the quotient is positive, and the peak is then a logged
    temperature that no logged temperature exceeds. *)
Theorem X18_run_simulation_edges :
  (forall np_sin_pi total_time_s time_step_s,
     LaptopSim.run_simulation np_sin_pi total_time_s time_step_s = None
     <-> time_step_s = 0%Z)
  /\ (forall np_sin_pi total_time_s time_step_s r,
        LaptopSim.run_simulation np_sin_pi total_time_s time_step_s = Some r ->
        length (LaptopSim.temperature_log r)
        = Z.to_nat (total_time_s / time_step_s))
  /\ (forall np_sin_pi total_time_s time_step_s,
        LaptopSim.summary_peak np_sin_pi total_time_s time_step_s = None
        <-> time_step_s = 0%Z \/ (total_time_s / time_step_s <= 0)%Z)
  /\ (forall np_sin_pi total_time_s time_step_s r p,
        LaptopSim.run_simulation np_sin_pi total_time_s time_step_s = Some r ->
        LaptopSim.summary_peak np_sin_pi total_time_s time_step_s = Some p ->
        In p (LaptopSim.temperature_log r)
        /\ Forall (fun y => y <= p) (LaptopSim.temperature_log r)).
Proof.
  assert (L : forall np total dt r,
             LaptopSim.run_simulation np total dt = Some r ->
             length (LaptopSim.temperature_log r) = Z.to_nat (total / dt)).
  { intros np total dt r Hr. unfold LaptopSim.run_simulation in Hr.
    destruct (dt =? 0)%Z; [discriminate |]. injection Hr as <-.
    rewrite laptop_loop_runs_all. reflexivity. }
  split; [| split; [exact L | split]].
  - intros np total dt. unfold LaptopSim.run_simulation.
    destruct (dt =? 0)%Z eqn:Z0.
    + apply Z.eqb_eq in Z0. tauto.
    + apply Z.eqb_neq in Z0. split; [discriminate | contradiction].
  - intros np total dt. unfold LaptopSim.summary_peak.
    destruct (LaptopSim.run_simulation np total dt) as [r |] eqn:Hr.
    + assert (Hl := L np total dt r Hr).
      assert (Hd : dt <> 0%Z).
      { intro Z0. unfold LaptopSim.run_simulation in Hr.
        apply Z.eqb_eq in Z0. rewrite Z0 in Hr. discriminate. }
      assert (M := py_max_spec (LaptopSim.temperature_log r)).
      destruct (py_max (LaptopSim.temperature_log r)) as [p |].
      * split; [discriminate |]. intros [Z0 | Hn]; [contradiction |].
        destruct M as [I _].
        destruct (LaptopSim.temperature_log r); [destruct I |].
        cbn [length] in Hl. lia.
      * rewrite M in Hl. cbn [length] in Hl. split; [| reflexivity].
        intros _. right. lia.
    + split; [| reflexivity]. intros _. left.
      unfold LaptopSim.run_simulation in Hr.
      destruct (dt =? 0)%Z eqn:Z0; [| discriminate].
      now apply Z.eqb_eq.
  - intros np total dt r p Hr Hp. unfold LaptopSim.summary_peak in Hp.
    rewrite Hr in Hp.
    assert (M := py_max_spec (LaptopSim.temperature_log r)).
    rewrite Hp in M. exact M.
Qed.

(** Three steps of 90000 s: three logged temperatures. *)
Lemma X18_run_simulation_witness :
  length (LaptopSim.temperature_log
            (LaptopSim.loop zero_wave 90000 3 0 LaptopSim.init))
  = Z.to_nat (270000 / 90000).
Proof.
  apply (proj1 (proj2 X18_run_simulation_edges) zero_wave 270000%Z 90000%Z).
  reflexivity.
Defined.

(** ** The cooling ledger (year-long script) *)

Lemma ledger_le_refl (c : Contribution) : ledger_le c c.
Proof. unfold ledger_le. repeat split; lra. Qed.

Lemma ledger_le_trans (c1 c2 c3 : Contribution) :
  ledger_le c1 c2 -> ledger_le c2 c3 -> ledger_le c1 c3.
Proof. unfold ledger_le. intuition lra. Qed.

Lemma pro_peltier_block_cooling (seconds : Z) (s : Pro.State) :
  0 <= snd (Pro.peltier_block seconds s).
Proof.
  unfold Pro.peltier_block. cbv zeta.
  destruct (Pro.peltier_active (Pro.manage_peltier _ _ _ _ s));
    cbn [snd]; [| lra].
  match goal with
  | |- context [Pro.calculate_peltier_efficiency ?a ?b] =>
      assert (E : 0.1 <= Pro.calculate_peltier_efficiency a b);
      [| set (e := Pro.calculate_peltier_efficiency a b) in *; clearbody e]
  end.
  - unfold Pro.calculate_peltier_efficiency, Pro.peltier_efficiency_base.
    cbv zeta. split_ifs; try lra; apply Q.le_max_l.
  - unfold Pro.peltier_max_cooling_watts. lra.
Qed.

Lemma pro_cooling_block_ledger (p c h pe fm : Q) (s : Pro.State) :
  0 <= p -> 0 <= c -> 0 <= h -> 0 <= pe -> 1 <= fm ->
  let s' := fst (Pro.cooling_block p c h pe fm s) in
  ledger_le (Pro.cooling_contribution s) (Pro.cooling_contribution s')
  /\ passive (Pro.cooling_contribution s')
     = passive (Pro.cooling_contribution s) + p * inject_Z Pro.time_step_s.
Proof.
  intros Hp Hc Hh Hpe Hfm. unfold Pro.cooling_block, ledger_le.
  cbn -[inject_Z].
  assert (B1 : 0 <= p * (fm - 1)) by (apply Qmult_le_0_compat; lra).
  assert (B2 : 0 <= c * (fm - 1)) by (apply Qmult_le_0_compat; lra).
  assert (B3 : 0 <= h * (fm - 1)) by (apply Qmult_le_0_compat; lra).
  assert (B4 : 0 <= pe * (fm - 1)) by (apply Qmult_le_0_compat; lra).
  repeat split; try reflexivity; unfold Pro.time_step_s, inject_Z; lra.
Qed.

Lemma pro_before_purge_ledger (seconds : Z) (s : Pro.State) :
  let s' := fst (fst (Pro.before_purge seconds s)) in
  ledger_le (Pro.cooling_contribution s) (Pro.cooling_contribution s')
  /\ passive (Pro.cooling_contribution s')
     = passive (Pro.cooling_contribution s)
       + Pro.passive_dissipation_watts * inject_Z Pro.time_step_s.
Proof.
  unfold Pro.before_purge.
  set (s1 := Pro.update_post_purge_timer seconds s).
  assert (K1 : Pro.cooling_contribution s1 = Pro.cooling_contribution s)
    by reflexivity.
  clearbody s1.
  destruct (pro_peltier_block_frame seconds s1) as (_ & _ & _ & K2 & _).
  assert (Hpe := pro_peltier_block_cooling seconds s1).
  destruct (Pro.peltier_block seconds s1) as [s2 pc].
  cbn [fst snd] in K2, Hpe.
  destruct (pro_fan_block_frame seconds (Pro.is_post_purge seconds s) s2)
    as (_ & _ & _ & _ & K3).
  assert (Hfm := pro_fan_block_multiplier seconds
                   (Pro.is_post_purge seconds s) s2).
  destruct (Pro.fan_block seconds (Pro.is_post_purge seconds s) s2)
    as [s3 fm].
  cbn [fst snd] in K3, Hfm.
  assert (Hh : 0 <= Pro.hiss_energy seconds s / inject_Z Pro.time_step_s).
  { assert (N := pro_hiss_energy_nonneg seconds s).
    unfold Pro.time_step_s. qdiv.
    set (x := Pro.hiss_energy seconds s) in *. clearbody x.
    unfold inject_Z. qdiv. lra. }
  assert (Hc : 0 <= (if Pro.is_post_purge seconds s
                     then Pro.conduction_watts else 0))
    by (destruct (Pro.is_post_purge seconds s);
        unfold Pro.conduction_watts; lra).
  assert (Hp : 0 <= Pro.passive_dissipation_watts)
    by (unfold Pro.passive_dissipation_watts; lra).
  destruct (pro_cooling_block_ledger Pro.passive_dissipation_watts _ _ pc fm
              s3 Hp Hc Hh Hpe Hfm) as (L & P).
  cbv zeta in L, P.
  destruct (Pro.cooling_block _ _ _ pc fm s3) as [s4 tc]. cbn [fst] in *.
  rewrite K3, K2, K1 in L, P. split; assumption.
Qed.

Lemma pro_store_blocks_ledger (seconds : Z) (fm h : Q) (s : Pro.State) :
  let a := Pro.hiss_deplete h
             (Pro.swap_block seconds (Pro.purge_block seconds fm s)) in
  ledger_le (Pro.cooling_contribution s) (Pro.cooling_contribution a)
  /\ passive (Pro.cooling_contribution a)
     = passive (Pro.cooling_contribution s).
Proof.
  assert (P : ledger_le (Pro.cooling_contribution s)
                (Pro.cooling_contribution (Pro.purge_block seconds fm s))
              /\ passive (Pro.cooling_contribution
                            (Pro.purge_block seconds fm s))
                 = passive (Pro.cooling_contribution s)).
  { unfold Pro.purge_block.
    destruct (_ || _); [| split; [apply ledger_le_refl | reflexivity]].
    destruct (_ <=? _); [| split; [apply ledger_le_refl | reflexivity]].
    cbn. split; [| reflexivity]. unfold ledger_le. cbn.
    unfold Pro.cooling_effective_joules, Pro.cooling_capacity_joules,
      Pro.purge_efficiency.
    repeat split; lra. }
  set (s5 := Pro.purge_block seconds fm s) in *. clearbody s5.
  assert (W : Pro.cooling_contribution (Pro.swap_block seconds s5)
              = Pro.cooling_contribution s5)
    by (unfold Pro.swap_block, Pro.weekly_log; split_ifs; reflexivity).
  set (b := Pro.swap_block seconds s5) in *. clearbody b.
  assert (D : Pro.cooling_contribution (Pro.hiss_deplete h b)
              = Pro.cooling_contribution b)
    by (unfold Pro.hiss_deplete; split_ifs; reflexivity).
  cbv zeta. rewrite D, W. exact P.
Qed.

Lemma pro_step_ledger (np_sin_pi : Q -> Q) (t : Z) (s : Pro.State) :
  let s' := fst (Pro.step np_sin_pi t s) in
  ledger_le (Pro.cooling_contribution s) (Pro.cooling_contribution s')
  /\ passive (Pro.cooling_contribution s')
     = passive (Pro.cooling_contribution s)
       + Pro.passive_dissipation_watts * inject_Z Pro.time_step_s.
Proof.
  destruct (pro_step_tail np_sin_pi t s) as (_ & _ & Ek & _).
  cbv zeta in Ek. unfold Pro.before_integration, Pro.before_hiss_usage in Ek.
  destruct (pro_before_purge_ledger (t * Pro.time_step_s) s) as (L4 & P4).
  cbv zeta in L4, P4.
  destruct (Pro.before_purge (t * Pro.time_step_s) s) as [[s4 fm] tc].
  cbn [fst] in L4, P4.
  destruct (pro_store_blocks_ledger (t * Pro.time_step_s) fm
              (Pro.hiss_energy (t * Pro.time_step_s) s) s4) as (La & Pa).
  cbv zeta in La, Pa. cbv zeta. rewrite Ek, Pa, P4.
  split; [| reflexivity]. eapply ledger_le_trans; eassumption.
Qed.

Lemma pro_loop_ledger (np_sin_pi : Q -> Q) (n : nat) :
  forall t s,
    ledger_le (Pro.cooling_contribution s)
      (Pro.cooling_contribution (Pro.loop np_sin_pi n t s)).
Proof.
  induction n as [|n IH]; intros t s; cbn [Pro.loop];
    [apply ledger_le_refl |].
  destruct (pro_step_ledger np_sin_pi t s) as [L _]. cbv zeta in L.
  destruct (Pro.step np_sin_pi t s) as [s1 stop]. cbn [fst] in L.
  destruct stop; [exact L |].
  eapply ledger_le_trans; [exact L | apply IH].
Qed.

(** X19: no entry of [cooling_contribution] ever goes down in the
    year-long [4o1-pro] script, and every iteration books exactly
    [passive_dissipation_watts] * 5 s = 7.5 J of passive cooling.  The run
    always executes its first iteration, so the summary's total is at
    least 7.5 J and its branch for a zero total is never taken. *)
Theorem X19_pro_cooling_ledger_grows :
  (forall np_sin_pi t s,
     let s' := fst (Pro.step np_sin_pi t s) in
     ledger_le (Pro.cooling_contribution s) (Pro.cooling_contribution s')
     /\ passive (Pro.cooling_contribution s')
        = passive (Pro.cooling_contribution s)
          + Pro.passive_dissipation_watts * inject_Z Pro.time_step_s)
  /\ (forall np_sin_pi n t s,
        ledger_le (Pro.cooling_contribution s)
          (Pro.cooling_contribution (Pro.loop np_sin_pi n t s)))
  /\ (forall np_sin_pi,
        7.5 <= total_cooling_joules
                 (Pro.cooling_contribution (Pro.run np_sin_pi))).
Proof.
  split; [exact pro_step_ledger | split; [exact pro_loop_ledger |]].
  intro np. rewrite pro_run_is_loop.
  assert (Hn : (0 < Pro.n_steps Pro.init)%Z) by reflexivity.
  set (z := Pro.n_steps Pro.init) in *. clearbody z.
  destruct (Z.to_nat z) as [|n] eqn:E; [lia |]. clear E Hn z.
  cbn [Pro.loop].
  destruct (pro_step_ledger np 0%Z Pro.init) as [L P]. cbv zeta in L, P.
  destruct (Pro.step np 0 Pro.init) as [s1 stop]. cbn [fst] in L, P.
  assert (F : ledger_le (Pro.cooling_contribution s1)
                (Pro.cooling_contribution
                   (if stop then s1 else Pro.loop np n (0 + 1) s1))).
  { destruct stop; [apply ledger_le_refl | apply pro_loop_ledger]. }
  set (r := if stop then s1 else Pro.loop np n (0 + 1) s1) in *.
  clearbody r.
  destruct L as (L1 & L2 & L3 & L4 & L5 & L6).
  destruct F as (F1 & F2 & F3 & F4 & F5 & F6).
  rewrite P in F1. cbn in L2, L3, L4, L5, L6, F1.
  unfold total_cooling_joules, py_sum. cbn [fold_left].
  unfold Pro.passive_dissipation_watts, Pro.time_step_s, inject_Z in F1.
  lra.
Qed.

(** ** The temperature log of [laptop_sim.py] *)

Lemma laptop_finish_log
    (dt seconds : Z) (cpu cooling : Q) (a : LaptopSim.State) :
  let s' := LaptopSim.status_block seconds
              (LaptopSim.integrate dt cpu cooling a) in
  LaptopSim.temperature_log s'
  = LaptopSim.temperature_log a ++ [LaptopSim.temperature_c s'].
Proof.
  unfold LaptopSim.status_block, LaptopSim.integrate. cbv zeta.
  split_ifs; reflexivity.
Qed.

Lemma laptop_step_log_last
    (np_sin_pi : Q -> Q) (dt t : Z) (s : LaptopSim.State) :
  let s' := LaptopSim.step np_sin_pi dt t s in
  LaptopSim.temperature_log s'
  = LaptopSim.temperature_log s ++ [LaptopSim.temperature_c s'].
Proof.
  assert (E := laptop_finish_log dt (t * dt)
                 (LaptopSim.get_cpu_workload np_sin_pi (t * dt))
                 (snd (LaptopSim.before_purge dt (t * dt) s))
                 (LaptopSim.before_integration dt (t * dt) s)).
  cbv zeta in E. rewrite laptop_before_integration_log in E. exact E.
Qed.

Lemma laptop_loop_log_current (np_sin_pi : Q -> Q) (dt : Z) (n : nat) :
  forall t s,
    laptop_log_current s ->
    laptop_log_current (LaptopSim.loop np_sin_pi dt n t s).
Proof.
  induction n as [|n IH]; intros t s H; cbn [LaptopSim.loop]; [exact H |].
  apply IH. eexists. apply laptop_step_log_last.
Qed.

Lemma laptop_loop_zero (np_sin_pi : Q -> Q) (dt t : Z) (s : LaptopSim.State) :
  LaptopSim.loop np_sin_pi dt 0 t s = s.
Proof. reflexivity. Qed.

Lemma laptop_loop_log_current_pos
    (np_sin_pi : Q -> Q) (dt : Z) (n : nat) (t : Z) (s : LaptopSim.State) :
  laptop_log_current (LaptopSim.loop np_sin_pi dt (S n) t s).
Proof.
  cbn [LaptopSim.loop]. apply laptop_loop_log_current.
  eexists. apply laptop_step_log_last.
Qed.

(** X20: every iteration of [laptop_sim.py] appends exactly the
    temperature it ends with to [temperature_log], so after a run of at
    least one step the log's last entry is the final temperature, and the
    summary's peak, [max(temperature_log)], is never below the final
    temperature it reports one line earlier. *)
Theorem X20_laptop_peak_covers_final_temperature :
  (forall np_sin_pi time_step_s t s,
     let s' := LaptopSim.step np_sin_pi time_step_s t s in
     LaptopSim.temperature_log s'
     = LaptopSim.temperature_log s ++ [LaptopSim.temperature_c s'])
  /\ (forall np_sin_pi total_time_s time_step_s r p,
        LaptopSim.run_simulation np_sin_pi total_time_s time_step_s = Some r ->
        LaptopSim.summary_peak np_sin_pi total_time_s time_step_s = Some p ->
        In (LaptopSim.temperature_c r) (LaptopSim.temperature_log r)
        /\ LaptopSim.temperature_c r <= p).
Proof.
  split; [exact laptop_step_log_last |].
  intros np total dt r p Hr Hp.
  unfold LaptopSim.summary_peak in Hp. rewrite Hr in Hp.
  assert (M := py_max_spec (LaptopSim.temperature_log r)).
  rewrite Hp in M. destruct M as [I F].
  assert (J : laptop_log_current r).
  { unfold LaptopSim.run_simulation in Hr.
    destruct (dt =? 0)%Z; [discriminate |]. injection Hr as <-.
    destruct (Z.to_nat (total / dt)) as [|n].
    - rewrite laptop_loop_zero in I. destruct I.
    - apply laptop_loop_log_current_pos. }
  destruct J as [l J].
  assert (K : In (LaptopSim.temperature_c r) (LaptopSim.temperature_log r)).
  { rewrite J. apply in_or_app. right. left. reflexivity. }
  split; [exact K |].
  rewrite Forall_forall in F. now apply F.
Qed.

(** [run_simulation(5, 5)]: one step, whose temperature is the peak. *)
Lemma X20_laptop_peak_witness :
  exists p,
    LaptopSim.summary_peak zero_wave 5 5 = Some p
    /\ LaptopSim.temperature_c (LaptopSim.loop zero_wave 5 1 0 LaptopSim.init)
       <= p.
Proof.
  eexists. split; [vm_compute; reflexivity |].
  apply (proj2 X20_laptop_peak_covers_final_temperature zero_wave 5%Z 5%Z).
  - reflexivity.
  - vm_compute. reflexivity.
Defined.

(** ** The fan multiplier inside the loop *)








